(** * micro_trade_bot: a shallow embedding of the modular trading core

    The development follows the modular sources:
    - [utils/helpers.py], [config.py]      -> [Config], [Helpers]
    - [utils/profit.py]                    -> [Profit]
    - [trading/order_manager.py]           -> [OrderManager]
    - [trading/strategy.py]                -> [Strategy]
    - [bot.py] (balance cache)             -> [Bot]
    - [exchanges/kraken.py], [bitmart.py]  -> [Exchanges]

    Numbers.  Python floats are read as exact rationals ([Q]); IEEE rounding
    is not modelled.  Every concrete input used below is chosen so that the
    comparisons it exercises have a wide margin.

    Effects.  Calls on the exchange handle are oracles passed as arguments;
    what the code sends out (requests, sleeps, cancel and order calls, log
    lines) is returned as an explicit trace.  Dictionaries that are module
    state (the open-order-value ledger, the balance cache) are [gmap]s keyed
    by exchange name; dictionaries that are iterated keep their insertion
    order as association lists. *)

From Stdlib Require Import QArith Qround Qpower Lqa Lia List String Ascii ZArith Bool.
From stdpp Require Import gmap strings.
Import ListNotations.

Local Open Scope Q_scope.

(** ** Python built-ins used by the sources *)
Module Py.

Definition Qltb (a b : Q) : bool := negb (Qle_bool b a).

(** [max(a, b)]: the first argument is kept unless the second is greater. *)
Definition max (a b : Q) : Q := if Qltb a b then b else a.

(** [min(a, b)]: the first argument is kept unless the second is smaller. *)
Definition min (a b : Q) : Q := if Qltb b a then b else a.

(** Nearest integer, ties to even. *)
Definition round_half_even (x : Q) : Z :=
    let f := Qfloor x in
    match Qcompare (x - inject_Z f)%Q (1 # 2)%Q with
    | Lt => f
    | Gt => (f + 1)%Z
    | Eq => if Z.even f then f else (f + 1)%Z
    end.

Definition pow10 (n : Z) : Q := Qpower 10 n.

(** [round(x, ndigits)]. *)
Definition round (x : Q) (ndigits : Z) : Q :=
    inject_Z (round_half_even (x * pow10 ndigits)) / pow10 ndigits.

(** A raw field of an API response on which [float(...)] is called:
      either it converts to a number or the conversion raises
      [ValueError]/[TypeError]. *)
Inductive raw : Type :=
  | Num (q : Q)
  | Bad.

Definition float (r : raw) : option Q :=
    match r with Num q => Some q | Bad => None end.

(** [sub in s] on strings. *)
Fixpoint contains (sub s : string) : bool :=
    String.prefix sub s ||
    match s with
    | EmptyString => false
    | String _ rest => contains sub rest
    end.

Definition lower_ascii (c : ascii) : ascii :=
    let n := nat_of_ascii c in
    if ((65 <=? n) && (n <=? 90))%nat then ascii_of_nat (n + 32) else c.

(** [s.lower()] on ASCII text. *)
Fixpoint lower (s : string) : string :=
    match s with
    | EmptyString => EmptyString
    | String c rest => String (lower_ascii c) (lower rest)
    end.

(** A stable sort by a string key, as [list.sort(key=...)]. *)
Section Sort.
Context {A : Type} (key : A -> string).

Fixpoint insert_by (x : A) (l : list A) : list A :=
      match l with
      | [] => [x]
      | y :: ys =>
          if String.leb (key x) (key y) then x :: y :: ys
          else y :: insert_by x ys
      end.

Fixpoint sort_by (l : list A) : list A :=
      match l with
      | [] => []
      | x :: xs => insert_by x (sort_by xs)
      end.
End Sort.

End Py.

(** ** config.py *)
Module Config.
Definition MAX_ACCOUNT_USAGE_PERCENT : Q := 0.10.
Definition MAX_TRADE_SIZE_PERCENT : Q := 0.03.
Definition PRICE_RANGE_MED : Q := 0.05.
Definition PRICE_RANGE_HIGH : Q := 0.15.
Definition RISK_MULTIPLIER_LOW : Q := 1.0.
Definition RISK_MULTIPLIER_MED : Q := 0.7.
Definition RISK_MULTIPLIER_HIGH : Q := 0.4.
Definition PROFIT_MARGIN_LOW : Q := 0.003.
Definition PROFIT_MARGIN_MED : Q := 0.002.
Definition PROFIT_MARGIN_HIGH : Q := 0.001.
Definition BALANCE_CACHE_DURATION : Q := 60.

(** The two settings read from the environment. *)
Record margin_settings : Type := {
    MARGIN_TRADING_ENABLED : bool;
    DEFAULT_LEVERAGE : Q
  }.

(** Defaults when the environment does not set them. *)
Definition default_margin : margin_settings :=
    {| MARGIN_TRADING_ENABLED := false; DEFAULT_LEVERAGE := 2.0 |}.
End Config.

(** ** utils/helpers.py *)
Module Helpers.
Inductive category : Type := low | medium | high.

Definition get_price_range_category (price : Q) : category :=
    if Qle_bool price Config.PRICE_RANGE_MED then low
    else if Qle_bool price Config.PRICE_RANGE_HIGH then medium
    else high.

Definition get_risk_multiplier (price : Q) : Q :=
    match get_price_range_category price with
    | low => Config.RISK_MULTIPLIER_LOW
    | medium => Config.RISK_MULTIPLIER_MED
    | high => Config.RISK_MULTIPLIER_HIGH
    end.

Definition get_profit_margin (price : Q) : Q :=
    match get_price_range_category price with
    | low => Config.PROFIT_MARGIN_LOW
    | medium => Config.PROFIT_MARGIN_MED
    | high => Config.PROFIT_MARGIN_HIGH
    end.
End Helpers.


(** ** utils/profit.py *)
Module Profit.

(** The [descr] sub-dictionary of a closed order. *)
Record closed_descr : Type := {
  cd_type : option string;
  cd_pair : option string
}.

(** One entry of [closed_orders["closed"]].  A field that is [None] is a
    missing key. *)
Record closed_order : Type := {
  closetm : option Q;
  co_descr : option closed_descr;
  co_status : option string;
  co_vol_exec : option Py.raw;
  co_vol : option Py.raw;
  co_price : option Py.raw;
  co_cost : option Py.raw;
  co_fee : option Py.raw
}.

(** An element of the list [filled_buy_orders]. *)
Record filled_buy : Type := {
  fb_txid : string;
  fb_pair : string;
  fb_volume : Q;
  fb_price : Q;
  fb_cost : Q;
  fb_fee : Q
}.

(** The [sell_trade] dictionary, read with [.get(key, 0)]. *)
Record sell_trade : Type := {
  st_pair : option string;
  st_volume : option Q;
  st_price : option Q;
  st_fees : option Q
}.

Inductive log_line : Type :=
| WarnUnmatched (remaining : Q).

(** [order_info[key]] followed by [float(...)]: a missing key raises
    [KeyError], a bad value [ValueError]; both end the iteration for this
    order. *)
Definition float_field (f : option Py.raw) : option Q :=
  match f with
  | Some r => Py.float r
  | None => None
  end.

(** Lines 29-81: the body of the loop over closed orders, for one order.
    [None] is every way of skipping the order ([continue], or an exception
    caught by one of the three handlers). *)
Definition filled_buy_of (now : Q) (sell : sell_trade)
    (txid : string) (o : closed_order) : option filled_buy :=
  let tm := default 0 (closetm o) in
  if negb (Qeq_bool tm 0) && Py.Qltb 1800 (now - tm) then None
  else
    match co_descr o with
    | None => None
    | Some d =>
        match cd_type d, cd_pair d with
        | Some ty, Some pr =>
            if String.eqb ty "" || String.eqb pr "" then None
            else if negb (String.eqb ty "buy") then None
            else
              match co_status o with
              | None => None
              | Some st =>
                  if negb (String.eqb st "closed") then None
                  else
                    match float_field (co_vol_exec o) with
                    | None => None
                    | Some vol_exec =>
                        if negb (Py.Qltb 0 vol_exec) then None
                        else if negb (bool_decide (Some pr = st_pair sell)) then None
                        else
                          match Py.float (default (Py.Num 0) (co_vol o)) with
                          | None => None
                          | Some vol_orig =>
                              let fill_ratio :=
                                if Py.Qltb 0 vol_orig then vol_exec / vol_orig else 0 in
                              if Py.Qltb fill_ratio 0.95 then None
                              else
                                match float_field (co_price o),
                                      float_field (co_cost o),
                                      float_field (co_fee o) with
                                | Some p, Some c, Some f =>
                                    Some {| fb_txid := txid; fb_pair := pr;
                                            fb_volume := vol_exec; fb_price := p;
                                            fb_cost := c; fb_fee := f |}
                                | _, _, _ => None
                                end
                          end
                    end
              end
        | _, _ => None
        end
    end.

Definition collect_filled_buys (now : Q) (sell : sell_trade)
    (closed : list (string * closed_order)) : list filled_buy :=
  omap (fun '(txid, o) => filled_buy_of now sell txid o) closed.

(** Running totals of the matching loop. *)
Record totals : Type := {
  remaining_sell_volume : Q;
  total_cost : Q;
  total_buy_fees : Q
}.

(** Lines 99-113: the loop over the sorted buys. *)
Fixpoint match_volumes (buys : list filled_buy) (t : totals) : totals :=
  match buys with
  | [] => t
  | buy_order :: rest =>
      if Qle_bool (remaining_sell_volume t) 0 then t
      else
        let buy_volume := fb_volume buy_order in
        let buy_price := fb_price buy_order in
        let buy_fee := fb_fee buy_order in
        let matched_volume := Py.min (remaining_sell_volume t) buy_volume in
        let matched_cost := matched_volume * buy_price in
        let matched_fee :=
          if Py.Qltb 0 buy_volume then buy_fee * (matched_volume / buy_volume) else 0 in
        match_volumes rest
          {| remaining_sell_volume := remaining_sell_volume t - matched_volume;
             total_cost := total_cost t + matched_cost;
             total_buy_fees := total_buy_fees t + matched_fee |}
  end.

(** Lines 83-123: matching a sell against the collected buys.  The result
    is the returned profit ([None] for the early [return None]) and the
    warnings logged. *)
Definition match_sell (filled_buy_orders : list filled_buy) (sell : sell_trade)
    : option Q * list log_line :=
  let sell_volume := default 0 (st_volume sell) in
  let sell_price := default 0 (st_price sell) in
  let sell_fee := default 0 (st_fees sell) in
  match filled_buy_orders with
  | [] => (None, [])
  | _ :: _ =>
      if Qle_bool sell_volume 0 then (None, [])
      else
        let sorted := Py.sort_by fb_txid filled_buy_orders in
        let t := match_volumes sorted
                   {| remaining_sell_volume := sell_volume;
                      total_cost := 0; total_buy_fees := 0 |} in
        let logs :=
          if Py.Qltb 0 (remaining_sell_volume t)
          then [WarnUnmatched (remaining_sell_volume t)] else [] in
        let sell_revenue := sell_volume * sell_price in
        let total_cost_with_fees := total_cost t + total_buy_fees t + sell_fee in
        (Some (sell_revenue - total_cost_with_fees), logs)
  end.

(** [calculate_trade_profit(sell_trade, exchange)], with the answer of
    [exchange.get_closed_orders] and the clock as arguments.  A falsy
    answer ([None] or an empty dictionary) returns [None]. *)
Definition calculate_trade_profit (now : Q)
    (closed_orders : option (list (string * closed_order))) (sell : sell_trade)
    : option Q * list log_line :=
  match closed_orders with
  | None => (None, [])
  | Some closed => match_sell (collect_filled_buys now sell closed) sell
  end.

(** A line of the trade ledger file after [eval]; fields read with [.get]
    are optional. *)
Record trade : Type := {
  t_type : option string;
  t_pair : option string;
  t_price : Q;
  t_volume : option Q;
  t_fees : Q;
  t_order_id : option string;
  t_timestamp : Q;
  matched_volume : option Q;
  fully_matched : option bool
}.

(** An element of [matched_buy_trades]. *)
Record match_info : Type := {
  mi_trade : trade;
  mi_matched_volume : Q
}.

Definition same_buy (pair : string) (buy_trade : trade) (t : trade) : bool :=
  bool_decide (t_order_id t = t_order_id buy_trade)
  && bool_decide (t_type t = Some "buy")
  && bool_decide (t_pair t = Some pair).

(** Lines 165-167: the in-place update of one ledger entry. *)
Definition mark_matched (mv : Q) (t : trade) : trade :=
  let new_mv := default 0 (matched_volume t) + mv in
  {| t_type := t_type t; t_pair := t_pair t; t_price := t_price t;
     t_volume := t_volume t; t_fees := t_fees t; t_order_id := t_order_id t;
     t_timestamp := t_timestamp t;
     matched_volume := Some new_mv;
     fully_matched :=
       if Qle_bool (default 0 (t_volume t)) new_mv then Some true
       else fully_matched t |}.

(** Lines 159-170: update the first ledger entry that is this buy; the
    flag tells whether one was found. *)
Fixpoint update_first (pair : string) (m : match_info) (all_trades : list trade)
    : list trade * bool :=
  match all_trades with
  | [] => ([], false)
  | t :: rest =>
      if same_buy pair (mi_trade m) t
      then (mark_matched (mi_matched_volume m) t :: rest, true)
      else let '(rest', found) := update_first pair m rest in (t :: rest', found)
  end.

Fixpoint update_all (pair : string) (ms : list match_info) (all_trades : list trade)
    (updated_count : nat) : list trade * nat :=
  match ms with
  | [] => (all_trades, updated_count)
  | m :: rest =>
      let '(all_trades', found) := update_first pair m all_trades in
      update_all pair rest all_trades' (if found then S updated_count else updated_count)
  end.

(** The trade ledger file: one entry per non-blank line, [None] for a line
    that [eval] rejects. *)
Definition ledger_file : Type := list (option trade).

(** Lines 140-178, once [config.TRADES_FILE] has been evaluated. *)
Definition rewrite_ledger (matched_buy_trades : list match_info) (pair : string)
    (file : ledger_file) : ledger_file :=
  let all_trades := omap id file in
  let '(all_trades', updated_count) := update_all pair matched_buy_trades all_trades 0 in
  if (0 <? updated_count)%nat then map Some all_trades' else file.

(** The names bound at module level in utils/profit.py: its two imports,
    [logger] and its two functions.  ([import config] occurs only inside
    [calculate_trade_profit], where it binds a local.) *)
Definition module_globals : list string :=
  ["time"; "logging"; "logger"; "calculate_trade_profit"; "update_matched_buy_trades"].

Definition bound_global (name : string) : bool :=
  existsb (String.eqb name) module_globals.

(** [update_matched_buy_trades(matched_buy_trades, pair)] as a function on
    the ledger file.  Evaluating [config.TRADES_FILE] looks [config] up in
    the module globals; a failed lookup raises [NameError], which the
    enclosing [except Exception] logs, leaving the file as it was. *)
Definition update_matched_buy_trades (matched_buy_trades : list match_info)
    (pair : string) (file : ledger_file) : ledger_file :=
  match matched_buy_trades with
  | [] => file
  | _ :: _ =>
      if bound_global "config"
      then rewrite_ledger matched_buy_trades pair file
      else file
  end.

End Profit.


(** ** trading/order_manager.py *)
Module OrderManager.

(** The [descr] sub-dictionary of an open order. *)
Record order_descr : Type := {
  od_price : option Py.raw;
  od_pair : option string;
  od_type : option string
}.

(** One entry of [open_orders_response["open"]]. *)
Record order_info : Type := {
  opentm : option Py.raw;
  oi_descr : option order_descr;
  oi_vol : option Py.raw
}.

(** What the loop body decides for one order: skipped before its value is
    counted, counted and left open, or counted and queued in
    [orders_to_cancel]. *)
Inductive verdict : Type :=
| Skipped
| Kept (order_value : Q)
| Marked (order_value : Q).

(** Lines 32-114, for one order.  [ticker pair] is the current price read
    off [exchange.get_ticker(pair)]: [None] when the answer or its price
    entry is falsy, or when reading it raises an exception that the inner
    handler catches. *)
Definition classify (current_time : Q) (ticker : string -> option Q)
    (o : order_info) : verdict :=
  match opentm o, oi_descr o with
  | Some opentm_raw, Some descr =>
      match Py.float (default (Py.Num 0) (od_price descr)) with
      | None => Skipped
      | Some price =>
          if Qle_bool price 0 then Skipped
          else
            match Py.float opentm_raw with
            | None => Skipped
            | Some order_time =>
                let time_open := current_time - order_time in
                let pair := default "UNKNOWN"%string (od_pair descr) in
                match Py.float (default (Py.Num 0) (oi_vol o)) with
                | None => Skipped
                | Some volume =>
                    let order_type := default "unknown"%string (od_type descr) in
                    if Qle_bool volume 0 then Skipped
                    else
                      let order_value := price * volume in
                      if Py.Qltb 1800 time_open then Marked order_value
                      else if Py.Qltb 600 time_open then
                        match ticker pair with
                        | Some current_price =>
                            if String.eqb order_type "buy"
                               && Py.Qltb current_price (price * 0.95)
                            then Marked order_value
                            else if String.eqb order_type "buy"
                                    && Py.Qltb (price * 1.02) current_price
                            then Marked order_value
                            else Kept order_value
                        | None => Kept order_value
                        end
                      else Kept order_value
                end
            end
      end
  | _, _ => Skipped
  end.

(** Lines 31-114: the loop, threading [total_open_order_value] and
    [orders_to_cancel]. *)
Fixpoint scan (current_time : Q) (ticker : string -> option Q)
    (orders : list (string * order_info))
    (total_open_order_value : Q) (orders_to_cancel : list string)
    : Q * list string :=
  match orders with
  | [] => (total_open_order_value, orders_to_cancel)
  | (txid, o) :: rest =>
      match classify current_time ticker o with
      | Skipped => scan current_time ticker rest total_open_order_value orders_to_cancel
      | Kept v =>
          scan current_time ticker rest (total_open_order_value + v) orders_to_cancel
      | Marked v =>
          scan current_time ticker rest (total_open_order_value + v)
            (orders_to_cancel ++ [txid])
      end
  end.

(** [open_orders_response["open"][txid]]. *)
Fixpoint lookup_order (txid : string) (orders : list (string * order_info))
    : option order_info :=
  match orders with
  | [] => None
  | (k, o) :: rest => if String.eqb txid k then Some o else lookup_order txid rest
  end.

(** Lines 126-130: the value of an order as the cancel loop recomputes it;
    [None] when a conversion raises. *)
Definition cancel_value (o : order_info) : option Q :=
  let descr := default {| od_price := None; od_pair := None; od_type := None |}
                       (oi_descr o) in
  match Py.float (default (Py.Num 0) (od_price descr)),
        Py.float (default (Py.Num 0) (oi_vol o)) with
  | Some price, Some volume => Some (price * volume)
  | _, _ => None
  end.

(** What [exchange.cancel_order(txid)] does: a truthy answer, a falsy one,
    or an exception. *)
Inductive cancel_outcome : Type :=
| CancelOk
| CancelFailed
| CancelRaised.

(** Lines 123-138: the cancel loop.  It returns [canceled_value] and the
    calls made on the exchange, in order.  The outcome of a call only
    chooses which line is printed. *)
Fixpoint cancel_loop (cancel : string -> cancel_outcome)
    (orders : list (string * order_info))
    (orders_to_cancel : list string) (canceled_value : Q) (calls : list string)
    : Q * list string :=
  match orders_to_cancel with
  | [] => (canceled_value, calls)
  | txid :: rest =>
      match lookup_order txid orders with
      | Some o =>
          match cancel_value o with
          | Some v =>
              match cancel txid with
              | CancelOk | CancelFailed | CancelRaised =>
                  cancel_loop cancel orders rest (canceled_value + v) (calls ++ [txid])
              end
          | None => cancel_loop cancel orders rest canceled_value calls
          end
      | None =>
          match cancel txid with
          | CancelOk | CancelFailed | CancelRaised =>
              cancel_loop cancel orders rest canceled_value (calls ++ [txid])
          end
      end
  end.

Record managed : Type := {
  returned : bool;
  ledger : gmap string Q;
  cancel_calls : list string
}.

(** [manage_open_orders(exchange, exchange_open_order_values)].
    [response] is the answer of [exchange.get_open_orders()], [None] when
    it is falsy. *)
Definition manage_open_orders (exchange_name : string) (current_time : Q)
    (ticker : string -> option Q) (cancel : string -> cancel_outcome)
    (response : option (list (string * order_info)))
    (exchange_open_order_values : gmap string Q) : managed :=
  match response with
  | None =>
      {| returned := false; ledger := exchange_open_order_values; cancel_calls := [] |}
  | Some orders =>
      let '(total_open_order_value, orders_to_cancel) :=
        scan current_time ticker orders 0 [] in
      let values1 := <[exchange_name := total_open_order_value]> exchange_open_order_values in
      let '(canceled_value, calls) := cancel_loop cancel orders orders_to_cancel 0 [] in
      let values2 :=
        if Py.Qltb 0 canceled_value
        then <[exchange_name :=
                 Py.max 0 (default 0 (values1 !! exchange_name) - canceled_value)]> values1
        else values1 in
      {| returned := negb (Nat.eqb (length orders_to_cancel) 0);
         ledger := values2;
         cancel_calls := calls |}
  end.

Definition cancel_succeeds (cancel : string -> cancel_outcome) (txid : string) : bool :=
  match cancel txid with
  | CancelOk => true
  | CancelFailed | CancelRaised => false
  end.

(** The exchange side: an order leaves the book exactly when a cancel call
    for it was made and succeeded. *)
Definition still_open (cancel : string -> cancel_outcome) (calls : list string)
    (orders : list (string * order_info)) : list (string * order_info) :=
  List.filter (fun '(txid, _) =>
                 negb (existsb (String.eqb txid) calls && cancel_succeeds cancel txid))
              orders.

(** [price * volume] of an order whose price and volume are numbers. *)
Definition sum_values (orders : list (string * order_info)) : Q :=
  fold_right (fun '(_, o) acc => default 0 (cancel_value o) + acc) 0 orders.

(** *** Sell placement *)

(** An entry of [exchange.get_tradable_pairs()]. *)
Record pair_info : Type := {
  lot_decimals : option Z;
  pair_decimals : option Z;
  ordermin : option Q
}.

(** An element of [filled_buy_orders], with the volume stored by the
    balance check under ['_adjusted_volume']. *)
Record buy_order : Type := {
  bo_txid : string;
  bo_pair : string;
  bo_volume : Q;
  bo_price : Q;
  bo_cost : Q;
  bo_fee : Q;
  bo_adjusted_volume : option Q
}.

Inductive sell_step : Type :=
| BelowMinimum
| PlaceSell (exchange_pair : string) (volume price : Q) (leverage : option Q).

(** Lines 505-508. *)
Definition min_sell_price (buy_price actual_fee_rate : Q) (price_decimals : Z) : Q :=
  let profit_margin := Helpers.get_profit_margin buy_price in
  let total_fees := actual_fee_rate * 2 in
  Py.round (buy_price * (1 + total_fees + profit_margin)) price_decimals.

(** Lines 478-518 of [check_and_place_sell_orders], for one filled buy that
    passed the balance check: everything up to and including the call of
    [exchange.place_sell_order]. *)
Definition place_sell (margin : Config.margin_settings) (exchange_name : string)
    (get_pair_format : string -> string)
    (asset_pairs : option (gmap string pair_info)) (b : buy_order) : sell_step :=
  let volume := bo_volume b in
  let buy_price := bo_price b in
  let actual_fee := bo_fee b in
  let sell_volume := default volume (bo_adjusted_volume b) in
  let exchange_pair := get_pair_format (bo_pair b) in
  let info :=
    match asset_pairs with
    | Some pairs => pairs !! exchange_pair   (* an empty dictionary has no entry *)
    | None => None
    end in
  let '(price_decimals, order_min) :=
    match info with
    | Some i => (default 5%Z (pair_decimals i), default 0.0001 (ordermin i))
    | None => (5%Z, 0.0001)
    end in
  if Py.Qltb sell_volume order_min then BelowMinimum
  else
    let actual_fee_rate :=
      if Py.Qltb 0 (bo_cost b) then actual_fee / bo_cost b else 0.0026 in
    let price := min_sell_price buy_price actual_fee_rate price_decimals in
    let leverage :=
      if Config.MARGIN_TRADING_ENABLED margin && String.eqb exchange_name "kraken"
      then Some (Config.DEFAULT_LEVERAGE margin) else None in
    PlaceSell exchange_pair sell_volume price leverage.

(** What the balance lookup of one attempt gives: a falsy answer, or the
    amount held in the pair's base currency. *)
Inductive balance_answer : Type :=
| BalanceNone
| Available (amount : Q).

(** Lines 450-464: the volume to sell given the balance, [None] when it
    falls below a tenth of the bought volume. *)
Definition adjust_volume (volume available_balance : Q) : option Q :=
  let actual_sell_volume := Py.min volume (available_balance * 0.99) in
  if Py.Qltb actual_sell_volume volume then
    if Py.Qltb actual_sell_volume (volume * 0.1) then None
    else Some actual_sell_volume
  else Some volume.

Inductive balance_check : Type :=
| CheckRaised
| CheckFailed
| CheckOk (adjusted_volume : Q).

(** Lines 418-472: the balance attempts (the waits between them are left
    out).  A falsy answer makes [balance_response.get] raise; nothing
    around the loop catches it. *)
Fixpoint check_balance (balance : nat -> balance_answer) (volume : Q)
    (attempt todo : nat) : balance_check :=
  match todo with
  | O => CheckFailed
  | S todo' =>
      match balance attempt with
      | BalanceNone => CheckRaised
      | Available available_balance =>
          if Qle_bool available_balance 0
          then check_balance balance volume (S attempt) todo'
          else
            match adjust_volume volume available_balance with
            | None => check_balance balance volume (S attempt) todo'
            | Some v => CheckOk v
            end
      end
  end.

Definition max_balance_checks : nat := 3.

(** How the loop body of lines 400-534 ends for one filled buy. *)
Inductive order_step : Type :=
| Duplicate
| BalanceFailed
| Raised
| Step (s : sell_step).

Definition set_adjusted (v : Q) (b : buy_order) : buy_order :=
  {| bo_txid := bo_txid b; bo_pair := bo_pair b; bo_volume := bo_volume b;
     bo_price := bo_price b; bo_cost := bo_cost b; bo_fee := bo_fee b;
     bo_adjusted_volume := Some v |}.

(** The exchange and the balance source, as far as the sell placement
    calls them. *)
Record sell_env : Type := {
  se_name : string;
  se_get_pair_format : string -> string;
  se_get_tradable_pairs : option (gmap string pair_info);
  (** [has_open_sell_orders_for_pair(pair, exchange)] *)
  se_has_open_sell : string -> bool;
  (** the balance seen at each attempt for the buy with this id *)
  se_balance : string -> nat -> balance_answer
}.

Definition sell_for (margin : Config.margin_settings) (env : sell_env)
    (b : buy_order) : order_step :=
  if se_has_open_sell env (bo_pair b) then Duplicate
  else
    match check_balance (se_balance env (bo_txid b)) (bo_volume b) 0 max_balance_checks with
    | CheckRaised => Raised
    | CheckFailed => BalanceFailed
    | CheckOk v =>
        Step (place_sell margin (se_name env) (se_get_pair_format env)
                (se_get_tradable_pairs env) (set_adjusted v b))
    end.

(** Lines 399-534 of [check_and_place_sell_orders]: the loop over the
    filled buys.  An exception of the balance lookup ends the function. *)
Fixpoint check_and_place_sell_orders (margin : Config.margin_settings)
    (env : sell_env) (filled_buy_orders : list buy_order) : list order_step :=
  match filled_buy_orders with
  | [] => []
  | b :: rest =>
      match sell_for margin env b with
      | Raised => [Raised]
      | s => s :: check_and_place_sell_orders margin env rest
      end
  end.

End OrderManager.


(** ** trading/strategy.py *)
Module Strategy.

(** What [exchange.get_order_book(pair, count=10)] yields for the pair: no
    answer, an answer whose entry is falsy, or the bid prices. *)
Inductive order_book : Type :=
| NoBook
| NoBookData
| Bids (bid_prices : list Q).

Definition calculate_dynamic_buy_price (current_price : Q) (lot_decimals : Z)
    (book : order_book) : Q :=
  let buy_price :=
    match book with
    | Bids (best_bid :: _) => best_bid * 1.0001
    | Bids [] => current_price * 1.0002
    | NoBookData => current_price * 1.0001
    | NoBook => current_price * 1.0001
    end in
  let max_reasonable_price := current_price * 1.01 in
  Py.round (Py.min buy_price max_reasonable_price) lot_decimals.

(** What [exchange.get_trade_balance()] gives: a falsy answer, the margin
    level read from it, or an exception. *)
Inductive trade_balance : Type :=
| TradeBalanceNone
| MarginLevel (m : Q)
| TradeBalanceRaised.

(** The exchange handle, as far as the strategy calls it. *)
Record exchange : Type := {
  name : string;
  get_pair_format : string -> string;
  get_tradable_pairs : option (gmap string OrderManager.pair_info);
  get_order_book : string -> order_book;
  get_trade_balance : trade_balance;
  (** [place_buy_order] answers with a truthy order or not; [false] also
      stands for an exception, which the handler around the call swallows. *)
  place_buy_order : string -> Q -> Q -> option Q -> bool
}.

(** How a run of the strategy ends. *)
Inductive step : Type :=
| DivisionByZero
| RefusedNoBudget
| RefusedNoVolume
| RefusedBelowOrdermin
| RefusedOverLimit
| PlaceBuy (exchange_pair : string) (volume price : Q) (leverage : option Q).

(** Lines 176-199: the leverage passed to [place_buy_order]. *)
Definition choose_leverage (margin : Config.margin_settings) (ex : exchange)
    : option Q :=
  if Config.MARGIN_TRADING_ENABLED margin && String.eqb (name ex) "kraken"
  then
    match get_trade_balance ex with
    | TradeBalanceNone => Some (Config.DEFAULT_LEVERAGE margin)
    | MarginLevel m =>
        if Py.Qltb m 1.1 then None else Some (Config.DEFAULT_LEVERAGE margin)
    | TradeBalanceRaised => None
    end
  else None.

(** Lines 116-128: the volume the remaining budget pays for, scaled by the
    trade-size limit. *)
Definition max_volume (remaining_budget current_price fees risk_multiplier : Q) : Q :=
  let fee_multiplier := 1 + fees in
  let v := remaining_budget / (current_price * fee_multiplier) in
  let trade_size_limit := Config.MAX_TRADE_SIZE_PERCENT * risk_multiplier in
  v * trade_size_limit.

(** Lines 79-95: lot and price decimals of the pair, from the exchange's
    pair table or the defaults. *)
Definition precision (ex : exchange) (pair : string) (pair_decimals : Z) : Z * Z :=
  let info :=
    match get_tradable_pairs ex with
    | Some pairs => pairs !! get_pair_format ex pair   (* an empty table has no entry *)
    | None => None
    end in
  match info with
  | Some i => (default 8%Z (OrderManager.lot_decimals i),
               default pair_decimals (OrderManager.pair_decimals i))
  | None => (8%Z, pair_decimals)
  end.

(** Lines 104-105. *)
Definition max_total_trade_amount (account_balance current_price : Q) : Q :=
  let base_max_trade_amount := account_balance * Config.MAX_ACCOUNT_USAGE_PERCENT in
  base_max_trade_amount * Helpers.get_risk_multiplier current_price.

(** Line 116. *)
Definition remaining_budget (account_balance current_price : Q) (ex : exchange)
    (exchange_open_order_values : gmap string Q) : Q :=
  max_total_trade_amount account_balance current_price
  - default 0 (exchange_open_order_values !! name ex).

(** The target volume after rounding to the lot precision, before the
    floor at [ordermin]. *)
Definition rounded_target_volume (pair : string)
    (current_price fees account_balance : Q) (pair_decimals : Z)
    (ex : exchange) (exchange_open_order_values : gmap string Q) : Q :=
  Py.round
    (max_volume (remaining_budget account_balance current_price ex exchange_open_order_values)
       current_price fees (Helpers.get_risk_multiplier current_price))
    (fst (precision ex pair pair_decimals)).

(** The price the order is placed at (lines 156-158). *)
Definition buy_price_for (pair : string) (current_price : Q) (pair_decimals : Z)
    (ex : exchange) : Q :=
  calculate_dynamic_buy_price current_price (snd (precision ex pair pair_decimals))
    (get_order_book ex pair).

(** [simple_trading_strategy] up to the call of [place_buy_order]. *)
Definition decide_buy (margin : Config.margin_settings) (pair : string)
    (current_price fees account_balance ordermin : Q) (pair_decimals : Z)
    (ex : exchange) (exchange_open_order_values : gmap string Q) : step :=
  let total_open_order_value := default 0 (exchange_open_order_values !! name ex) in
  if Qeq_bool account_balance 0 then DivisionByZero
  else if Qle_bool
            (remaining_budget account_balance current_price ex exchange_open_order_values) 0
  then RefusedNoBudget
  else if Qeq_bool (current_price * (1 + fees)) 0 then DivisionByZero
  else
    let vol :=
      Py.max (rounded_target_volume pair current_price fees account_balance
                pair_decimals ex exchange_open_order_values)
             ordermin in
    if Qle_bool vol 0 then RefusedNoVolume
    else if Py.Qltb vol ordermin then RefusedBelowOrdermin
    else
      let buy_price := buy_price_for pair current_price pair_decimals ex in
      let order_value := buy_price * vol in
      if Py.Qltb (max_total_trade_amount account_balance current_price)
                 (total_open_order_value + order_value)
      then RefusedOverLimit
      else PlaceBuy (get_pair_format ex pair) vol buy_price (choose_leverage margin ex).

(** [simple_trading_strategy]: the step taken and the ledger afterwards
    (lines 199-211: the ledger grows by the order value when the exchange
    answers with an order). *)
Definition simple_trading_strategy (margin : Config.margin_settings) (pair : string)
    (current_price fees account_balance ordermin : Q) (pair_decimals : Z)
    (ex : exchange) (exchange_open_order_values : gmap string Q)
    : step * gmap string Q :=
  let s := decide_buy margin pair current_price fees account_balance ordermin
             pair_decimals ex exchange_open_order_values in
  match s with
  | PlaceBuy exchange_pair vol buy_price leverage =>
      if place_buy_order ex exchange_pair vol buy_price leverage
      then
        let total_open_order_value := default 0 (exchange_open_order_values !! name ex) in
        (s, <[name ex := total_open_order_value + buy_price * vol]> exchange_open_order_values)
      else (s, exchange_open_order_values)
  | _ => (s, exchange_open_order_values)
  end.

End Strategy.


(** ** bot.py: the balance cache *)
Module Bot.

(** A value stored in a balance answer: an amount as text, or a list of
    messages (the ['error'] entry of a raw API answer). *)
Inductive dval : Type :=
| Text (s : string)
| Items (l : list string).

Definition truthy_val (v : dval) : bool :=
  match v with
  | Text s => negb (String.eqb s "")
  | Items l => negb (Nat.eqb (length l) 0)
  end.

(** What [exchange.get_balance()] does. *)
Inductive response : Type :=
| RespNone
| RespDict (d : gmap string dval)
| RespOther
| RespRaise (message : string).

(** [balance_cache[exchange_name]]. *)
Record cache_entry : Type := {
  data : option (gmap string dval);
  timestamp : Q
}.

(** Truthiness of [cache_entry['data']]: [None] and [{}] are falsy. *)
Definition truthy_data (d : option (gmap string dval)) : bool :=
  match d with
  | Some m => negb (bool_decide (m = ∅))
  | None => false
  end.

Inductive event : Type :=
| Request
| Sleep (seconds : Z).

(** Lines 100-106: the rate-limit test on a dictionary answer. *)
Definition rate_limited (d : gmap string dval) : bool :=
  match d !! "error"%string with
  | Some (Items l) =>
      negb (Nat.eqb (length l) 0) && existsb (Py.contains "Rate limit") l
  | _ => false
  end.

Definition backoff (attempt : nat) : Z := (2 ^ Z.of_nat attempt * 5)%Z.

Definition max_retries : nat := 3.

(** Lines 85-133: the retry loop from attempt [attempt] on, with [todo]
    attempts left.  [responses k] is what the [k]-th call of
    [exchange.get_balance()] does. *)
Fixpoint fetch (responses : nat -> response) (current_time : Q) (entry : cache_entry)
    (attempt todo : nat) : option (gmap string dval) * cache_entry * list event :=
  match todo with
  | O => (None, entry, [])
  | S todo' =>
      let retry (evs : list event) :=
        let '(r, e, tr) := fetch responses current_time entry (S attempt) todo' in
        (r, e, Request :: evs ++ tr) in
      let pause := if (S attempt <? max_retries)%nat then [Sleep 2] else [] in
      match responses attempt with
      | RespNone => retry [Sleep (backoff attempt)]
      | RespDict d =>
          if bool_decide (d = ∅) then retry pause
          else if rate_limited d then retry [Sleep (backoff attempt)]
          else (Some d, {| data := Some d; timestamp := current_time |}, [Request])
      | RespOther => retry pause
      | RespRaise message =>
          let error_str := Py.lower message in
          if Py.contains "rate limit" error_str || Py.contains "rate_limit" error_str
          then retry [Sleep (backoff attempt)]
          else (None, entry, [Request])
      end
  end.

(** [get_cached_balance(exchange, exchange_name, force_refresh)] on the
    cache entry of the exchange: the value returned, the entry afterwards
    and the requests and sleeps issued. *)
Definition get_cached_balance_entry (responses : nat -> response) (cache_duration : Q)
    (current_time : Q) (force_refresh : bool) (entry : cache_entry)
    : option (gmap string dval) * cache_entry * list event :=
  if negb force_refresh && truthy_data (data entry)
     && Py.Qltb (current_time - timestamp entry) cache_duration
  then (data entry, entry, [])
  else fetch responses current_time entry 0 max_retries.

(** The same on the module-level [balance_cache]; [None] is the
    [KeyError] of [balance_cache[exchange_name]]. *)
Definition get_cached_balance (responses : nat -> response) (current_time : Q)
    (exchange_name : string) (force_refresh : bool)
    (balance_cache : gmap string cache_entry)
    : option (option (gmap string dval) * gmap string cache_entry * list event) :=
  match balance_cache !! exchange_name with
  | None => None
  | Some entry =>
      let '(r, entry', tr) :=
        get_cached_balance_entry responses Config.BALANCE_CACHE_DURATION
          current_time force_refresh entry in
      Some (r, <[exchange_name := entry']> balance_cache, tr)
  end.

(** The cache when the module is loaded. *)
Definition initial_cache : gmap string cache_entry :=
  <["kraken"%string := {| data := None; timestamp := 0 |}]>
    (<["bitmart"%string := {| data := None; timestamp := 0 |}]> ∅).

End Bot.


(** ** exchanges/kraken.py and exchanges/bitmart.py: pair formats *)
Module Exchanges.

(** ['_' in pair]. *)
Fixpoint has_underscore (s : string) : bool :=
  match s with
  | EmptyString => false
  | String c rest => Ascii.eqb c "_" || has_underscore rest
  end.

(** [pair.replace('_', '')]. *)
Fixpoint remove_underscores (s : string) : string :=
  match s with
  | EmptyString => EmptyString
  | String c rest =>
      if Ascii.eqb c "_" then remove_underscores rest
      else String c (remove_underscores rest)
  end.

(** [s.endswith(suffix)]. *)
Definition endswith (s suffix : string) : bool :=
  let n := String.length s in
  let k := String.length suffix in
  (k <=? n)%nat && String.eqb (substring (n - k) k s) suffix.

(** [s[:-k]] for [0 < k]. *)
Definition drop_last (k : nat) (s : string) : string :=
  substring 0 (String.length s - k) s.

Inductive handle : Type :=
| KrakenHandle
| BitMartHandle.

Definition kraken_normalize_pair (pair : string) : string :=
  remove_underscores pair.

Definition bitmart_normalize_pair (pair : string) : string :=
  if negb (has_underscore pair) && (4 <? String.length pair)%nat then
    if endswith pair "USDT" then drop_last 4 pair ++ "_USDT"
    else if endswith pair "USD" then drop_last 3 pair ++ "_USD"
    else if endswith pair "BTC" then drop_last 3 pair ++ "_BTC"
    else if endswith pair "ETH" then drop_last 3 pair ++ "_ETH"
    else pair
  else pair.

Definition normalize_pair (h : handle) (pair : string) : string :=
  match h with
  | KrakenHandle => kraken_normalize_pair pair
  | BitMartHandle => bitmart_normalize_pair pair
  end.

(** Both classes define [get_pair_format] as a call of [normalize_pair]. *)
Definition get_pair_format (h : handle) (normalized_pair : string) : string :=
  normalize_pair h normalized_pair.

End Exchanges.


(** ** Vocabulary for the statements about the ledger *)
Module Ledger.
Import OrderManager.

Section Classified.
Context (current_time : Q) (ticker : string -> option Q).

(** The value the scan adds to [total_open_order_value] for an order. *)
Definition counted (o : order_info) : Q :=
  match classify current_time ticker o with
  | Skipped => 0
  | Kept v => v
  | Marked v => v
  end.

Definition is_marked (o : order_info) : bool :=
  match classify current_time ticker o with
  | Marked _ => true
  | _ => false
  end.

Definition kept_value (o : order_info) : Q :=
  if is_marked o then 0 else counted o.

Definition marked_value (o : order_info) : Q :=
  if is_marked o then counted o else 0.

Definition marked_txids (orders : list (string * order_info)) : list string :=
  map fst (List.filter (fun '(_, o) => is_marked o) orders).

End Classified.

Definition sum_of (f : order_info -> Q) (orders : list (string * order_info)) : Q :=
  fold_right (fun '(_, o) acc => f o + acc) 0 orders.

(** The orders for which a cancel call would not succeed. *)
Definition unconfirmed (cancel : string -> cancel_outcome)
    (orders : list (string * order_info)) : list (string * order_info) :=
  List.filter (fun '(txid, _) => negb (cancel_succeeds cancel txid)) orders.

(** A response dictionary has one entry per order id. *)
Definition distinct_txids (orders : list (string * order_info)) : Prop :=
  NoDup (map fst orders).

End Ledger.


(** ** Vocabulary for the statements about the balance cache *)
Module Cache.
Import Bot.

(** What a fetch at time [current_time] leaves behind: either nothing was
    obtained and the entry is as before, or a non-empty answer was obtained
    and stored with the time of the call. *)
Inductive fetched (current_time : Q) (entry : cache_entry)
  : option (gmap string dval) -> cache_entry -> Prop :=
| fetched_nothing : fetched current_time entry None entry
| fetched_answer (d : gmap string dval) :
    d <> ∅ ->
    fetched current_time entry (Some d) {| data := Some d; timestamp := current_time |}.

End Cache.


(** ** Concrete inputs used in the examples *)
Module Examples.

(** An open buy order on XUSD, complete and well-typed. *)
Definition open_buy (order_time price volume : Q) : OrderManager.order_info :=
  {| OrderManager.opentm := Some (Py.Num order_time);
     OrderManager.oi_descr :=
       Some {| OrderManager.od_price := Some (Py.Num price);
               OrderManager.od_pair := Some "XUSD"%string;
               OrderManager.od_type := Some "buy"%string |};
     OrderManager.oi_vol := Some (Py.Num volume) |}.

(** The ledger when the module is loaded. *)
Definition initial_values : gmap string Q :=
  <["kraken"%string := 0]> (<["bitmart"%string := 0]> ∅).

(** One order, 2 x 3, placed at time 0. *)
Definition one_order : list (string * OrderManager.order_info) :=
  [("O1"%string, open_buy 0 2 3)].

Definition no_ticker : string -> option Q := fun _ => None.

Definition cancel_fails : string -> OrderManager.cancel_outcome :=
  fun _ => OrderManager.CancelFailed.

Definition cancel_works : string -> OrderManager.cancel_outcome :=
  fun _ => OrderManager.CancelOk.

(** A Kraken handle whose pair table and order book are unavailable and
    which accepts every order. *)
Definition kraken_bare : Strategy.exchange :=
  {| Strategy.name := "kraken";
     Strategy.get_pair_format := Exchanges.get_pair_format Exchanges.KrakenHandle;
     Strategy.get_tradable_pairs := None;
     Strategy.get_order_book := fun _ => Strategy.NoBook;
     Strategy.get_trade_balance := Strategy.TradeBalanceNone;
     Strategy.place_buy_order := fun _ _ _ _ => true |}.

(** A filled buy of a micro-priced token: 1,000,000 units at 0.000004, cost
    4, fee 0.0104. *)
Definition micro_buy : OrderManager.buy_order :=
  {| OrderManager.bo_txid := "OB1";
     OrderManager.bo_pair := "PEPEUSD";
     OrderManager.bo_volume := 1000000;
     OrderManager.bo_price := 0.000004;
     OrderManager.bo_cost := 4;
     OrderManager.bo_fee := 0.0104;
     OrderManager.bo_adjusted_volume := None |}.

(** Kraken with its pair table unavailable, no open sell orders, and twice
    the bought volume in the account. *)
Definition kraken_settled : OrderManager.sell_env :=
  {| OrderManager.se_name := "kraken";
     OrderManager.se_get_pair_format := Exchanges.get_pair_format Exchanges.KrakenHandle;
     OrderManager.se_get_tradable_pairs := None;
     OrderManager.se_has_open_sell := fun _ => false;
     OrderManager.se_balance := fun _ _ => OrderManager.Available 2000000 |}.

(** A closed, completely filled buy order on XUSD without fee. *)
Definition closed_buy (close_time volume price : Q) : Profit.closed_order :=
  {| Profit.closetm := Some close_time;
     Profit.co_descr := Some {| Profit.cd_type := Some "buy"%string;
                                Profit.cd_pair := Some "XUSD"%string |};
     Profit.co_status := Some "closed"%string;
     Profit.co_vol_exec := Some (Py.Num volume);
     Profit.co_vol := Some (Py.Num volume);
     Profit.co_price := Some (Py.Num price);
     Profit.co_cost := Some (Py.Num (volume * price));
     Profit.co_fee := Some (Py.Num 0) |}.

(** The two buys of the specification's example, closed at 1000 and 2000. *)
Definition buy1 : Profit.closed_order := closed_buy 1000 100 0.01.
Definition buy2 : Profit.closed_order := closed_buy 2000 50 0.012.

(** The sell of the example: 120 units at 0.013, no fee. *)
Definition sell : Profit.sell_trade :=
  {| Profit.st_pair := Some "XUSD"%string;
     Profit.st_volume := Some 120;
     Profit.st_price := Some 0.013;
     Profit.st_fees := Some 0 |}.

(** The exchange's answer when the order ids sort in the order of the
    fills, and when they sort the other way round. *)
Definition closed_in_time_order : list (string * Profit.closed_order) :=
  [("OA3"%string, buy1); ("OB7"%string, buy2)].

Definition closed_against_time_order : list (string * Profit.closed_order) :=
  [("OB7"%string, buy1); ("OA3"%string, buy2)].

(** The same two buys as lines of the trade ledger. *)
Definition ledger_buy (order_id : string) (timestamp volume price : Q) : Profit.trade :=
  {| Profit.t_type := Some "buy"%string;
     Profit.t_pair := Some "XUSD"%string;
     Profit.t_price := price;
     Profit.t_volume := Some volume;
     Profit.t_fees := 0;
     Profit.t_order_id := Some order_id;
     Profit.t_timestamp := timestamp;
     Profit.matched_volume := None;
     Profit.fully_matched := None |}.

Definition trade1 : Profit.trade := ledger_buy "OB7" 1000 100 0.01.
Definition trade2 : Profit.trade := ledger_buy "OA3" 2000 50 0.012.

Definition trades_file : Profit.ledger_file := [Some trade1; Some trade2].

(** Oldest first: all of the first buy, 20 units of the second. *)
Definition fifo_matches : list Profit.match_info :=
  [{| Profit.mi_trade := trade1; Profit.mi_matched_volume := 100 |};
   {| Profit.mi_trade := trade2; Profit.mi_matched_volume := 20 |}].

(** A cached balance. *)
Definition some_balance : gmap string Bot.dval :=
  <["ZUSD"%string := Bot.Text "100.0"]> ∅.

End Examples.


(** ** trading/position_tracker.py *)
Module Positions.

(** A position dictionary; a field that is [None] is a missing key.
    [add_open_position] sets every key but ['filled_timestamp']; a
    dictionary read back from disk holds whatever its line holds. *)
Record position : Type := {
  pos_pair : option string;
  pos_order_id : option string;
  pos_side : option string;
  pos_volume : option Q;
  pos_price : option Q;
  pos_exchange : option string;
  pos_timestamp : option Q;
  pos_status : option string;
  pos_filled_timestamp : option Q
}.

(** A line of a positions file: blank, rejected by [eval] (or not a
    dictionary), or a position. *)
Inductive line : Type :=
| Blank
| Garbage
| Entry (p : position).

(** The positions files, by exchange name
    ([open_positions_<exchange>.txt]); a missing key is a missing file. *)
Definition store : Type := gmap string (list line).

(** [save_open_positions(open_positions, exchange)]: the file of the
    exchange is overwritten with one line per position of the list. *)
Definition save_open_positions (open_positions : list position) (exchange : string)
    (files : store) : store :=
  <[exchange := map Entry open_positions]> files.

(** Lines 30-38: the positions a file yields at time [now]. *)
Fixpoint read_lines (now : Q) (lines : list line) : list position :=
  match lines with
  | [] => []
  | Entry p :: rest =>
      if Py.Qltb (now - default 0 (pos_timestamp p)) 86400
      then p :: read_lines now rest
      else read_lines now rest
  | _ :: rest => read_lines now rest
  end.

(** [load_open_positions(exchange)]: the positions and the files
    afterwards (the file is rewritten when it had more lines than positions
    were kept). *)
Definition load_open_positions (now : Q) (exchange : string) (files : store)
    : list position * store :=
  match files !! exchange with
  | None => ([], files)
  | Some lines =>
      let open_positions := read_lines now lines in
      if (length open_positions <? length lines)%nat
      then (open_positions, save_open_positions open_positions exchange files)
      else (open_positions, files)
  end.

(** [add_open_position(...)]: the list with the new position appended, and
    the files after saving it. *)
Definition add_open_position (open_positions : list position) (pair order_id side : string)
    (volume price : Q) (exchange : string) (timestamp : Q) (files : store)
    : list position * store :=
  let position :=
    {| pos_pair := Some pair; pos_order_id := Some order_id; pos_side := Some side;
       pos_volume := Some volume; pos_price := Some price;
       pos_exchange := Some exchange; pos_timestamp := Some timestamp;
       pos_status := Some "open"%string; pos_filled_timestamp := None |} in
  let open_positions' := (open_positions ++ [position])%list in
  (open_positions', save_open_positions open_positions' exchange files).

(** Lines 85-87: the in-place update of the position found. *)
Definition set_status (new_status : string) (now : Q) (p : position) : position :=
  {| pos_pair := pos_pair p; pos_order_id := pos_order_id p; pos_side := pos_side p;
     pos_volume := pos_volume p; pos_price := pos_price p;
     pos_exchange := pos_exchange p; pos_timestamp := pos_timestamp p;
     pos_status := Some new_status;
     pos_filled_timestamp :=
       if String.eqb new_status "filled" then Some now else pos_filled_timestamp p |}.

(** The loop of [update_position_status]: [None] is the [KeyError] of
    [position['order_id']]; otherwise the list afterwards and whether a
    position was found. *)
Fixpoint update_loop (order_id new_status exchange : string) (now : Q)
    (open_positions : list position) : option (list position * bool) :=
  match open_positions with
  | [] => Some ([], false)
  | p :: rest =>
      match pos_order_id p with
      | None => None
      | Some id =>
          if String.eqb id order_id && bool_decide (pos_exchange p = Some exchange)
          then Some (set_status new_status now p :: rest, true)
          else
            match update_loop order_id new_status exchange now rest with
            | None => None
            | Some (rest', found) => Some (p :: rest', found)
            end
      end
  end.

(** [update_position_status(open_positions, order_id, new_status, exchange)]:
    [None] when it raises; otherwise the value returned, the list and the
    files afterwards. *)
Definition update_position_status (open_positions : list position)
    (order_id new_status exchange : string) (now : Q) (files : store)
    : option (bool * list position * store) :=
  match update_loop order_id new_status exchange now open_positions with
  | None => None
  | Some (open_positions', true) =>
      Some (true, open_positions', save_open_positions open_positions' exchange files)
  | Some (open_positions', false) => Some (false, open_positions', files)
  end.

(** [get_open_positions_for_pair(open_positions, pair)]; [None] is the
    [KeyError] of [p['pair']] or [p['status']]. *)
Fixpoint get_open_positions_for_pair (open_positions : list position) (pair : string)
    : option (list position) :=
  match open_positions with
  | [] => Some []
  | p :: rest =>
      match pos_pair p with
      | None => None
      | Some pr =>
          let keep :=
            if String.eqb pr pair then
              match pos_status p with
              | None => None
              | Some st => Some (String.eqb st "open")
              end
            else Some false in
          match keep, get_open_positions_for_pair rest pair with
          | Some true, Some l => Some (p :: l)
          | Some false, Some l => Some l
          | _, _ => None
          end
      end
  end.

(** Lines 106-115: the loop of [cleanup_filled_positions]; [None] is the
    [KeyError] of [position['status']]. *)
Fixpoint cleaned (exchange : string) (cutoff_time : Q) (open_positions : list position)
    : option (list position) :=
  match open_positions with
  | [] => Some []
  | p :: rest =>
      let keep :=
        if negb (bool_decide (pos_exchange p = Some exchange)) then Some true
        else
          match pos_status p with
          | None => None
          | Some st =>
              if String.eqb st "filled"
                 && Py.Qltb (default 0 (pos_filled_timestamp p)) cutoff_time
              then Some false else Some true
          end in
      match keep with
      | None => None
      | Some k =>
          match cleaned exchange cutoff_time rest with
          | None => None
          | Some l => Some (if k then p :: l else l)
          end
      end
  end.

(** [cleanup_filled_positions(open_positions, exchange)]. *)
Definition cleanup_filled_positions (open_positions : list position) (exchange : string)
    (now : Q) (files : store) : option (list position * store) :=
  match cleaned exchange (now - 3600) open_positions with
  | None => None
  | Some cleaned_positions =>
      if negb (Nat.eqb (length cleaned_positions) (length open_positions))
      then Some (cleaned_positions, save_open_positions cleaned_positions exchange files)
      else Some (cleaned_positions, files)
  end.

(** A position that holds the keys the tracker reads with [position[...]]. *)
Definition complete (p : position) : Prop :=
  is_Some (pos_pair p) /\ is_Some (pos_order_id p) /\ is_Some (pos_status p).

(** Whether [cleanup_filled_positions] drops a position: it belongs to the
    exchange, is filled, and was filled before the cutoff. *)
Definition expired (exchange : string) (cutoff_time : Q) (p : position) : bool :=
  bool_decide (pos_exchange p = Some exchange)
  && bool_decide (pos_status p = Some "filled"%string)
  && Py.Qltb (default 0 (pos_filled_timestamp p)) cutoff_time.

(** The open positions of a pair, on complete positions. *)
Definition is_open_for (pair : string) (p : position) : bool :=
  bool_decide (pos_pair p = Some pair)
  && bool_decide (pos_status p = Some "open"%string).

(** A position that [load_open_positions] keeps at time [now]: younger than
    24 hours. *)
Definition recent (now : Q) (p : position) : bool :=
  Py.Qltb (now - default 0 (pos_timestamp p)) 86400.

(** Whether [update_position_status] takes this position for the order. *)
Definition is_order (order_id exchange : string) (p : position) : bool :=
  bool_decide (pos_order_id p = Some order_id)
  && bool_decide (pos_exchange p = Some exchange).

(** A position as [add_open_position] builds it. *)
Definition fresh (pair order_id side : string) (volume price : Q)
    (exchange : string) (timestamp : Q) : position :=
  {| pos_pair := Some pair; pos_order_id := Some order_id; pos_side := Some side;
     pos_volume := Some volume; pos_price := Some price;
     pos_exchange := Some exchange; pos_timestamp := Some timestamp;
     pos_status := Some "open"%string; pos_filled_timestamp := None |}.

End Positions.

(** ** Concrete inputs for the position tracker *)
Module PositionExamples.

Definition bought : Positions.position :=
  Positions.fresh "XUSD" "OB7" "buy" 100 0.01 "kraken" 1000.

(** The same position, filled at time 2000. *)
Definition filled_buy : Positions.position :=
  Positions.set_status "filled" 2000 bought.

Definition elsewhere : Positions.position :=
  Positions.fresh "XUSD" "77" "buy" 5 0.01 "bitmart" 1500.

Definition tracked : list Positions.position := [filled_buy; elsewhere].

End PositionExamples.


(** ** Vocabulary for the statements about matching *)
Module Matching.
Import Profit.

(** The sum of a quantity over the collected buys. *)
Definition total (f : filled_buy -> Q) (buys : list filled_buy) : Q :=
  fold_right (fun b acc => f b + acc) 0 buys.

Definition buy_cost (b : filled_buy) : Q := fb_volume b * fb_price b.

(** The sell volume, price and fee as the matcher reads them. *)
Definition sell_volume (s : sell_trade) : Q := default 0 (st_volume s).
Definition sell_price (s : sell_trade) : Q := default 0 (st_price s).
Definition sell_fee (s : sell_trade) : Q := default 0 (st_fees s).

End Matching.

(** ** Vocabulary for the statements about request traces *)
Module Traces.
Import Bot.

(** The number of requests in a trace. *)
Fixpoint requests (tr : list event) : nat :=
  match tr with
  | [] => 0
  | Request :: rest => S (requests rest)
  | Sleep _ :: rest => requests rest
  end.

(** The seconds slept in a trace. *)
Fixpoint waited (tr : list event) : Z :=
  match tr with
  | [] => 0
  | Request :: rest => waited rest
  | Sleep s :: rest => s + waited rest
  end.

End Traces.

(** ** exchanges/comparison.py *)
Module Router.

(** What [exchange.get_order_book(pair, count=10)] gives: a falsy answer or
    entry, an exception, or the volumes of the bid and ask levels. *)
Inductive depth_answer : Type :=
| NoDepth
| DepthRaised
| Depth (bid_volumes ask_volumes : list Py.raw).

(** What the calls on one exchange give for the pair.  [last_price] is
    [None] when the ticker or its entry is falsy (or the call raises);
    otherwise it is the raw last price. *)
Record feed : Type := {
  last_price : option Py.raw;
  depth : depth_answer
}.

(** A tuple of [comparison_results], without the exchange object. *)
Record row : Type := {
  r_name : string;
  r_score : Q;
  r_price : Q;
  r_liquidity : Q
}.

(** [sum(float(level[1]) for level in levels)]; [None] when a conversion
    raises. *)
Fixpoint sum_floats (levels : list Py.raw) (acc : Q) : option Q :=
  match levels with
  | [] => Some acc
  | v :: rest =>
      match Py.float v with
      | Some q => sum_floats rest (acc + q)
      | None => None
      end
  end.

(** The body of the loop of [compare_exchanges] for one exchange; [None]
    is a [continue], also the one of the exception handler. *)
Definition evaluate (exchange_name : string) (f : feed) : option row :=
  match last_price f with
  | None => None
  | Some raw =>
      match Py.float raw with
      | None => None
      | Some current_price =>
          if Qle_bool current_price 0 then None
          else
            let liquidity_score :=
              match depth f with
              | NoDepth => Some 0
              | DepthRaised => None
              | Depth bids asks =>
                  match sum_floats (firstn 10 bids) 0 with
                  | None => None
                  | Some bid_depth =>
                      match sum_floats (firstn 10 asks) 0 with
                      | None => None
                      | Some ask_depth => Some ((bid_depth + ask_depth) * current_price)
                      end
                  end
              end in
            match liquidity_score with
            | None => None
            | Some liquidity =>
                let score :=
                  if Py.Qltb 0 current_price then liquidity / current_price else 0 in
                Some {| r_name := exchange_name; r_score := score;
                        r_price := current_price; r_liquidity := liquidity |}
            end
      end
  end.

(** [list.sort(key=score, reverse=True)]: stable, highest score first. *)
Fixpoint insert_desc (x : row) (l : list row) : list row :=
  match l with
  | [] => [x]
  | y :: ys =>
      if Qle_bool (r_score y) (r_score x) then x :: y :: ys
      else y :: insert_desc x ys
  end.

Fixpoint sort_desc (l : list row) : list row :=
  match l with
  | [] => []
  | x :: xs => insert_desc x (sort_desc xs)
  end.

(** [compare_exchanges(pair, exchanges)], the exchanges given with what
    their calls answer, in the order of the dictionary. *)
Definition compare_exchanges (exchanges : list (string * feed)) : list row :=
  sort_desc (omap (fun '(exchange_name, f) => evaluate exchange_name f) exchanges).

(** [select_best_exchange(pair, exchanges)]: the name selected, [None] for
    [(None, None)]. *)
Definition select_best_exchange (exchanges : list (string * feed)) : option string :=
  match exchanges with
  | [] => None
  | _ :: _ =>
      match compare_exchanges exchanges with
      | [] => None
      | best :: _ => Some (r_name best)
      end
  end.

(** The depth a row's score stands for: the volumes of the first ten bids
    and asks added up. *)
Definition top_depth (f : feed) : option Q :=
  match depth f with
  | NoDepth => Some 0
  | DepthRaised => None
  | Depth bids asks =>
      match sum_floats (firstn 10 bids) 0, sum_floats (firstn 10 asks) 0 with
      | Some b, Some a => Some (b + a)
      | _, _ => None
      end
  end.

End Router.

(** ** Open-order checks and currency codes *)
Module Pairs.

Definition no_descr : OrderManager.order_descr :=
  {| OrderManager.od_price := None; OrderManager.od_pair := None;
     OrderManager.od_type := None |}.

(** The test both checks apply to the pair of an order. *)
Definition same_pair (h : Exchanges.handle) (pair order_pair : string) : bool :=
  let exchange_pair := Exchanges.get_pair_format h pair in
  String.eqb (Exchanges.normalize_pair h order_pair) exchange_pair
  || String.eqb order_pair exchange_pair
  || String.eqb order_pair pair.

(** [has_open_sell_orders_for_pair(pair, exchange)] in
    trading/order_manager.py; [open_orders] is [None] when the answer is
    falsy or has no ['open'] entry. *)
Definition has_open_sell_orders_for_pair (h : Exchanges.handle) (pair : string)
    (open_orders : option (list (string * OrderManager.order_info))) : bool :=
  match open_orders with
  | None => false
  | Some orders =>
      existsb (fun '(_, order_info) =>
                 let descr := default no_descr (OrderManager.oi_descr order_info) in
                 match OrderManager.od_pair descr with
                 | Some order_pair =>
                     negb (String.eqb order_pair "")
                     && same_pair h pair order_pair
                     && bool_decide (OrderManager.od_type descr = Some "sell"%string)
                 | None => false
                 end)
              orders
  end.

(** [has_open_orders_for_pair(pair, exchange)]; an order without a pair
    counts under the name NO_PAIR. *)
Definition has_open_orders_for_pair (h : Exchanges.handle) (pair : string)
    (open_orders : option (list (string * OrderManager.order_info))) : bool :=
  match open_orders with
  | None => false
  | Some orders =>
      existsb (fun '(_, order_info) =>
                 let descr := default no_descr (OrderManager.oi_descr order_info) in
                 let order_pair := default "NO_PAIR"%string (OrderManager.od_pair descr) in
                 negb (String.eqb order_pair "") && same_pair h pair order_pair)
              orders
  end.

(** [s.split('_')[0]]. *)
Fixpoint before_underscore (s : string) : string :=
  match s with
  | EmptyString => EmptyString
  | String c rest =>
      if Ascii.eqb c "_" then EmptyString else String c (before_underscore rest)
  end.

(** [ExchangeBitMart.get_currency_code(pair)]. *)
Definition bitmart_get_currency_code (pair : string) : string :=
  if Exchanges.has_underscore pair then before_underscore pair
  else if Exchanges.endswith pair "USDT" then Exchanges.drop_last 4 pair
  else if (4 <? String.length pair)%nat then Exchanges.drop_last 4 pair
  else pair.

End Pairs.

(** ** trading/strategy.py: the sell price *)
Module Pricing.

(** [calculate_optimal_sell_price(pair, buy_price, price_decimals,
    estimated_fees, exchange)]; [current] is the last price read off the
    ticker, [None] when the ticker or its entry is falsy. *)
Definition calculate_optimal_sell_price (current : option Q)
    (buy_price : Q) (price_decimals : Z) (estimated_fees : Q) : option Q :=
  match current with
  | None => None
  | Some current_price =>
      let total_fees := estimated_fees * 2 in
      let min_profit_margin := 0.005 in
      let min_sell_price := buy_price * (1 + total_fees + min_profit_margin) in
      let sell_price :=
        if Py.Qltb min_sell_price current_price then current_price
        else min_sell_price in
      Some (Py.round sell_price price_decimals)
  end.

End Pricing.

(** ** Example inputs for the router and the open-order checks *)
Module MarketExamples.

(** Kraken quotes 0.02 with 180 units in the book, BitMart 0.021 with 900. *)
Definition thin : Router.feed :=
  {| Router.last_price := Some (Py.Num 0.02);
     Router.depth := Router.Depth [Py.Num 100; Py.Num 50] [Py.Num 30] |}.

Definition deep : Router.feed :=
  {| Router.last_price := Some (Py.Num 0.021);
     Router.depth := Router.Depth [Py.Num 500] [Py.Num 400] |}.

Definition venues : list (string * Router.feed) :=
  [("kraken"%string, thin); ("bitmart"%string, deep)].

(** One open sell order of the pair XUSD. *)
Definition open_sell : list (string * OrderManager.order_info) :=
  [("O9"%string,
    {| OrderManager.opentm := Some (Py.Num 0);
       OrderManager.oi_descr :=
         Some {| OrderManager.od_price := Some (Py.Num 0.02);
                 OrderManager.od_pair := Some "XUSD"%string;
                 OrderManager.od_type := Some "sell"%string |};
       OrderManager.oi_vol := Some (Py.Num 10) |})].

End MarketExamples.

(** ** trading/order_manager.py: the record of orders already seen *)
Module Recording.
Import Profit.

(** The value kept for an order id in [recorded_orders]. *)
Record mark : Type := {
  m_time : Q;
  m_exchange : string;
  m_status : string
}.

(** A line of the recorded-orders file as the loaders read it: skipped
    (blank, or fewer than four fields), four fields whose time is no
    number, or an order id with its mark. *)
Inductive rline : Type :=
| Skipped
| BadTime
| Line (order_id : string) (m : mark).

(** The file; [None] when it does not exist. *)
Definition file : Type := option (list rline).

(** The dictionary [recorded_orders], in insertion order. *)
Definition dict : Type := list (string * mark).

(** [order_id in recorded_orders]. *)
Definition dict_has (order_id : string) (d : dict) : bool :=
  existsb (fun '(k, _) => String.eqb k order_id) d.

(** [recorded_orders[order_id] = m]: an id already present keeps its
    place. *)
Fixpoint dict_set (order_id : string) (m : mark) (d : dict) : dict :=
  match d with
  | [] => [(order_id, m)]
  | (k, v) :: rest =>
      if String.eqb k order_id then (k, m) :: rest
      else (k, v) :: dict_set order_id m rest
  end.

(** [recorded_orders.get(order_id)]. *)
Fixpoint dict_get (order_id : string) (d : dict) : option mark :=
  match d with
  | [] => None
  | (k, v) :: rest => if String.eqb k order_id then Some v else dict_get order_id rest
  end.

(** The loop over the lines of the file (lines 162-171 and 216-225);
    [None] is the [ValueError] of [float(timestamp)]. *)
Fixpoint read_lines (lines : list rline) (recorded_orders : dict) : option dict :=
  match lines with
  | [] => Some recorded_orders
  | Skipped :: rest => read_lines rest recorded_orders
  | BadTime :: _ => None
  | Line order_id m :: rest => read_lines rest (dict_set order_id m recorded_orders)
  end.

(** Loading the file; a missing file gives the empty dictionary. *)
Definition load (f : file) : option dict :=
  match f with
  | None => Some []
  | Some lines => read_lines lines []
  end.

(** Writing the dictionary, one line per id. *)
Definition write (recorded_orders : dict) : file :=
  Some (map (fun '(k, m) => Line k m) recorded_orders).

(** [record_open_order(order_id, exchange_name, order_type)] at time
    [now]: the file afterwards.  An exception is logged and leaves the file
    as it is. *)
Definition record_open_order (order_id exchange_name : string) (now : Q) (f : file)
    : file :=
  match load f with
  | None => f
  | Some recorded_orders =>
      write (dict_set order_id
               {| m_time := now; m_exchange := exchange_name; m_status := "open" |}
               recorded_orders)
  end.

(** The dictionary [trade_data] handed to [record_trade]. *)
Record trade_data : Type := {
  td_type : string;
  td_pair : string;
  td_price : Q;
  td_volume : Q;
  td_fees : Q;
  td_order_id : string;
  td_timestamp : Q
}.

(** What [exchange.get_closed_orders(since=...)] gives: a falsy answer, an
    answer without the key ['closed'], or the closed orders. *)
Inductive answer : Type :=
| NoAnswer
| NoClosedKey
| Closed (orders : list (string * closed_order)).

(** What lines 233-258 decide for one closed order: [continue], an
    exception, or the trade to record. *)
Inductive verdict : Type :=
| Skip
| Raise
| Recorded (t : trade_data).

Definition examine (now : Q) (recorded_orders : dict) (txid : string)
    (order_info : closed_order) : verdict :=
  if dict_has txid recorded_orders then Skip
  else
    match co_status order_info with
    | None => Raise
    | Some status =>
        if negb (String.eqb status "closed") then Skip
        else
          let tm := default 0 (closetm order_info) in
          if negb (Qeq_bool tm 0) && Py.Qltb 1800 (now - tm) then Skip
          else
            match co_descr order_info with
            | None => Skip
            | Some descr =>
                match cd_pair descr, cd_type descr with
                | Some pr, Some ty =>
                    if String.eqb pr "" || String.eqb ty "" then Skip
                    else
                      match float_field (co_price order_info) with
                      | None => Raise
                      | Some price =>
                          match float_field (co_vol order_info) with
                          | None => Raise
                          | Some volume =>
                              match float_field (co_fee order_info) with
                              | None => Raise
                              | Some fee =>
                                  Recorded {| td_type := ty; td_pair := pr;
                                             td_price := price; td_volume := volume;
                                             td_fees := fee; td_order_id := txid;
                                             td_timestamp := tm |}
                              end
                          end
                      end
                | _, _ => Skip
                end
            end
    end.

(** The variables the loop updates, with the effects it has had: the
    trades handed to [record_trade] and the tracked positions with their
    files. *)
Record progress : Type := {
  recorded_orders : dict;
  filled_buy_order_value : Q;
  trades : list trade_data;
  open_positions : option (list Positions.position);
  position_files : Positions.store
}.

(** The loop over [closed_orders["closed"].items()] (lines 232-290); the
    flag is [false] when an exception left the loop.  [track_values] says
    whether [exchange_open_order_values] is given.  [record_trade] is taken
    to return. *)
Fixpoint scan (exchange_name : string) (now : Q) (track_values : bool)
    (orders : list (string * closed_order)) (st : progress) : progress * bool :=
  match orders with
  | [] => (st, true)
  | (txid, order_info) :: rest =>
      match examine now (recorded_orders st) txid order_info with
      | Skip => scan exchange_name now track_values rest st
      | Raise => (st, false)
      | Recorded t =>
          let filled :=
            if String.eqb (td_type t) "buy" && track_values
            then filled_buy_order_value st + td_price t * td_volume t
            else filled_buy_order_value st in
          let trades' := (trades st ++ [t])%list in
          let m := {| m_time := default now (closetm order_info);
                      m_exchange := exchange_name; m_status := "closed" |} in
          match open_positions st with
          | None =>
              scan exchange_name now track_values rest
                {| recorded_orders := dict_set txid m (recorded_orders st);
                   filled_buy_order_value := filled; trades := trades';
                   open_positions := None; position_files := position_files st |}
          | Some positions =>
              match Positions.update_position_status positions txid "filled"
                      exchange_name now (position_files st) with
              | None =>
                  ({| recorded_orders := recorded_orders st;
                      filled_buy_order_value := filled; trades := trades';
                      open_positions := Some positions;
                      position_files := position_files st |}, false)
              | Some (_, positions', files') =>
                  scan exchange_name now track_values rest
                    {| recorded_orders := dict_set txid m (recorded_orders st);
                       filled_buy_order_value := filled; trades := trades';
                       open_positions := Some positions';
                       position_files := files' |}
              end
          end
      end
  end.

(** How a pass ended: on the falsy answer, at the end of the function, or
    in one of the two exception handlers. *)
Inductive ending : Type :=
| NothingToCheck
| Finished
| Failed.

(** What a pass leaves behind. *)
Record pass : Type := {
  p_ending : ending;
  p_trades : list trade_data;
  p_positions : option (list Positions.position);
  p_position_files : Positions.store;
  p_file : file;
  p_values : option (gmap string Q)
}.

(** [check_and_record_completed_trades(session_metrics, open_positions,
    exchange, exchange_open_order_values)] at time [now], for an exchange of
    the given name whose [get_closed_orders] gives [closed_orders]. *)
Definition check_and_record_completed_trades (exchange_name : string) (now : Q)
    (closed_orders : answer) (positions : option (list Positions.position))
    (files : Positions.store) (f : file)
    (exchange_open_order_values : option (gmap string Q)) : pass :=
  let unchanged e :=
    {| p_ending := e; p_trades := []; p_positions := positions;
       p_position_files := files; p_file := f;
       p_values := exchange_open_order_values |} in
  match closed_orders with
  | NoAnswer => unchanged NothingToCheck
  | _ =>
      match load f with
      | None => unchanged Failed
      | Some recorded =>
          match closed_orders with
          | Closed orders =>
              let start :=
                {| recorded_orders := recorded; filled_buy_order_value := 0;
                   trades := []; open_positions := positions;
                   position_files := files |} in
              match scan exchange_name now
                      (bool_decide (exchange_open_order_values <> None)) orders start with
              | (st, false) =>
                  {| p_ending := Failed; p_trades := trades st;
                     p_positions := open_positions st;
                     p_position_files := position_files st; p_file := f;
                     p_values := exchange_open_order_values |}
              | (st, true) =>
                  let values' :=
                    match exchange_open_order_values with
                    | Some values =>
                        if Py.Qltb 0 (filled_buy_order_value st) then
                          let current_total := default 0 (values !! exchange_name) in
                          Some (<[exchange_name :=
                                    Py.max 0 (current_total - filled_buy_order_value st)]>
                                  values)
                        else Some values
                    | None => None
                    end in
                  {| p_ending := Finished; p_trades := trades st;
                     p_positions := open_positions st;
                     p_position_files := position_files st;
                     p_file := write (recorded_orders st);
                     p_values := values' |}
              end
          | _ => unchanged Failed
          end
      end
  end.

(** The ids of the trades recorded, and the value of the buys among
    them. *)
Definition trade_ids (ts : list trade_data) : list string := map td_order_id ts.

Definition bought (ts : list trade_data) : Q :=
  fold_left (fun acc t =>
               if String.eqb (td_type t) "buy" then acc + td_price t * td_volume t
               else acc) ts 0.

(** What [examine] has checked of an order when it lets a trade through. *)
Definition passed (now : Q) (order_info : closed_order) (t : trade_data) : Prop :=
  co_status order_info = Some "closed"%string /\
  (exists descr, co_descr order_info = Some descr /\
                 cd_pair descr = Some (td_pair t) /\
                 cd_type descr = Some (td_type t)) /\
  td_pair t <> ""%string /\ td_type t <> ""%string /\
  co_price order_info = Some (Py.Num (td_price t)) /\
  co_vol order_info = Some (Py.Num (td_volume t)) /\
  co_fee order_info = Some (Py.Num (td_fees t)) /\
  td_timestamp t = default 0 (closetm order_info) /\
  (~ td_timestamp t == 0 -> now - td_timestamp t <= 1800).

(** The file holds the order id (an unreadable file counts: no pass gets
    past loading it). *)
Definition marked (order_id : string) (f : file) : Prop :=
  match load f with
  | Some recorded => dict_has order_id recorded = true
  | None => True
  end.

(** The states of the file that can follow a given one: any number of
    calls of [record_open_order] and of passes, with whatever arguments. *)
Inductive later : file -> file -> Prop :=
| later_refl (f : file) : later f f
| later_note (f f' : file) (order_id exchange_name : string) (now : Q) :
    later f f' -> later f (record_open_order order_id exchange_name now f')
| later_pass (f f' : file) (exchange_name : string) (now : Q) (closed_orders : answer)
    (positions : option (list Positions.position)) (files : Positions.store)
    (values : option (gmap string Q)) :
    later f f' ->
    later f (p_file (check_and_record_completed_trades exchange_name now closed_orders
                       positions files f' values)).

End Recording.

(** ** Example inputs for the record of orders *)
Module RecordingExamples.

(** A buy of 100 units at 0.01 and a sell of 100 at 0.012, both closed at
    time 1000; a third order without a price. *)
Definition closed_trade (ty : string) (price : Q) : Profit.closed_order :=
  {| Profit.closetm := Some 1000;
     Profit.co_descr := Some {| Profit.cd_type := Some ty;
                                Profit.cd_pair := Some "XUSD"%string |};
     Profit.co_status := Some "closed"%string;
     Profit.co_vol_exec := Some (Py.Num 100);
     Profit.co_vol := Some (Py.Num 100);
     Profit.co_price := Some (Py.Num price);
     Profit.co_cost := Some (Py.Num (price * 100));
     Profit.co_fee := Some (Py.Num 0.0026) |}.

Definition no_price : Profit.closed_order :=
  {| Profit.closetm := Some 1000;
     Profit.co_descr := Some {| Profit.cd_type := Some "buy"%string;
                                Profit.cd_pair := Some "XUSD"%string |};
     Profit.co_status := Some "closed"%string;
     Profit.co_vol_exec := Some (Py.Num 100);
     Profit.co_vol := Some (Py.Num 100);
     Profit.co_price := None;
     Profit.co_cost := None;
     Profit.co_fee := Some (Py.Num 0.0026) |}.

Definition two_fills : list (string * Profit.closed_order) :=
  [("OB7"%string, closed_trade "buy" 0.01); ("OS8"%string, closed_trade "sell" 0.012)].

Definition fill_then_broken : list (string * Profit.closed_order) :=
  [("OB7"%string, closed_trade "buy" 0.01); ("OX9"%string, no_price)].

Definition ledger : gmap string Q :=
  <["kraken"%string := 3]> (<["bitmart"%string := 0]> ∅).

End RecordingExamples.

(** ** utils/session.py: the session metrics *)
Module Session.

(** The keys of [trade_data] that [update_session_metrics] reads; [None] is
    a missing key.  ['actual_profit'] may be present and hold [None]. *)
Record trade : Type := {
  t_type : option string;
  t_pair : option string;
  t_volume : option Q;
  t_fees : option Q;
  t_actual_profit : option (option Q)
}.













End Session.

(** * Comparisons on rationals *)

Lemma Qltb_lt (a b : Q) : Py.Qltb a b = true <-> a < b.
Proof.
  unfold Py.Qltb. rewrite negb_true_iff.
  destruct (Qle_bool b a) eqn:E.
  - apply Qle_bool_iff in E. split; [discriminate | intros H; lra].
  - split; [intros _ | reflexivity].
    destruct (Qlt_le_dec a b) as [H|H]; [exact H|].
    apply Qle_bool_iff in H. congruence.
Qed.

Lemma Qltb_ge (a b : Q) : Py.Qltb a b = false <-> b <= a.
Proof.
  unfold Py.Qltb. rewrite negb_false_iff. apply Qle_bool_iff.
Qed.

Lemma Qle_bool_false (a b : Q) : Qle_bool a b = false <-> b < a.
Proof.
  rewrite <- Qltb_lt. unfold Py.Qltb. now rewrite negb_true_iff.
Qed.

(** * Profit reconciliation *)

(** When the order ids happen to sort in the order of the fills, the
    example of the specification comes out: profit 0.32, nothing logged. *)
Lemma fifo_example_in_txid_order :
  exists p,
    Profit.calculate_trade_profit 2500 (Some Examples.closed_in_time_order) Examples.sell
    = (Some p, []) /\ p == 0.32.
Proof. eexists. split; [vm_compute; reflexivity | reflexivity]. Qed.

(** What the rewriting of the ledger would store for the example, were
    [config] bound: the first buy fully matched, 20 units of the second. *)
Lemma rewrite_ledger_example :
  exists t1 t2,
    Profit.rewrite_ledger Examples.fifo_matches "XUSD" Examples.trades_file
    = [Some t1; Some t2] /\
    Profit.fully_matched t1 = Some true /\
    (exists mv, Profit.matched_volume t2 = Some mv /\ mv == 20) /\
    Profit.fully_matched t2 = None.
Proof.
  do 2 eexists. split; [vm_compute; reflexivity|].
  split; [reflexivity|]. split; [|reflexivity].
  eexists. split; reflexivity.
Qed.

(** C1.  The example of the specification, with order ids that sort
    against the order of the fills: the matcher takes the younger buy
    first, so the matched cost is 1.30 and the profit 0.26, not 0.32; and
    [update_matched_buy_trades], handed the oldest-first matches, leaves
    the trade ledger as it was. *)
Theorem fifo_example_sorted_by_txid :
  (exists p,
     Profit.calculate_trade_profit 2500 (Some Examples.closed_against_time_order)
       Examples.sell = (Some p, []) /\
     p == 0.26 /\ ~ p == 0.32) /\
  Profit.update_matched_buy_trades Examples.fifo_matches "XUSD" Examples.trades_file
  = Examples.trades_file.
Proof.
  split; [|reflexivity].
  eexists. split; [vm_compute; reflexivity|].
  split; [reflexivity | vm_compute; discriminate].
Qed.

(** The profit is always the revenue of the whole sell volume less the
    matched cost and the fees. *)
Lemma match_sell_profit (buys : list Profit.filled_buy) (s : Profit.sell_trade) (p : Q)
    (logs : list Profit.log_line) :
  Profit.match_sell buys s = (Some p, logs) ->
  let t := Profit.match_volumes (Py.sort_by Profit.fb_txid buys)
             {| Profit.remaining_sell_volume := default 0 (Profit.st_volume s);
                Profit.total_cost := 0; Profit.total_buy_fees := 0 |} in
  p = default 0 (Profit.st_volume s) * default 0 (Profit.st_price s)
      - (Profit.total_cost t + Profit.total_buy_fees t + default 0 (Profit.st_fees s)).
Proof.
  unfold Profit.match_sell. destruct buys as [|b rest]; [discriminate|].
  destruct (Qle_bool (default 0 (Profit.st_volume s)) 0); [discriminate|].
  intros H. now inversion H.
Qed.

(** C6.  A sell of 120 units at 0.013 against a single buy of 50 units at
    0.012: the shortfall of 70 units is logged, and the profit returned
    is 0.96, the revenue of all 120 units less the cost of the 50 matched
    ones; over the matched portion it would be 50 x (0.013 - 0.012)
    = 0.05. *)
Theorem unmatched_volume_counted_as_revenue :
  exists p r,
    Profit.calculate_trade_profit 2500 (Some [("OA3"%string, Examples.buy2)])
      Examples.sell = (Some p, [Profit.WarnUnmatched r]) /\
    r == 70 /\
    p == 120 * 0.013 - 50 * 0.012 /\
    p == 0.96 /\
    ~ p == 50 * 0.013 - 50 * 0.012.
Proof.
  do 2 eexists. split; [vm_compute; reflexivity|].
  split; [reflexivity|]. split; [reflexivity|]. split; [reflexivity|].
  vm_compute. discriminate.
Qed.

(** * Sell placement *)

(** The price of a sell that is placed is the buy price marked up by twice
    the fee rate and the tier's margin, rounded to the price precision. *)
Lemma place_sell_price (margin : Config.margin_settings) (exchange_name : string)
    (fmt : string -> string) (asset_pairs : option (gmap string OrderManager.pair_info))
    (b : OrderManager.buy_order) (pair : string) (volume price : Q) (leverage : option Q) :
  OrderManager.place_sell margin exchange_name fmt asset_pairs b
  = OrderManager.PlaceSell pair volume price leverage ->
  exists fee_rate decimals,
    price = Py.round (OrderManager.bo_price b
                      * (1 + fee_rate * 2 + Helpers.get_profit_margin (OrderManager.bo_price b)))
                     decimals.
Proof.
  unfold OrderManager.place_sell.
  destruct (match match asset_pairs with
                  | Some pairs => pairs !! fmt (OrderManager.bo_pair b)
                  | None => None
                  end with
            | Some i => _
            | None => _
            end) as [decimals order_min].
  destruct (Py.Qltb _ order_min); [discriminate|].
  intros H. inversion H; subst. do 2 eexists. reflexivity.
Qed.

(** C5.  A filled buy of a token priced at 0.000004 while the pair table
    is unavailable: the minimum sell price rounds to 0 at the default five
    decimals, and the sell of the whole volume is sent to the exchange at
    that price, its value (0) below 95% of the buy value (4). *)
Theorem sell_placed_below_buy_value :
  exists price,
    OrderManager.check_and_place_sell_orders Config.default_margin
      Examples.kraken_settled [Examples.micro_buy]
    = [OrderManager.Step (OrderManager.PlaceSell "PEPEUSD" 1000000 price None)] /\
    price == 0 /\
    1000000 * price < 0.95 * (1000000 * 0.000004).
Proof.
  eexists. split; [vm_compute; reflexivity|].
  split; [reflexivity | vm_compute; reflexivity].
Qed.

(** * Sizing *)

Lemma py_max_ge_r (a b : Q) : b <= Py.max a b.
Proof.
  unfold Py.max. destruct (Py.Qltb a b) eqn:E; [lra|].
  now apply Qltb_ge in E.
Qed.

(** The check of line 147 never fires. *)
Lemma below_ordermin_unreachable (margin : Config.margin_settings) (pair : string)
    (current_price fees account_balance ordermin : Q) (pair_decimals : Z)
    (ex : Strategy.exchange) (values : gmap string Q) :
  Strategy.decide_buy margin pair current_price fees account_balance ordermin
    pair_decimals ex values <> Strategy.RefusedBelowOrdermin.
Proof.
  unfold Strategy.decide_buy.
  destruct (Qeq_bool account_balance 0); [discriminate|].
  destruct (Qle_bool _ 0); [discriminate|].
  destruct (Qeq_bool (current_price * (1 + fees)) 0); [discriminate|].
  destruct (Qle_bool _ 0); [discriminate|].
  destruct (Py.Qltb (Py.max _ ordermin) ordermin) eqn:E.
  - apply Qltb_lt in E. pose proof (py_max_ge_r
      (Strategy.rounded_target_volume pair current_price fees account_balance
         pair_decimals ex values) ordermin). lra.
  - match goal with
    | |- context [if ?c then Strategy.RefusedOverLimit else _] => destruct c
    end; discriminate.
Qed.

(** Lines 199-211: a buy that the exchange accepts adds its value, price
    times volume, to the ledger entry; anything else leaves the ledger as
    it was. *)
Lemma placement_adds_order_value (margin : Config.margin_settings) (pair : string)
    (current_price fees account_balance ordermin : Q) (pair_decimals : Z)
    (ex : Strategy.exchange) (values : gmap string Q) :
  let '(s, values') :=
    Strategy.simple_trading_strategy margin pair current_price fees account_balance
      ordermin pair_decimals ex values in
  match s with
  | Strategy.PlaceBuy exchange_pair volume price leverage =>
      if Strategy.place_buy_order ex exchange_pair volume price leverage
      then values' !! Strategy.name ex
           = Some (default 0 (values !! Strategy.name ex) + price * volume)
      else values' = values
  | _ => values' = values
  end.
Proof.
  unfold Strategy.simple_trading_strategy.
  destruct (Strategy.decide_buy margin pair current_price fees account_balance ordermin
              pair_decimals ex values) as [| | | | |ep vol price lev]; try reflexivity.
  destruct (Strategy.place_buy_order ex ep vol price lev) eqn:E; rewrite E;
    [apply lookup_insert_eq | reflexivity].
Qed.

(** C3 (as stated) fails: balance 100, price 0.01, fee 0.26%, nothing open,
    [ordermin] 50.  The rounded target volume is 29.92220227, below the
    minimum, and a buy of 50 units is placed and entered in the ledger. *)
Lemma buy_placed_below_minimum_target :
  Strategy.rounded_target_volume "XUSD" 0.01 0.0026 100 5 Examples.kraken_bare
    Examples.initial_values < 50 /\
  exists price values',
    Strategy.simple_trading_strategy Config.default_margin "XUSD" 0.01 0.0026 100 50 5
      Examples.kraken_bare Examples.initial_values
    = (Strategy.PlaceBuy "XUSD" 50 price None, values') /\
    price == 0.01 /\
    exists v, values' !! "kraken"%string = Some v /\ v == 0.5.
Proof.
  split; [vm_compute; reflexivity|].
  do 2 eexists. split; [vm_compute; reflexivity|]. split; [reflexivity|].
  eexists. split; [vm_compute; reflexivity | reflexivity].
Qed.

(** C3 (amended).  When the rounded target volume is below [ordermin], the
    strategy does not refuse for that reason: the volume is raised to
    [ordermin].  With a positive [ordermin] it calls [place_buy_order] for
    exactly [ordermin] units, unless the value of that order would take the
    ledger over the maximum trade amount, in which case it refuses; with
    [ordermin <= 0] it refuses for lack of volume. *)
Theorem volume_floored_at_ordermin (margin : Config.margin_settings) (pair : string)
    (current_price fees account_balance ordermin : Q) (pair_decimals : Z)
    (ex : Strategy.exchange) (values : gmap string Q) :
  ~ account_balance == 0 ->
  0 < Strategy.remaining_budget account_balance current_price ex values ->
  ~ current_price * (1 + fees) == 0 ->
  Strategy.rounded_target_volume pair current_price fees account_balance
    pair_decimals ex values < ordermin ->
  let outcome := Strategy.decide_buy margin pair current_price fees account_balance
                   ordermin pair_decimals ex values in
  let buy_price := Strategy.buy_price_for pair current_price pair_decimals ex in
  let total := default 0 (values !! Strategy.name ex) in
  let limit := Strategy.max_total_trade_amount account_balance current_price in
  outcome <> Strategy.RefusedBelowOrdermin /\
  (ordermin <= 0 -> outcome = Strategy.RefusedNoVolume) /\
  (0 < ordermin -> total + buy_price * ordermin <= limit ->
   outcome = Strategy.PlaceBuy (Strategy.get_pair_format ex pair) ordermin buy_price
               (Strategy.choose_leverage margin ex)) /\
  (0 < ordermin -> limit < total + buy_price * ordermin ->
   outcome = Strategy.RefusedOverLimit).
Proof.
  intros Hbal Hbudget Hprice Hlow outcome buy_price total limit.
  split; [apply below_ordermin_unreachable|].
  unfold outcome, Strategy.decide_buy.
  assert (Hb : Qeq_bool account_balance 0 = false)
    by (destruct (Qeq_bool account_balance 0) eqn:E; [apply Qeq_bool_iff in E|]; tauto).
  assert (Hp : Qeq_bool (current_price * (1 + fees)) 0 = false)
    by (destruct (Qeq_bool (current_price * (1 + fees)) 0) eqn:E;
        [apply Qeq_bool_iff in E|]; tauto).
  apply Qle_bool_false in Hbudget.
  rewrite Hb, Hbudget, Hp.
  assert (Hmax : Py.max (Strategy.rounded_target_volume pair current_price fees
                           account_balance pair_decimals ex values) ordermin = ordermin).
  { unfold Py.max. apply Qltb_lt in Hlow. now rewrite Hlow. }
  rewrite Hmax.
  assert (Hself : Py.Qltb ordermin ordermin = false) by (apply Qltb_ge; lra).
  rewrite Hself.
  fold buy_price total limit.
  split; [intros H; apply Qle_bool_iff in H; now rewrite H|].
  split.
  - intros Hpos Hfit. apply Qle_bool_false in Hpos. rewrite Hpos.
    apply Qltb_ge in Hfit. now rewrite Hfit.
  - intros Hpos Hover. apply Qle_bool_false in Hpos. rewrite Hpos.
    apply Qltb_lt in Hover. now rewrite Hover.
Qed.

Lemma volume_floored_at_ordermin_witness :
  Strategy.decide_buy Config.default_margin "XUSD" 0.01 0.0026 100 50 5
    Examples.kraken_bare Examples.initial_values
  = Strategy.PlaceBuy "XUSD" 50
      (Strategy.buy_price_for "XUSD" 0.01 5 Examples.kraken_bare) None.
Proof.
  destruct (volume_floored_at_ordermin Config.default_margin "XUSD" 0.01 0.0026 100 50 5
              Examples.kraken_bare Examples.initial_values)
    as (_ & _ & Hplace & _).
  - vm_compute. discriminate.
  - vm_compute. reflexivity.
  - vm_compute. discriminate.
  - vm_compute. reflexivity.
  - apply Hplace; vm_compute; [reflexivity | discriminate].
Defined.

(** * The open-order ledger *)

Section LedgerProofs.
Import OrderManager Ledger.
Context (current_time : Q) (ticker : string -> option Q).

Ltac split_match :=
  repeat match goal with
    | H : context [match ?x with _ => _ end] |- _ => destruct x eqn:?; try discriminate
    | H : context [if ?x then _ else _] |- _ => destruct x eqn:?; try discriminate
    end.

(** A counted order has a positive value, and the cancel loop recomputes
    the very same value. *)
Lemma classify_counted (o : order_info) (v : Q) :
  classify current_time ticker o = Kept v \/ classify current_time ticker o = Marked v ->
  cancel_value o = Some v /\ 0 < v.
Proof.
  unfold classify, cancel_value.
  destruct (opentm o) as [tm|]; [|intros [H|H]; discriminate].
  destruct (oi_descr o) as [d|]; [|intros [H|H]; discriminate].
  simpl.
  destruct (Py.float (default (Py.Num 0) (od_price d))) as [price|];
    [|intros [H|H]; discriminate].
  destruct (Qle_bool price 0) eqn:Hp; [intros [H|H]; discriminate|].
  destruct (Py.float tm) as [order_time|]; [|intros [H|H]; discriminate].
  destruct (Py.float (default (Py.Num 0) (oi_vol o))) as [volume|];
    [|intros [H|H]; discriminate].
  destruct (Qle_bool volume 0) eqn:Hv; [intros [H|H]; discriminate|].
  apply Qle_bool_false in Hp, Hv.
  assert (Hpos : 0 < price * volume) by nra.
  intros [H|H]; split_match; inversion H; subst; auto.
Qed.

Lemma counted_nonneg (o : order_info) : 0 <= counted current_time ticker o.
Proof.
  unfold counted. destruct (classify current_time ticker o) eqn:E; [lra | |].
  - destruct (classify_counted o order_value) as [_ H]; auto. lra.
  - destruct (classify_counted o order_value) as [_ H]; auto. lra.
Qed.

Lemma marked_positive (o : order_info) :
  is_marked current_time ticker o = true -> 0 < counted current_time ticker o.
Proof.
  unfold is_marked, counted.
  destruct (classify current_time ticker o) eqn:E; try discriminate.
  intros _. destruct (classify_counted o order_value) as [_ H]; auto.
Qed.

Lemma marked_cancel_value (o : order_info) :
  is_marked current_time ticker o = true ->
  cancel_value o = Some (counted current_time ticker o).
Proof.
  unfold is_marked, counted.
  destruct (classify current_time ticker o) eqn:E; try discriminate.
  intros _. destruct (classify_counted o order_value) as [H _]; auto.
Qed.

Lemma scan_total (orders : list (string * order_info)) (tot : Q) (cs : list string) :
  fst (scan current_time ticker orders tot cs)
  == tot + sum_of (counted current_time ticker) orders.
Proof.
  revert tot cs. induction orders as [|[txid o] rest IH]; intros tot cs; simpl.
  - lra.
  - unfold counted at 1.
    destruct (classify current_time ticker o); rewrite IH; lra.
Qed.

Lemma scan_marked (orders : list (string * order_info)) (tot : Q) (cs : list string) :
  snd (scan current_time ticker orders tot cs)
  = (cs ++ marked_txids current_time ticker orders)%list.
Proof.
  revert tot cs. induction orders as [|[txid o] rest IH]; intros tot cs; simpl.
  - now rewrite app_nil_r.
  - unfold marked_txids. simpl. unfold is_marked at 1.
    destruct (classify current_time ticker o); rewrite IH; simpl; auto.
    now rewrite <- app_assoc.
Qed.

(** The result of the cancel loop does not depend on what the cancel
    calls answer. *)
Lemma cancel_loop_blind (c1 c2 : string -> cancel_outcome)
    (orders : list (string * order_info)) (tc : list string) (cv : Q) (calls : list string) :
  cancel_loop c1 orders tc cv calls = cancel_loop c2 orders tc cv calls.
Proof.
  revert cv calls. induction tc as [|txid rest IH]; intros cv calls; simpl; auto.
  destruct (lookup_order txid orders) as [o|].
  - destruct (cancel_value o); [|apply IH].
    destruct (c1 txid), (c2 txid); apply IH.
  - destruct (c1 txid), (c2 txid); apply IH.
Qed.

Lemma lookup_order_in (orders : list (string * order_info)) (txid : string) (o : order_info) :
  distinct_txids orders -> In (txid, o) orders -> lookup_order txid orders = Some o.
Proof.
  unfold distinct_txids.
  induction orders as [|[k o'] rest IH]; simpl; [tauto|].
  intros Hnd [Heq | Hin].
  - inversion Heq; subst. now rewrite String.eqb_refl.
  - inversion Hnd as [|? ? Hnotin Hnd']; subst.
    destruct (String.eqb txid k) eqn:E.
    + apply String.eqb_eq in E; subst. exfalso. apply Hnotin.
      apply list_elem_of_In, in_map_iff. now exists (k, o).
    + now apply IH.
Qed.

Lemma cancel_loop_marked (cancel : string -> cancel_outcome)
    (orders sub : list (string * order_info)) (cv : Q) (calls : list string) :
  (forall txid o, In (txid, o) sub -> lookup_order txid orders = Some o) ->
  fst (cancel_loop cancel orders (marked_txids current_time ticker sub) cv calls)
  == cv + sum_of (marked_value current_time ticker) sub
  /\ snd (cancel_loop cancel orders (marked_txids current_time ticker sub) cv calls)
     = (calls ++ marked_txids current_time ticker sub)%list.
Proof.
  revert cv calls. induction sub as [|[txid o] rest IH]; intros cv calls Hl.
  - simpl. split; [lra | now rewrite app_nil_r].
  - assert (Hrest : forall t o', In (t, o') rest -> lookup_order t orders = Some o')
      by (intros; apply Hl; now right).
    unfold marked_txids. simpl. unfold marked_value at 1.
    destruct (is_marked current_time ticker o) eqn:Hm.
    + simpl. rewrite (Hl txid o) by now left.
      rewrite (marked_cancel_value o Hm).
      destruct (IH (cv + counted current_time ticker o) (calls ++ [txid])%list Hrest)
        as [H1 H2].
      fold (marked_txids current_time ticker rest).
      destruct (cancel txid); (split; [rewrite H1; lra | rewrite H2; now rewrite <- app_assoc]).
    + fold (marked_txids current_time ticker rest).
      destruct (IH cv calls Hrest) as [H1 H2]. split; [rewrite H1; lra | exact H2].
Qed.

Lemma sum_counted_split (orders : list (string * order_info)) :
  sum_of (counted current_time ticker) orders
  == sum_of (kept_value current_time ticker) orders
     + sum_of (marked_value current_time ticker) orders.
Proof.
  induction orders as [|[txid o] rest IH]; simpl; [lra|].
  rewrite IH. unfold kept_value, marked_value.
  destruct (is_marked current_time ticker o); lra.
Qed.

Lemma sum_kept_nonneg (orders : list (string * order_info)) :
  0 <= sum_of (kept_value current_time ticker) orders.
Proof.
  induction orders as [|[txid o] rest IH]; simpl; [lra|].
  unfold kept_value at 1. pose proof (counted_nonneg o).
  destruct (is_marked current_time ticker o); lra.
Qed.

Lemma sum_marked_nonneg (orders : list (string * order_info)) :
  0 <= sum_of (marked_value current_time ticker) orders.
Proof.
  induction orders as [|[txid o] rest IH]; simpl; [lra|].
  unfold marked_value at 1. pose proof (counted_nonneg o).
  destruct (is_marked current_time ticker o); lra.
Qed.

(** The ledger entry once [manage_open_orders] has gone through a truthy
    answer: the kept orders' values. *)
Lemma managed_ledger (exchange_name : string) (cancel : string -> cancel_outcome)
    (orders : list (string * order_info)) (values : gmap string Q) :
  distinct_txids orders ->
  let m := manage_open_orders exchange_name current_time ticker cancel
             (Some orders) values in
  cancel_calls m = marked_txids current_time ticker orders /\
  exists v, ledger m !! exchange_name = Some v /\
            v == sum_of (kept_value current_time ticker) orders.
Proof.
  intros Hnd. unfold manage_open_orders.
  pose proof (scan_total orders 0 []) as Htot.
  pose proof (scan_marked orders 0 []) as Hcs.
  destruct (scan current_time ticker orders 0 []) as [total tc]. simpl in Htot, Hcs.
  subst tc.
  destruct (cancel_loop_marked cancel orders orders 0 []) as [Hcv Hcalls].
  { intros txid o Hin. now apply lookup_order_in. }
  destruct (cancel_loop cancel orders (marked_txids current_time ticker orders) 0 [])
    as [canceled calls]. simpl in Hcv, Hcalls. subst calls.
  simpl. split; [reflexivity|].
  pose proof (sum_counted_split orders) as Hsplit.
  pose proof (sum_kept_nonneg orders) as Hk.
  pose proof (sum_marked_nonneg orders) as Hm.
  rewrite lookup_insert_eq. simpl.
  destruct (Py.Qltb 0 canceled) eqn:Hc.
  - rewrite lookup_insert_eq. eexists; split; [reflexivity|].
    unfold Py.max. destruct (Py.Qltb 0 (total - canceled)) eqn:Hd.
    + lra.
    + apply Qltb_ge in Hd. lra.
  - rewrite lookup_insert_eq. eexists; split; [reflexivity|].
    apply Qltb_ge in Hc. lra.
Qed.


Lemma marked_kept_values (o : order_info) :
  kept_value current_time ticker o
  = (if is_marked current_time ticker o then 0 else counted current_time ticker o)
  /\ marked_value current_time ticker o
    = (if is_marked current_time ticker o then counted current_time ticker o else 0).
Proof. split; reflexivity. Qed.

Lemma called_iff_marked (orders : list (string * order_info)) (txid : string) (o : order_info) :
  distinct_txids orders -> In (txid, o) orders ->
  existsb (String.eqb txid) (marked_txids current_time ticker orders)
  = is_marked current_time ticker o.
Proof.
  intros Hnd Hin.
  destruct (is_marked current_time ticker o) eqn:Hm.
  - apply existsb_exists. exists txid. split; [|apply String.eqb_refl].
    unfold marked_txids. apply in_map_iff. exists (txid, o). split; [reflexivity|].
    apply filter_In. split; [exact Hin | exact Hm].
  - apply not_true_is_false. intros H.
    apply existsb_exists in H as (t & Ht & Heq).
    apply String.eqb_eq in Heq; subst t.
    unfold marked_txids in Ht. apply in_map_iff in Ht as ([t o'] & Hfst & Hf).
    simpl in Hfst; subst t. apply filter_In in Hf as [Hin' Hm'].
    pose proof (lookup_order_in orders txid o Hnd Hin) as H1.
    pose proof (lookup_order_in orders txid o' Hnd Hin') as H2.
    congruence.
Qed.

Lemma sum_still_open (cancel : string -> cancel_outcome)
    (orders sub : list (string * order_info)) :
  distinct_txids orders -> (forall x, In x sub -> In x orders) ->
  sum_of (counted current_time ticker)
    (still_open cancel (marked_txids current_time ticker orders) sub)
  == sum_of (kept_value current_time ticker) sub
     + sum_of (marked_value current_time ticker) (unconfirmed cancel sub).
Proof.
  intros Hnd. induction sub as [|[txid o] rest IH]; intros Hsub; [simpl; lra|].
  assert (IH' := IH (fun x Hx => Hsub x (or_intror Hx))).
  pose proof (called_iff_marked orders txid o Hnd (Hsub _ (or_introl eq_refl))) as Hcalled.
  pose proof (marked_kept_values o) as Hval.
  unfold still_open, unconfirmed in *. simpl. rewrite Hcalled.
  destruct (is_marked current_time ticker o);
    destruct (cancel_succeeds cancel txid); simpl; rewrite IH';
    destruct Hval as [Hk Hmv]; rewrite ?Hk, ?Hmv; lra.
Qed.

Lemma sum_unconfirmed_zero (cancel : string -> cancel_outcome)
    (orders : list (string * order_info)) :
  (forall txid o, In (txid, o) orders -> is_marked current_time ticker o = true ->
                  cancel_succeeds cancel txid = true) ->
  sum_of (marked_value current_time ticker) (unconfirmed cancel orders) == 0.
Proof.
  induction orders as [|[txid o] rest IH]; intros H; [simpl; lra|].
  assert (IH' := IH (fun t o' Hin => H t o' (or_intror Hin))).
  pose proof (H txid o (or_introl eq_refl)) as Hhere.
  destruct (marked_kept_values o) as [_ Hmv].
  unfold unconfirmed in *. simpl.
  destruct (cancel_succeeds cancel txid); simpl; [exact IH'|].
  rewrite IH', Hmv.
  destruct (is_marked current_time ticker o); [|lra].
  discriminate Hhere; reflexivity.
Qed.

Lemma sum_unconfirmed_positive (cancel : string -> cancel_outcome)
    (orders : list (string * order_info)) (txid : string) (o : order_info) :
  In (txid, o) orders -> is_marked current_time ticker o = true ->
  cancel_succeeds cancel txid = false ->
  0 < sum_of (marked_value current_time ticker) (unconfirmed cancel orders).
Proof.
  induction orders as [|[t o'] rest IH]; [simpl; tauto|].
  intros [Heq | Hin] Hm Hc.
  - inversion Heq; subst.
    pose proof (sum_marked_nonneg (unconfirmed cancel rest)) as Hn.
    pose proof (marked_positive o Hm) as Hpos.
    destruct (marked_kept_values o) as [_ Hmv]. rewrite Hm in Hmv.
    unfold unconfirmed in *. simpl. rewrite Hc. simpl. rewrite Hmv. lra.
  - specialize (IH Hin Hm Hc).
    pose proof (counted_nonneg o') as Hn.
    destruct (marked_kept_values o') as [_ Hmv].
    unfold unconfirmed in *. simpl.
    destruct (cancel_succeeds cancel t); simpl; [exact IH|].
    rewrite Hmv. destruct (is_marked current_time ticker o'); lra.
Qed.

Lemma sum_values_counted (orders : list (string * order_info)) :
  (forall txid o, In (txid, o) orders -> classify current_time ticker o <> Skipped) ->
  sum_values orders == sum_of (counted current_time ticker) orders.
Proof.
  induction orders as [|[txid o] rest IH]; intros H; [simpl; lra|].
  assert (Hhere : default 0 (cancel_value o) = counted current_time ticker o).
  { assert (Hns := H txid o (or_introl eq_refl)).
    unfold counted.
    destruct (classify current_time ticker o) eqn:E; [congruence | |];
      destruct (classify_counted o order_value) as [-> _]; auto. }
  simpl. rewrite Hhere, (IH (fun t o' Hin => H t o' (or_intror Hin))). lra.
Qed.

End LedgerProofs.

(** C2 (as stated) fails: one order, older than 30 minutes, whose cancel
    call fails.  The order is still on the book with value 6; the ledger
    entry is 0. *)
Lemma ledger_after_failed_cancel :
  let m := OrderManager.manage_open_orders "kraken" 2000 Examples.no_ticker
             Examples.cancel_fails (Some Examples.one_order) Examples.initial_values in
  let book := OrderManager.still_open Examples.cancel_fails
                (OrderManager.cancel_calls m) Examples.one_order in
  book = Examples.one_order /\
  OrderManager.sum_values book == 6 /\
  exists v, OrderManager.ledger m !! "kraken"%string = Some v /\ v == 0 /\
            ~ v == OrderManager.sum_values book.
Proof.
  split; [reflexivity|]. split; [reflexivity|].
  eexists. split; [vm_compute; reflexivity|]. split; [reflexivity|].
  vm_compute. discriminate.
Qed.

(** C2 (amended).  After [manage_open_orders] has gone through a truthy
    open-orders answer, the ledger entry of the exchange is the sum of
    price x volume over the orders that passed the validity checks and were
    not queued for cancellation; it is never negative; and when every
    cancel call succeeded it is the sum over the valid orders still on the
    book (over all orders still on the book when every order is valid). *)
Theorem ledger_after_reconciliation
    (exchange_name : string) (current_time : Q) (ticker : string -> option Q)
    (cancel : string -> OrderManager.cancel_outcome)
    (orders : list (string * OrderManager.order_info)) (values : gmap string Q) :
  Ledger.distinct_txids orders ->
  let m := OrderManager.manage_open_orders exchange_name current_time ticker cancel
             (Some orders) values in
  let book := OrderManager.still_open cancel (OrderManager.cancel_calls m) orders in
  exists v,
    OrderManager.ledger m !! exchange_name = Some v /\
    0 <= v /\
    v == Ledger.sum_of (Ledger.kept_value current_time ticker) orders /\
    ((forall txid, In txid (OrderManager.cancel_calls m) ->
                   OrderManager.cancel_succeeds cancel txid = true) ->
     v == Ledger.sum_of (Ledger.counted current_time ticker) book /\
     ((forall txid o, In (txid, o) orders ->
                      OrderManager.classify current_time ticker o <> OrderManager.Skipped) ->
      v == OrderManager.sum_values book)).
Proof.
  intros Hnd m book.
  destruct (managed_ledger current_time ticker exchange_name cancel orders values Hnd)
    as (Hcalls & v & Hv & Hkept).
  fold m in Hcalls, Hv. exists v. split; [exact Hv|].
  split; [rewrite Hkept; apply sum_kept_nonneg|]. split; [exact Hkept|].
  intros Hok.
  assert (Hbook : v == Ledger.sum_of (Ledger.counted current_time ticker) book).
  { unfold book. rewrite Hcalls.
    rewrite (sum_still_open current_time ticker cancel orders orders Hnd) by auto.
    rewrite sum_unconfirmed_zero; [lra|].
    intros txid o Hin Hm. apply Hok. rewrite Hcalls.
    unfold Ledger.marked_txids. apply in_map_iff. exists (txid, o).
    split; [reflexivity|]. apply filter_In. now split. }
  split; [exact Hbook|]. intros Hvalid.
  rewrite Hbook. symmetry. apply sum_values_counted.
  intros txid o Hin. apply (Hvalid txid o).
  unfold book, OrderManager.still_open in Hin. now apply filter_In in Hin.
Qed.

Lemma ledger_after_reconciliation_witness :
  exists v,
    OrderManager.ledger
      (OrderManager.manage_open_orders "kraken" 2000 Examples.no_ticker
         Examples.cancel_works (Some Examples.one_order) Examples.initial_values)
      !! "kraken"%string = Some v /\ 0 <= v.
Proof.
  destruct (ledger_after_reconciliation "kraken" 2000 Examples.no_ticker
              Examples.cancel_works Examples.one_order Examples.initial_values)
    as (v & Hv & Hge & _).
  - unfold Ledger.distinct_txids. apply (bool_decide_unpack _). vm_compute. exact I.
  - exists v. split; [exact Hv | exact Hge].
Defined.

(** C9.  The value of every order queued for cancellation is subtracted
    from the ledger entry whatever the cancel calls answer: the ledger
    after the run is the same for any two cancel behaviours, it is the
    counted total minus the queued orders' values, and it falls short of
    the valid orders still on the book by exactly the value of the queued
    orders whose cancel did not succeed, so it is strictly smaller as soon
    as one cancel fails or raises. *)
Theorem cancelled_value_subtracted_regardless
    (exchange_name : string) (current_time : Q) (ticker : string -> option Q)
    (cancel cancel' : string -> OrderManager.cancel_outcome)
    (orders : list (string * OrderManager.order_info)) (values : gmap string Q) :
  Ledger.distinct_txids orders ->
  let m := OrderManager.manage_open_orders exchange_name current_time ticker cancel
             (Some orders) values in
  let book := OrderManager.still_open cancel (OrderManager.cancel_calls m) orders in
  OrderManager.ledger m
  = OrderManager.ledger
      (OrderManager.manage_open_orders exchange_name current_time ticker cancel'
         (Some orders) values) /\
  exists v,
    OrderManager.ledger m !! exchange_name = Some v /\
    v == Ledger.sum_of (Ledger.counted current_time ticker) orders
         - Ledger.sum_of (Ledger.marked_value current_time ticker) orders /\
    v + Ledger.sum_of (Ledger.marked_value current_time ticker)
          (Ledger.unconfirmed cancel orders)
    == Ledger.sum_of (Ledger.counted current_time ticker) book /\
    ((exists txid o, In (txid, o) orders /\
                     Ledger.is_marked current_time ticker o = true /\
                     OrderManager.cancel_succeeds cancel txid = false) ->
     v < Ledger.sum_of (Ledger.counted current_time ticker) book).
Proof.
  intros Hnd m book. split.
  { unfold m, OrderManager.manage_open_orders.
    destruct (OrderManager.scan current_time ticker orders 0 []) as [total tc].
    now rewrite (cancel_loop_blind cancel cancel'). }
  destruct (managed_ledger current_time ticker exchange_name cancel orders values Hnd)
    as (Hcalls & v & Hv & Hkept).
  fold m in Hcalls, Hv. exists v. split; [exact Hv|].
  pose proof (sum_counted_split current_time ticker orders) as Hsplit.
  assert (Hbook : v + Ledger.sum_of (Ledger.marked_value current_time ticker)
                        (Ledger.unconfirmed cancel orders)
                  == Ledger.sum_of (Ledger.counted current_time ticker) book).
  { unfold book. rewrite Hcalls.
    rewrite (sum_still_open current_time ticker cancel orders orders Hnd) by auto.
    rewrite Hkept. reflexivity. }
  split; [lra|]. split; [exact Hbook|].
  intros (txid & o & Hin & Hm & Hc).
  pose proof (sum_unconfirmed_positive current_time ticker cancel orders txid o Hin Hm Hc).
  lra.
Qed.

Lemma cancelled_value_subtracted_regardless_witness :
  OrderManager.ledger
    (OrderManager.manage_open_orders "kraken" 2000 Examples.no_ticker
       Examples.cancel_fails (Some Examples.one_order) Examples.initial_values)
  = OrderManager.ledger
      (OrderManager.manage_open_orders "kraken" 2000 Examples.no_ticker
         Examples.cancel_works (Some Examples.one_order) Examples.initial_values).
Proof.
  apply (cancelled_value_subtracted_regardless "kraken" 2000 Examples.no_ticker
           Examples.cancel_fails Examples.cancel_works Examples.one_order
           Examples.initial_values).
  unfold Ledger.distinct_txids. apply (bool_decide_unpack _). vm_compute. exact I.
Defined.

(** * Staleness of open orders *)

(** The verdict on a complete, well-typed buy order in terms of its age
    and of the price the ticker gives. *)
Lemma classify_buy (current_time : Q) (ticker : string -> option Q)
    (o : OrderManager.order_info) (order_time price volume : Q) (pair : string) :
  OrderManager.opentm o = Some (Py.Num order_time) ->
  OrderManager.oi_descr o
  = Some {| OrderManager.od_price := Some (Py.Num price);
            OrderManager.od_pair := Some pair;
            OrderManager.od_type := Some "buy"%string |} ->
  OrderManager.oi_vol o = Some (Py.Num volume) ->
  0 < price -> 0 < volume ->
  OrderManager.classify current_time ticker o
  = if Py.Qltb 1800 (current_time - order_time)
    then OrderManager.Marked (price * volume)
    else if Py.Qltb 600 (current_time - order_time) then
      match ticker pair with
      | Some current_price =>
          if Py.Qltb current_price (price * 0.95) || Py.Qltb (price * 1.02) current_price
          then OrderManager.Marked (price * volume)
          else OrderManager.Kept (price * volume)
      | None => OrderManager.Kept (price * volume)
      end
    else OrderManager.Kept (price * volume).
Proof.
  intros Htm Hd Hv Hp Hvol. unfold OrderManager.classify.
  rewrite Htm, Hd, Hv. simpl.
  apply Qle_bool_false in Hp, Hvol. rewrite Hp, Hvol.
  destruct (Py.Qltb 1800 (current_time - order_time)); [reflexivity|].
  destruct (Py.Qltb 600 (current_time - order_time)); [|reflexivity].
  destruct (ticker pair) as [c|]; [|reflexivity].
  destruct (Py.Qltb c (price * 0.95)); [reflexivity|].
  destruct (Py.Qltb (price * 1.02) c); reflexivity.
Qed.

(** C4 (as stated) fails: a buy order ten to thirty minutes old whose price
    (105) is exactly 5% above the market price (100) is left open. *)
Lemma buy_five_percent_above_market_kept :
  100 * 1.05 <= 105 /\
  exists v, OrderManager.classify 700 (fun _ => Some 100) (Examples.open_buy 0 105 1)
            = OrderManager.Kept v.
Proof.
  split; [vm_compute; discriminate|]. eexists. vm_compute. reflexivity.
Qed.

(** C4 (amended).  For an open buy order with valid price and volume: older
    than 30 minutes, it is queued for cancellation whatever the market
    does; between 10 and 30 minutes old, with a market price at hand, it is
    queued exactly when the market price is below 95% of the order's price
    or above 102% of it (both strictly), and left open when no market price
    is at hand; up to 10 minutes old it is left open.  So an order aged
    1801 s is queued, one aged 700 s with the market 3% above its price is
    queued, and one aged 500 s stays. *)
Theorem staleness_classification (current_time : Q) (ticker : string -> option Q)
    (o : OrderManager.order_info) (order_time price volume : Q) (pair : string) :
  OrderManager.opentm o = Some (Py.Num order_time) ->
  OrderManager.oi_descr o
  = Some {| OrderManager.od_price := Some (Py.Num price);
            OrderManager.od_pair := Some pair;
            OrderManager.od_type := Some "buy"%string |} ->
  OrderManager.oi_vol o = Some (Py.Num volume) ->
  0 < price -> 0 < volume ->
  let age := current_time - order_time in
  let verdict := OrderManager.classify current_time ticker o in
  (1800 < age -> verdict = OrderManager.Marked (price * volume)) /\
  (600 < age -> age <= 1800 ->
   forall current_price, ticker pair = Some current_price ->
     (current_price < price * 0.95 \/ price * 1.02 < current_price ->
      verdict = OrderManager.Marked (price * volume)) /\
     (price * 0.95 <= current_price -> current_price <= price * 1.02 ->
      verdict = OrderManager.Kept (price * volume))) /\
  (600 < age -> age <= 1800 -> ticker pair = None ->
   verdict = OrderManager.Kept (price * volume)) /\
  (age <= 600 -> verdict = OrderManager.Kept (price * volume)) /\
  (age == 1801 -> verdict = OrderManager.Marked (price * volume)) /\
  (age == 700 -> ticker pair = Some (price * 1.03) ->
   verdict = OrderManager.Marked (price * volume)) /\
  (age == 500 -> verdict = OrderManager.Kept (price * volume)).
Proof.
  intros Htm Hd Hv Hp Hvol age verdict.
  unfold verdict.
  rewrite (classify_buy current_time ticker o order_time price volume pair Htm Hd Hv Hp Hvol).
  fold age.
  assert (Hold : forall a, 1800 < a -> Py.Qltb 1800 a = true)
    by (intros; now apply Qltb_lt).
  assert (Hyoung : forall a, a <= 1800 -> Py.Qltb 1800 a = false)
    by (intros; now apply Qltb_ge).
  assert (Hrev : forall a, 600 < a -> Py.Qltb 600 a = true)
    by (intros; now apply Qltb_lt).
  assert (Hact : forall a, a <= 600 -> Py.Qltb 600 a = false)
    by (intros; now apply Qltb_ge).
  split; [intros H; now rewrite Hold|].
  split.
  { intros H H0 c Hc. rewrite Hyoung, Hrev, Hc by assumption. split.
    - intros [Hlt | Hlt]; apply Qltb_lt in Hlt; rewrite Hlt; [reflexivity|].
      now rewrite orb_true_r.
    - intros Hlo Hhi. apply Qltb_ge in Hlo, Hhi. now rewrite Hlo, Hhi. }
  split; [intros H H0 Hn; now rewrite Hyoung, Hrev, Hn|].
  split; [intros H; rewrite Hyoung, Hact by lra; reflexivity|].
  split; [intros H; rewrite Hold by lra; reflexivity|].
  split.
  { intros H Ht. rewrite Hyoung, Hrev, Ht by lra.
    assert (Hup : Py.Qltb (price * 1.02) (price * 1.03) = true) by (apply Qltb_lt; lra).
    rewrite Hup. now rewrite orb_true_r. }
  intros H. rewrite Hyoung, Hact by lra. reflexivity.
Qed.

Lemma staleness_classification_witness :
  OrderManager.classify 1801 Examples.no_ticker (Examples.open_buy 0 2 3)
  = OrderManager.Marked (2 * 3).
Proof.
  destruct (staleness_classification 1801 Examples.no_ticker (Examples.open_buy 0 2 3)
              0 2 3 "XUSD" eq_refl eq_refl eq_refl eq_refl eq_refl) as [Hold _].
  apply Hold. reflexivity.
Defined.

(** * The balance cache *)
Section BalanceCache.
Import Bot.
Context (responses : nat -> response) (current_time : Q).

Lemma fetch_fetched (entry : cache_entry) (todo attempt : nat) :
  Cache.fetched current_time entry (fetch responses current_time entry attempt todo).1.1
                (fetch responses current_time entry attempt todo).1.2.
Proof.
  revert attempt. induction todo as [|todo IH]; intros attempt; simpl.
  - constructor.
  - specialize (IH (S attempt)).
    destruct (fetch responses current_time entry (S attempt) todo) as [[r e] tr].
    simpl in IH.
    destruct (responses attempt) as [|d| |msg]; simpl; auto.
    + case_bool_decide; simpl; auto.
      destruct (rate_limited d); simpl; auto. now constructor.
    + destruct (_ || _); simpl; auto. constructor.
Qed.

Lemma fetch_requests (entry : cache_entry) (todo attempt : nat) :
  exists tr, (fetch responses current_time entry attempt (S todo)).2 = Request :: tr.
Proof.
  simpl.
  destruct (fetch responses current_time entry (S attempt) todo) as [[r e] tr].
  destruct (responses attempt) as [|d| |msg]; simpl; eauto.
  - case_bool_decide; simpl; eauto. destruct (rate_limited d); simpl; eauto.
  - destruct (_ || _); simpl; eauto.
Qed.

(** A first answer that is a non-empty dictionary without a rate-limit
    error ends the fetch at once. *)
Lemma fetch_first_answer (entry : cache_entry) (d : gmap string dval) :
  responses 0%nat = RespDict d -> d <> ∅ -> rate_limited d = false ->
  fetch responses current_time entry 0 max_retries
  = (Some d, {| data := Some d; timestamp := current_time |}, [Request]).
Proof.
  intros Hr Hd Hrl. simpl. rewrite Hr.
  case_bool_decide; [contradiction|]. now rewrite Hrl.
Qed.

Lemma truthy_data_spec (d : option (gmap string dval)) :
  truthy_data d = true <-> exists m, d = Some m /\ m <> ∅.
Proof.
  unfold truthy_data. destruct d as [m|].
  - case_bool_decide; simpl; split; try discriminate; eauto.
    + intros (m' & Heq & Hne). congruence.
  - split; [discriminate | intros (m & H & _); discriminate].
Qed.

(** The cache is consulted only in the first branch; every other run
    starts with a request. *)
Lemma entry_served_or_requested (cache_duration : Q) (force_refresh : bool)
    (entry : cache_entry) :
  let served := negb force_refresh && truthy_data (data entry)
                && Py.Qltb (current_time - timestamp entry) cache_duration in
  let out := get_cached_balance_entry responses cache_duration current_time
               force_refresh entry in
  (served = true /\ out = (data entry, entry, [])) \/
  (served = false /\ exists tr, out.2 = Request :: tr /\ Cache.fetched current_time entry out.1.1 out.1.2).
Proof.
  intros served out. unfold out, get_cached_balance_entry. fold served.
  destruct served; [left; auto|]. right. split; [reflexivity|].
  destruct (fetch_requests entry 2 0) as [tr Htr]. exists tr. split; [exact Htr|].
  apply fetch_fetched.
Qed.

End BalanceCache.

(** The cache only ever stores non-empty answers. *)
Lemma cache_stores_truthy (responses : nat -> Bot.response) (current_time : Q)
    (cache_duration : Q) (force_refresh : bool) (entry : Bot.cache_entry) :
  (Bot.data entry = None \/ Bot.truthy_data (Bot.data entry) = true) ->
  let e' := (Bot.get_cached_balance_entry responses cache_duration current_time
               force_refresh entry).1.2 in
  Bot.data e' = None \/ Bot.truthy_data (Bot.data e') = true.
Proof.
  intros Hwf e'. unfold e'.
  destruct (entry_served_or_requested responses current_time cache_duration
              force_refresh entry) as [[_ ->] | [_ (tr & _ & Hf)]]; simpl; [exact Hwf|].
  destruct (Bot.get_cached_balance_entry responses cache_duration current_time
              force_refresh entry) as [[r e] tr'].
  simpl in Hf |- *.
  destruct Hf as [|d Hd]; [exact Hwf|].
  right. apply truthy_data_spec. eauto.
Qed.

(** C7.  With the cache duration of 60 s: a call that is not forced, on an
    entry that holds a (non-empty) cached mapping younger than the
    duration, returns that mapping, leaves the cache as it is and issues no
    request (so at age 30 s); on an entry at or past the duration (so at
    age 70 s) the call starts with a request, and whenever it returns a
    mapping, that mapping and the time of the call are what the cache
    holds afterwards; in particular a first answer that is a non-empty
    dictionary without a rate-limit error is returned and stored after one
    request. *)
Theorem balance_cache_ttl (responses : nat -> Bot.response) (current_time : Q)
    (exchange_name : string) (balance_cache : gmap string Bot.cache_entry)
    (entry : Bot.cache_entry) :
  balance_cache !! exchange_name = Some entry ->
  let age := current_time - Bot.timestamp entry in
  let run := Bot.get_cached_balance responses current_time exchange_name in
  Config.BALANCE_CACHE_DURATION == 60 /\
  (forall m, Bot.data entry = Some m -> m <> ∅ ->
             age < Config.BALANCE_CACHE_DURATION ->
             run false balance_cache = Some (Some m, balance_cache, [])) /\
  (forall m, Bot.data entry = Some m -> m <> ∅ -> age == 30 ->
             run false balance_cache = Some (Some m, balance_cache, [])) /\
  (forall force_refresh,
      Config.BALANCE_CACHE_DURATION <= age ->
      exists r cache' tr,
        run force_refresh balance_cache = Some (r, cache', Bot.Request :: tr) /\
        (forall d, r = Some d ->
                   cache' = <[exchange_name := {| Bot.data := Some d;
                                                  Bot.timestamp := current_time |}]>
                              balance_cache) /\
        (r = None -> cache' = balance_cache)) /\
  (forall force_refresh d,
      age == 70 -> responses 0%nat = Bot.RespDict d -> d <> ∅ ->
      Bot.rate_limited d = false ->
      run force_refresh balance_cache
      = Some (Some d,
              <[exchange_name := {| Bot.data := Some d; Bot.timestamp := current_time |}]>
                balance_cache,
              [Bot.Request])).
Proof.
  intros Hentry age run.
  assert (Hhit : forall m, Bot.data entry = Some m -> m <> ∅ ->
                           age < Config.BALANCE_CACHE_DURATION ->
                           run false balance_cache = Some (Some m, balance_cache, [])).
  { intros m Hm Hne Hage. unfold run, Bot.get_cached_balance. rewrite Hentry.
    unfold Bot.get_cached_balance_entry.
    assert (Ht : Bot.truthy_data (Bot.data entry) = true)
      by (apply truthy_data_spec; eauto).
    apply Qltb_lt in Hage. fold age. rewrite Ht, Hage. simpl.
    rewrite Hm. now rewrite insert_id. }
  assert (Hmiss : forall force_refresh,
             Config.BALANCE_CACHE_DURATION <= age ->
             negb force_refresh && Bot.truthy_data (Bot.data entry)
             && Py.Qltb (current_time - Bot.timestamp entry) Config.BALANCE_CACHE_DURATION
             = false).
  { intros force_refresh Hage. apply Qltb_ge in Hage. fold age. rewrite Hage.
    apply andb_false_r. }
  split; [reflexivity|]. split; [exact Hhit|].
  split; [intros m Hm Hne Hage; apply Hhit; auto; rewrite Hage; reflexivity|].
  split.
  - intros force_refresh Hage. unfold run, Bot.get_cached_balance. rewrite Hentry.
    destruct (entry_served_or_requested responses current_time
                Config.BALANCE_CACHE_DURATION force_refresh entry)
      as [[Hs _] | [_ (tr & Htr & Hf)]];
      [rewrite Hmiss in Hs by assumption; discriminate|].
    destruct (Bot.get_cached_balance_entry responses Config.BALANCE_CACHE_DURATION
                current_time force_refresh entry) as [[r e] tr'].
    simpl in Htr, Hf. subst tr'. exists r, (<[exchange_name := e]> balance_cache), tr.
    split; [reflexivity|].
    inversion Hf as [Hr He | d Hd Hr He]; subst.
    + split; [discriminate | intros _; now apply insert_id].
    + split; [intros d' Hd'; now inversion Hd' | discriminate].
  - intros force_refresh d Hage Hr Hd Hrl. unfold run, Bot.get_cached_balance.
    rewrite Hentry. unfold Bot.get_cached_balance_entry.
    rewrite Hmiss by (rewrite Hage; vm_compute; discriminate).
    now rewrite (fetch_first_answer responses current_time entry d Hr Hd Hrl).
Qed.

Lemma balance_cache_ttl_witness :
  Bot.get_cached_balance (fun _ => Bot.RespNone) 1030 "kraken" false
    (<["kraken"%string := {| Bot.data := Some Examples.some_balance;
                             Bot.timestamp := 1000 |}]> Bot.initial_cache)
  = Some (Some Examples.some_balance,
          <["kraken"%string := {| Bot.data := Some Examples.some_balance;
                                  Bot.timestamp := 1000 |}]> Bot.initial_cache,
          []).
Proof.
  destruct (balance_cache_ttl (fun _ => Bot.RespNone) 1030 "kraken"
              (<["kraken"%string := {| Bot.data := Some Examples.some_balance;
                                       Bot.timestamp := 1000 |}]> Bot.initial_cache)
              {| Bot.data := Some Examples.some_balance; Bot.timestamp := 1000 |})
    as (_ & _ & Hthirty & _).
  - apply lookup_insert_eq.
  - apply (Hthirty Examples.some_balance); [reflexivity | | reflexivity].
    apply insert_non_empty.
Defined.

(** C10.  An entry whose data is [None] or an empty mapping is a miss:
    whatever the age and also without a forced refresh, the call starts
    with a request.  And a call that returns without any request returned
    the cached data, which was a non-empty mapping. *)
Theorem empty_cache_entry_is_a_miss (responses : nat -> Bot.response)
    (current_time : Q) (exchange_name : string) (force_refresh : bool)
    (balance_cache : gmap string Bot.cache_entry) (entry : Bot.cache_entry) :
  balance_cache !! exchange_name = Some entry ->
  let out := Bot.get_cached_balance responses current_time exchange_name force_refresh
               balance_cache in
  (Bot.data entry = None \/ Bot.data entry = Some ∅ ->
   exists r cache' tr, out = Some (r, cache', Bot.Request :: tr)) /\
  (forall r cache', out = Some (r, cache', []) ->
     exists m, Bot.data entry = Some m /\ m <> ∅ /\ r = Some m /\ force_refresh = false).
Proof.
  intros Hentry out. unfold out, Bot.get_cached_balance. rewrite Hentry.
  destruct (entry_served_or_requested responses current_time
              Config.BALANCE_CACHE_DURATION force_refresh entry)
    as [[Hs Hout] | [Hs (tr & Htr & _)]].
  - apply andb_true_iff in Hs as [Hs _]. apply andb_true_iff in Hs as [Hforce Ht].
    apply truthy_data_spec in Ht as (m & Hm & Hne). split.
    + intros [Hd | Hd]; rewrite Hd in Hm; [discriminate|]. inversion Hm; subst.
      contradiction.
    + rewrite Hout. intros r cache' H. inversion H; subst.
      exists m. repeat split; auto. now destruct force_refresh.
  - destruct (Bot.get_cached_balance_entry responses Config.BALANCE_CACHE_DURATION
                current_time force_refresh entry) as [[r e] tr'].
    simpl in Htr. subst tr'. split.
    + intros _. eauto.
    + intros r' cache' H. inversion H.
Qed.

Lemma empty_cache_entry_is_a_miss_witness :
  exists r cache' tr,
    Bot.get_cached_balance (fun _ => Bot.RespNone) 30 "kraken" false Bot.initial_cache
    = Some (r, cache', Bot.Request :: tr).
Proof.
  destruct (empty_cache_entry_is_a_miss (fun _ => Bot.RespNone) 30 "kraken" false
              Bot.initial_cache {| Bot.data := None; Bot.timestamp := 0 |})
    as [Hmiss _].
  - apply lookup_insert_eq.
  - apply Hmiss. now left.
Defined.

(** * Pair formats *)
Section PairFormats.
Import Exchanges.

Lemma remove_underscores_clean (s : string) :
  has_underscore s = false -> remove_underscores s = s.
Proof.
  induction s as [|c s IH]; simpl; [reflexivity|].
  destruct (Ascii.eqb c "_"); simpl; [discriminate|].
  intros H. now rewrite IH.
Qed.

Lemma has_underscore_remove (s : string) :
  has_underscore (remove_underscores s) = false.
Proof.
  induction s as [|c s IH]; simpl; [reflexivity|].
  destruct (Ascii.eqb c "_") eqn:E; simpl; [exact IH|].
  now rewrite E, IH.
Qed.

Lemma append_nil (s : string) : (EmptyString ++ s)%string = s.
Proof. reflexivity. Qed.

Lemma append_cons (c : ascii) (a b : string) :
  (String c a ++ b)%string = String c (a ++ b).
Proof. reflexivity. Qed.

Lemma substring_all (s : string) : substring 0 (String.length s) s = s.
Proof. induction s as [|c s IH]; simpl; [reflexivity | now rewrite IH]. Qed.

Lemma has_underscore_app (a b : string) :
  has_underscore (a ++ b) = has_underscore a || has_underscore b.
Proof.
  induction a as [|c a IH]; [reflexivity|].
  rewrite append_cons. simpl. rewrite IH. now rewrite orb_assoc.
Qed.

Lemma remove_underscores_app (a b : string) :
  remove_underscores (a ++ b) = (remove_underscores a ++ remove_underscores b)%string.
Proof.
  induction a as [|c a IH]; [reflexivity|].
  rewrite append_cons. simpl.
  destruct (Ascii.eqb c "_"); [exact IH|].
  now rewrite append_cons, IH.
Qed.

Lemma substring_split (s : string) (m : nat) :
  (m <= String.length s)%nat ->
  (substring 0 m s ++ substring m (String.length s - m) s)%string = s.
Proof.
  revert m. induction s as [|c s IH]; intros m Hm; simpl in Hm.
  - destruct m; [reflexivity | lia].
  - destruct m as [|m].
    + rewrite Nat.sub_0_r, substring_all. reflexivity.
    + simpl. rewrite append_cons. f_equal. apply IH. lia.
Qed.

Lemma endswith_split (s suffix : string) :
  endswith s suffix = true ->
  (drop_last (String.length suffix) s ++ suffix)%string = s.
Proof.
  unfold endswith, drop_last. intros H.
  apply andb_true_iff in H as [Hlen Heq].
  apply Nat.leb_le in Hlen. apply String.eqb_eq in Heq.
  pose proof (substring_split s (String.length s - String.length suffix)) as Hs.
  replace (String.length s - (String.length s - String.length suffix))%nat
    with (String.length suffix) in Hs by lia.
  rewrite Heq in Hs. apply Hs. lia.
Qed.

(** Either the pair is returned as it is, or an underscore is put in front
    of its quote suffix. *)
Lemma bitmart_normalize_pair_cases (p : string) :
  bitmart_normalize_pair p = p \/
  exists a suffix, (a ++ suffix)%string = p /\
                   bitmart_normalize_pair p = (a ++ String "_" suffix)%string.
Proof.
  unfold bitmart_normalize_pair.
  destruct (negb (has_underscore p) && (4 <? String.length p)%nat); [|now left].
  destruct (endswith p "USDT") eqn:E1.
  { right. exists (drop_last 4 p), "USDT"%string. split; [|reflexivity].
    exact (endswith_split p "USDT" E1). }
  destruct (endswith p "USD") eqn:E2.
  { right. exists (drop_last 3 p), "USD"%string. split; [|reflexivity].
    exact (endswith_split p "USD" E2). }
  destruct (endswith p "BTC") eqn:E3.
  { right. exists (drop_last 3 p), "BTC"%string. split; [|reflexivity].
    exact (endswith_split p "BTC" E3). }
  destruct (endswith p "ETH") eqn:E4.
  { right. exists (drop_last 3 p), "ETH"%string. split; [|reflexivity].
    exact (endswith_split p "ETH" E4). }
  now left.
Qed.

Lemma bitmart_normalize_pair_underscore (p : string) :
  has_underscore p = true -> bitmart_normalize_pair p = p.
Proof. intros H. unfold bitmart_normalize_pair. now rewrite H. Qed.

Lemma kraken_normalize_pair_idem (p : string) :
  kraken_normalize_pair (kraken_normalize_pair p) = kraken_normalize_pair p.
Proof.
  unfold kraken_normalize_pair.
  apply remove_underscores_clean, has_underscore_remove.
Qed.

Lemma bitmart_normalize_pair_idem (p : string) :
  bitmart_normalize_pair (bitmart_normalize_pair p) = bitmart_normalize_pair p.
Proof.
  destruct (bitmart_normalize_pair_cases p) as [H | (a & suffix & _ & H)].
  - now rewrite H.
  - rewrite H. apply bitmart_normalize_pair_underscore.
    rewrite has_underscore_app. apply orb_true_r.
Qed.

Lemma kraken_of_bitmart (p : string) :
  kraken_normalize_pair (bitmart_normalize_pair p) = kraken_normalize_pair p.
Proof.
  unfold kraken_normalize_pair.
  destruct (bitmart_normalize_pair_cases p) as [H | (a & suffix & Hp & H)].
  - now rewrite H.
  - rewrite H, <- Hp, !remove_underscores_app. reflexivity.
Qed.

End PairFormats.

(** C8.  On both exchange variants the pair conversion is idempotent:
    [normalize_pair] applied twice is [normalize_pair] applied once, and so
    is [get_pair_format] after [normalize_pair]; a pair already in the
    exchange's format is a fixed point of the conversion; and a canonical
    (separator-free) pair sent to either exchange format comes back
    unchanged when the canonical form is derived again by removing the
    separator. *)
Theorem pair_format_idempotent :
  (forall (h : Exchanges.handle) (p : string),
      Exchanges.normalize_pair h (Exchanges.normalize_pair h p)
      = Exchanges.normalize_pair h p) /\
  (forall (h : Exchanges.handle) (p : string),
      Exchanges.get_pair_format h (Exchanges.normalize_pair h p)
      = Exchanges.normalize_pair h p) /\
  (forall (h : Exchanges.handle) (p q : string),
      p = Exchanges.get_pair_format h q ->
      Exchanges.get_pair_format h (Exchanges.normalize_pair h p) = p) /\
  (forall (h : Exchanges.handle) (p : string),
      Exchanges.has_underscore p = false ->
      Exchanges.normalize_pair Exchanges.KrakenHandle (Exchanges.get_pair_format h p) = p).
Proof.
  assert (Hidem : forall h p,
             Exchanges.normalize_pair h (Exchanges.normalize_pair h p)
             = Exchanges.normalize_pair h p).
  { intros [] p; simpl.
    - apply kraken_normalize_pair_idem.
    - apply bitmart_normalize_pair_idem. }
  split; [exact Hidem|]. split; [exact Hidem|]. split.
  - intros h p q ->. unfold Exchanges.get_pair_format. now rewrite !Hidem.
  - intros [] p Hp; unfold Exchanges.get_pair_format; simpl.
    + rewrite kraken_normalize_pair_idem.
      now apply remove_underscores_clean.
    + rewrite kraken_of_bitmart. now apply remove_underscores_clean.
Qed.

Lemma pair_format_idempotent_witness :
  Exchanges.normalize_pair Exchanges.KrakenHandle
    (Exchanges.get_pair_format Exchanges.BitMartHandle "BTCUSDT")
  = "BTCUSDT"%string.
Proof.
  destruct pair_format_idempotent as (_ & _ & _ & Hback).
  apply Hback. reflexivity.
Defined.

(** * Rounding *)

Lemma inject_Z_succ (z : Z) : inject_Z (z + 1) == inject_Z z + 1.
Proof. rewrite inject_Z_plus. reflexivity. Qed.

Lemma round_half_even_near (x : Q) :
  x - (1 # 2) <= inject_Z (Py.round_half_even x) /\
  inject_Z (Py.round_half_even x) <= x + (1 # 2).
Proof.
  unfold Py.round_half_even.
  pose proof (Qfloor_le x) as Hlo. pose proof (Qlt_floor x) as Hhi.
  rewrite inject_Z_succ in Hhi.
  destruct (Qcompare_spec (x - inject_Z (Qfloor x)) (1 # 2)) as [He | Hl | Hg].
  - destruct (Z.even (Qfloor x)); rewrite ?inject_Z_succ; split; lra.
  - split; lra.
  - rewrite inject_Z_succ. split; lra.
Qed.

Lemma round_half_even_mono (x y : Q) :
  x <= y -> (Py.round_half_even x <= Py.round_half_even y)%Z.
Proof.
  intros Hxy.
  pose proof (Qfloor_resp_le x y Hxy) as Hf.
  destruct (Z.eq_dec (Qfloor x) (Qfloor y)) as [Heq | Hne].
  - unfold Py.round_half_even. rewrite <- Heq.
    destruct (Qcompare_spec (x - inject_Z (Qfloor x)) (1 # 2)) as [He | Hl | Hg];
      destruct (Qcompare_spec (y - inject_Z (Qfloor x)) (1 # 2)) as [He' | Hl' | Hg'];
      try destruct (Z.even (Qfloor x)); try lia; exfalso; lra.
  - assert (Hlt : (Qfloor x + 1 <= Qfloor y)%Z) by lia.
    assert (Hx : (Py.round_half_even x <= Qfloor x + 1)%Z).
    { unfold Py.round_half_even.
      destruct (Qcompare _ _); try destruct (Z.even _); lia. }
    assert (Hy : (Qfloor y <= Py.round_half_even y)%Z).
    { unfold Py.round_half_even.
      destruct (Qcompare _ _); try destruct (Z.even _); lia. }
    lia.
Qed.

Lemma pow10_pos (n : Z) : 0 < Py.pow10 n.
Proof. unfold Py.pow10. apply Qpower_0_lt. reflexivity. Qed.

Lemma Qdiv_le_compat (a b p : Q) : 0 < p -> a <= b -> a / p <= b / p.
Proof.
  intros Hp Hab. unfold Qdiv. apply Qmult_le_compat_r; [exact Hab|].
  apply Qlt_le_weak, Qinv_lt_0_compat, Hp.
Qed.

(** [round(x, n)] is monotone in [x]. *)
Lemma round_mono (x y : Q) (n : Z) : x <= y -> Py.round x n <= Py.round y n.
Proof.
  intros Hxy. unfold Py.round. pose proof (pow10_pos n) as Hp.
  apply Qdiv_le_compat; [exact Hp|].
  rewrite <- Zle_Qle. apply round_half_even_mono.
  apply Qmult_le_compat_r; [exact Hxy | lra].
Qed.

(** [round(x, n)] is within half a unit of the [n]-th decimal of [x]. *)
Lemma round_near (x : Q) (n : Z) :
  x - (1 # 2) / Py.pow10 n <= Py.round x n /\
  Py.round x n <= x + (1 # 2) / Py.pow10 n.
Proof.
  unfold Py.round. pose proof (pow10_pos n) as Hp.
  destruct (round_half_even_near (x * Py.pow10 n)) as [Hlo Hhi].
  apply (Qdiv_le_compat _ _ _ Hp) in Hlo, Hhi.
  assert (E1 : (x * Py.pow10 n - (1 # 2)) / Py.pow10 n == x - (1 # 2) / Py.pow10 n)
    by (field; lra).
  assert (E2 : (x * Py.pow10 n + (1 # 2)) / Py.pow10 n == x + (1 # 2) / Py.pow10 n)
    by (field; lra).
  rewrite E1 in Hlo. rewrite E2 in Hhi. split; assumption.
Qed.

Lemma round_nonneg (x : Q) (n : Z) : 0 <= x -> 0 <= Py.round x n.
Proof.
  intros Hx. unfold Py.round. pose proof (pow10_pos n) as Hp.
  assert (H0 : 0 <= x * Py.pow10 n) by (apply Qmult_le_0_compat; lra).
  pose proof (round_half_even_mono 0 (x * Py.pow10 n) H0) as Hm.
  change (Py.round_half_even 0) with 0%Z in Hm.
  rewrite Zle_Qle in Hm.
  apply (Qdiv_le_compat _ _ _ Hp) in Hm.
  assert (E : inject_Z 0 / Py.pow10 n == 0) by (field; lra).
  rewrite E in Hm. exact Hm.
Qed.

(** * Sizing and pricing of buys *)

Lemma risk_multiplier_range (price : Q) :
  0.4 <= Helpers.get_risk_multiplier price /\ Helpers.get_risk_multiplier price <= 1.
Proof.
  unfold Helpers.get_risk_multiplier.
  destruct (Helpers.get_price_range_category price); split; vm_compute; discriminate.
Qed.

Lemma max_total_trade_amount_cap (account_balance current_price : Q) :
  0 <= account_balance ->
  Strategy.max_total_trade_amount account_balance current_price
  <= account_balance * 0.10.
Proof.
  intros Hb. unfold Strategy.max_total_trade_amount.
  destruct (risk_multiplier_range current_price) as [Hlo Hhi].
  change Config.MAX_ACCOUNT_USAGE_PERCENT with 0.10. nra.
Qed.

Lemma decide_buy_placed (margin : Config.margin_settings) (pair : string)
    (current_price fees account_balance ordermin : Q) (pair_decimals : Z)
    (ex : Strategy.exchange) (values : gmap string Q)
    (exchange_pair : string) (volume price : Q) (leverage : option Q) :
  Strategy.decide_buy margin pair current_price fees account_balance ordermin
    pair_decimals ex values
  = Strategy.PlaceBuy exchange_pair volume price leverage ->
  0 < volume /\ ordermin <= volume /\
  price = Strategy.buy_price_for pair current_price pair_decimals ex /\
  default 0 (values !! Strategy.name ex) + price * volume
  <= Strategy.max_total_trade_amount account_balance current_price /\
  0 < Strategy.remaining_budget account_balance current_price ex values.
Proof.
  unfold Strategy.decide_buy.
  destruct (Qeq_bool account_balance 0); [discriminate|].
  destruct (Qle_bool (Strategy.remaining_budget _ _ _ _) 0) eqn:Hrem; [discriminate|].
  destruct (Qeq_bool (current_price * (1 + fees)) 0); [discriminate|].
  destruct (Qle_bool (Py.max _ ordermin) 0) eqn:Hpos; [discriminate|].
  destruct (Py.Qltb (Py.max _ ordermin) ordermin) eqn:Hmin; [discriminate|].
  destruct (Py.Qltb (Strategy.max_total_trade_amount _ _) _) eqn:Hlim; [discriminate|].
  intros H. inversion H; subst.
  apply Qle_bool_false in Hrem, Hpos. apply Qltb_ge in Hmin, Hlim.
  repeat split; assumption.
Qed.

(** X1.  A buy order that [simple_trading_strategy] sends has a positive
    volume of at least [ordermin], and when the exchange accepts it the
    ledger entry afterwards, the old entry plus price times volume, stays
    within the maximum trade amount, which for a non-negative balance is at
    most 10% of the balance. *)
Theorem accepted_buy_within_limit (margin : Config.margin_settings) (pair : string)
    (current_price fees account_balance ordermin : Q) (pair_decimals : Z)
    (ex : Strategy.exchange) (values values' : gmap string Q)
    (exchange_pair : string) (volume price : Q) (leverage : option Q) :
  Strategy.simple_trading_strategy margin pair current_price fees account_balance
    ordermin pair_decimals ex values
  = (Strategy.PlaceBuy exchange_pair volume price leverage, values') ->
  0 < volume /\ ordermin <= volume /\
  (Strategy.place_buy_order ex exchange_pair volume price leverage = true ->
   exists v, values' !! Strategy.name ex = Some v /\
             v == default 0 (values !! Strategy.name ex) + price * volume /\
             v <= Strategy.max_total_trade_amount account_balance current_price /\
             (0 <= account_balance -> v <= account_balance * 0.10)) /\
  (Strategy.place_buy_order ex exchange_pair volume price leverage = false ->
   values' = values).
Proof.
  unfold Strategy.simple_trading_strategy.
  destruct (Strategy.decide_buy margin pair current_price fees account_balance ordermin
              pair_decimals ex values) as [| | | | |ep vol bp lev] eqn:E;
    try (intros H; inversion H; fail).
  destruct (decide_buy_placed _ _ _ _ _ _ _ _ _ _ _ _ _ E) as (Hv & Hm & _ & Hl & _).
  destruct (Strategy.place_buy_order ex ep vol bp lev) eqn:Hp;
    intros H; inversion H; subst; rewrite Hp.
  - split; [exact Hv|]. split; [exact Hm|]. split; [|discriminate].
    intros _. eexists. split; [apply lookup_insert_eq|].
    split; [reflexivity|]. split; [exact Hl|].
    intros Hb. pose proof (max_total_trade_amount_cap account_balance current_price Hb). lra.
  - split; [exact Hv|]. split; [exact Hm|]. split; [discriminate | reflexivity].
Qed.

Lemma accepted_buy_within_limit_witness :
  (0 < 50)%Q /\ (50 <= 50)%Q.
Proof.
  destruct (accepted_buy_within_limit Config.default_margin "XUSD" 0.01 0.0026 100 50 5
              Examples.kraken_bare Examples.initial_values
              (snd (Strategy.simple_trading_strategy Config.default_margin "XUSD" 0.01
                      0.0026 100 50 5 Examples.kraken_bare Examples.initial_values))
              "XUSD" 50
              (Strategy.buy_price_for "XUSD" 0.01 5 Examples.kraken_bare) None)
    as (H1 & H2 & _).
  - vm_compute. reflexivity.
  - split; assumption.
Defined.

(** X2.  With a non-zero balance, when the ledger entry of the exchange has
    already reached the maximum trade amount, the strategy refuses: no
    order is sent and the ledger is left as it is.  With a zero balance the
    percentage computation divides by zero. *)
Theorem no_budget_no_order (margin : Config.margin_settings) (pair : string)
    (current_price fees account_balance ordermin : Q) (pair_decimals : Z)
    (ex : Strategy.exchange) (values : gmap string Q) :
  (~ account_balance == 0 ->
   Strategy.max_total_trade_amount account_balance current_price
   <= default 0 (values !! Strategy.name ex) ->
   Strategy.simple_trading_strategy margin pair current_price fees account_balance
     ordermin pair_decimals ex values = (Strategy.RefusedNoBudget, values)) /\
  (account_balance == 0 ->
   Strategy.simple_trading_strategy margin pair current_price fees account_balance
     ordermin pair_decimals ex values = (Strategy.DivisionByZero, values)).
Proof.
  unfold Strategy.simple_trading_strategy, Strategy.decide_buy. split.
  - intros Hb Hfull.
    assert (E : Qeq_bool account_balance 0 = false)
      by (destruct (Qeq_bool account_balance 0) eqn:E; [apply Qeq_bool_iff in E|]; tauto).
    rewrite E.
    assert (Hrem : Qle_bool (Strategy.remaining_budget account_balance current_price
                               ex values) 0 = true)
      by (apply Qle_bool_iff; unfold Strategy.remaining_budget; lra).
    now rewrite Hrem.
  - intros Hb. apply Qeq_bool_iff in Hb. now rewrite Hb.
Qed.

Lemma no_budget_no_order_witness :
  Strategy.simple_trading_strategy Config.default_margin "XUSD" 0.01 0.0026 100 50 5
    Examples.kraken_bare (<["kraken"%string := 10]> Examples.initial_values)
  = (Strategy.RefusedNoBudget, <["kraken"%string := 10]> Examples.initial_values).
Proof.
  apply (no_budget_no_order Config.default_margin "XUSD" 0.01 0.0026 100 50 5
           Examples.kraken_bare (<["kraken"%string := 10]> Examples.initial_values)).
  - vm_compute. discriminate.
  - vm_compute. discriminate.
Defined.

(** X3.  The buy price is clamped: up to half a unit of the last price
    decimal (the rounding), it is never more than 1% above the current
    price, and with bids in the order book never more than 0.01% above the
    best bid; for a non-negative current price and non-negative bids it is
    not negative. *)
Theorem buy_price_is_clamped (current_price : Q) (decimals : Z)
    (book : Strategy.order_book) :
  let price := Strategy.calculate_dynamic_buy_price current_price decimals book in
  let half_tick := (1 # 2) / Py.pow10 decimals in
  price <= current_price * 1.01 + half_tick /\
  (forall best_bid rest, book = Strategy.Bids (best_bid :: rest) ->
                         price <= best_bid * 1.0001 + half_tick) /\
  (0 <= current_price ->
   (forall best_bid rest, book = Strategy.Bids (best_bid :: rest) -> 0 <= best_bid) ->
   0 <= price).
Proof.
  intros price half_tick. unfold price, Strategy.calculate_dynamic_buy_price.
  set (raw := match book with
              | Strategy.NoBook => _ | Strategy.NoBookData => _
              | Strategy.Bids [] => _ | Strategy.Bids (b :: _) => _ end).
  destruct (round_near (Py.min raw (current_price * 1.01)) decimals) as [_ Hhi].
  fold half_tick in Hhi.
  assert (Hmin1 : Py.min raw (current_price * 1.01) <= current_price * 1.01).
  { unfold Py.min. destruct (Py.Qltb (current_price * 1.01) raw) eqn:E; [lra|].
    now apply Qltb_ge in E. }
  assert (Hmin2 : Py.min raw (current_price * 1.01) <= raw).
  { unfold Py.min. destruct (Py.Qltb (current_price * 1.01) raw) eqn:E; [|lra].
    apply Qltb_lt in E. lra. }
  split; [lra|]. split.
  - intros best_bid rest Hb. subst book. subst raw. cbv iota in *. lra.
  - intros Hc Hbids. apply round_nonneg.
    assert (Hraw : 0 <= raw).
    { unfold raw. destruct book as [| |[|b rest]]; cbv iota; try lra.
      specialize (Hbids b rest eq_refl). lra. }
    unfold Py.min. destruct (Py.Qltb (current_price * 1.01) raw); lra.
Qed.

Lemma buy_price_is_clamped_witness :
  Strategy.calculate_dynamic_buy_price 0.02 5 (Strategy.Bids [0.0199])
  <= 0.0199 * 1.0001 + (1 # 2) / Py.pow10 5 /\
  0 <= Strategy.calculate_dynamic_buy_price 0.02 5 (Strategy.Bids [0.0199]).
Proof.
  destruct (buy_price_is_clamped 0.02 5 (Strategy.Bids [0.0199])) as (_ & H2 & H3).
  split.
  - exact (H2 0.0199 [] eq_refl).
  - apply H3; [vm_compute; discriminate|].
    intros b rest H. injection H as <- _. vm_compute; discriminate.
Defined.

(** * Pricing and sizing of sells *)

(** X4.  For a non-negative buy price and fee rate, the minimum sell price
    is at least the buy price rounded to the same precision, and at least
    the marked-up price less half a unit of the last decimal. *)
Theorem min_sell_price_covers_buy (buy_price actual_fee_rate : Q) (price_decimals : Z) :
  0 <= buy_price -> 0 <= actual_fee_rate ->
  Py.round buy_price price_decimals
  <= OrderManager.min_sell_price buy_price actual_fee_rate price_decimals /\
  buy_price * (1 + actual_fee_rate * 2 + Helpers.get_profit_margin buy_price)
  - (1 # 2) / Py.pow10 price_decimals
  <= OrderManager.min_sell_price buy_price actual_fee_rate price_decimals.
Proof.
  intros Hp Hf. unfold OrderManager.min_sell_price.
  assert (Hm : 0 < Helpers.get_profit_margin buy_price).
  { unfold Helpers.get_profit_margin.
    destruct (Helpers.get_price_range_category buy_price); reflexivity. }
  split.
  - apply round_mono. nra.
  - apply round_near.
Qed.

Lemma min_sell_price_covers_buy_witness :
  Py.round 0.01 5 <= OrderManager.min_sell_price 0.01 0.0026 5.
Proof.
  apply (min_sell_price_covers_buy 0.01 0.0026 5); vm_compute; discriminate.
Defined.

Lemma adjust_volume_bounds (volume available v : Q) :
  0 <= volume ->
  OrderManager.adjust_volume volume available = Some v ->
  v <= volume /\ v <= available * 0.99 /\ volume * 0.1 <= v.
Proof.
  intros Hvol. unfold OrderManager.adjust_volume, Py.min.
  destruct (Py.Qltb (available * 0.99) volume) eqn:E.
  - rewrite E. destruct (Py.Qltb (available * 0.99) (volume * 0.1)) eqn:E';
      [discriminate|].
    intros H. inversion H; subst. apply Qltb_lt in E. apply Qltb_ge in E'.
    repeat split; lra.
  - assert (Hself : Py.Qltb volume volume = false) by (apply Qltb_ge; lra).
    rewrite Hself. intros H. inversion H; subst. apply Qltb_ge in E.
    repeat split; lra.
Qed.

Lemma check_balance_ok (balance : nat -> OrderManager.balance_answer) (volume v : Q)
    (attempt todo : nat) :
  OrderManager.check_balance balance volume attempt todo = OrderManager.CheckOk v ->
  exists k available,
    (attempt <= k < attempt + todo)%nat /\
    balance k = OrderManager.Available available /\ 0 < available /\
    OrderManager.adjust_volume volume available = Some v.
Proof.
  revert attempt. induction todo as [|todo IH]; intros attempt; simpl; [discriminate|].
  destruct (balance attempt) as [|a] eqn:Hb; [discriminate|].
  destruct (Qle_bool a 0) eqn:Ha.
  - intros H. destruct (IH _ H) as (k & a' & Hk & H1 & H2 & H3).
    exists k, a'. repeat split; auto; lia.
  - destruct (OrderManager.adjust_volume volume a) as [v'|] eqn:Hadj.
    + intros H. inversion H; subst. exists attempt, a.
      apply Qle_bool_false in Ha. repeat split; auto; lia.
    + intros H. destruct (IH _ H) as (k & a' & Hk & H1 & H2 & H3).
      exists k, a'. repeat split; auto; lia.
Qed.

(** X5.  A sell that [check_and_place_sell_orders] sends for a filled buy
    of non-negative volume never exceeds the bought volume nor 99% of a
    positive balance seen at one of the (at most three) balance checks, is
    at least a tenth of the bought volume, and is sent only when no sell
    order is open for the pair. *)
Theorem sell_volume_within_balance (margin : Config.margin_settings)
    (env : OrderManager.sell_env) (b : OrderManager.buy_order)
    (exchange_pair : string) (volume price : Q) (leverage : option Q) :
  0 <= OrderManager.bo_volume b ->
  OrderManager.sell_for margin env b
  = OrderManager.Step (OrderManager.PlaceSell exchange_pair volume price leverage) ->
  OrderManager.se_has_open_sell env (OrderManager.bo_pair b) = false /\
  volume <= OrderManager.bo_volume b /\
  OrderManager.bo_volume b * 0.1 <= volume /\
  exists k available,
    (k < 3)%nat /\
    OrderManager.se_balance env (OrderManager.bo_txid b) k
    = OrderManager.Available available /\
    0 < available /\ volume <= available * 0.99.
Proof.
  intros Hvol. unfold OrderManager.sell_for.
  destruct (OrderManager.se_has_open_sell env (OrderManager.bo_pair b)); [discriminate|].
  destruct (OrderManager.check_balance _ _ 0 OrderManager.max_balance_checks)
    as [| |v] eqn:Hc; try discriminate.
  destruct (check_balance_ok _ _ _ _ _ Hc) as (k & a & Hk & Hb & Ha & Hadj).
  destruct (adjust_volume_bounds _ _ _ Hvol Hadj) as (H1 & H2 & H3).
  unfold OrderManager.place_sell. simpl.
  destruct (match match OrderManager.se_get_tradable_pairs env with
                  | Some pairs => _ | None => None end with
            | Some i => _ | None => _ end) as [decimals order_min].
  destruct (Py.Qltb v order_min); [discriminate|].
  intros H. inversion H; subst.
  split; [reflexivity|]. split; [exact H1|]. split; [exact H3|].
  exists k, a. unfold OrderManager.max_balance_checks in Hk.
  repeat split; auto; lia.
Qed.

Lemma sell_volume_within_balance_witness :
  exists volume price,
    OrderManager.sell_for Config.default_margin Examples.kraken_settled Examples.micro_buy
    = OrderManager.Step (OrderManager.PlaceSell "PEPEUSD" volume price None) /\
    volume <= OrderManager.bo_volume Examples.micro_buy.
Proof.
  eexists. eexists. split; [vm_compute; reflexivity|].
  eapply (sell_volume_within_balance Config.default_margin Examples.kraken_settled
            Examples.micro_buy "PEPEUSD" _ _ None).
  - vm_compute. discriminate.
  - vm_compute. reflexivity.
Defined.

(** * The matcher on the collected buys *)
Section Matcher.
Import Profit Matching.

Lemma total_insert_by (f : filled_buy -> Q) (x : filled_buy) (l : list filled_buy) :
  total f (Py.insert_by fb_txid x l) == f x + total f l.
Proof.
  induction l as [|y l IH]; simpl; [lra|].
  destruct (String.leb (fb_txid x) (fb_txid y)); simpl; [lra|].
  rewrite IH. lra.
Qed.

Lemma total_sort_by (f : filled_buy -> Q) (l : list filled_buy) :
  total f (Py.sort_by fb_txid l) == total f l.
Proof.
  induction l as [|x l IH]; simpl; [lra|].
  rewrite total_insert_by, IH. lra.
Qed.

Lemma Forall_insert_by (P : filled_buy -> Prop) (x : filled_buy) (l : list filled_buy) :
  P x -> Forall P l -> Forall P (Py.insert_by fb_txid x l).
Proof.
  intros Hx. induction 1 as [|y l Hy Hl IH]; simpl; [repeat constructor; auto|].
  destruct (String.leb (fb_txid x) (fb_txid y)); repeat constructor; auto.
Qed.

Lemma Forall_sort_by (P : filled_buy -> Prop) (l : list filled_buy) :
  Forall P l -> Forall P (Py.sort_by fb_txid l).
Proof.
  induction 1 as [|x l Hx Hl IH]; simpl; [constructor|].
  now apply Forall_insert_by.
Qed.

Lemma total_volume_nonneg (l : list filled_buy) :
  Forall (fun b => 0 < fb_volume b) l -> 0 <= total fb_volume l.
Proof. induction 1 as [|x l Hx Hl IH]; simpl; lra. Qed.

(** What is left of the sell after the loop. *)
Lemma match_volumes_remaining (buys : list filled_buy) (t : totals) :
  Forall (fun b => 0 < fb_volume b) buys ->
  0 <= remaining_sell_volume t ->
  let t' := match_volumes buys t in
  (remaining_sell_volume t <= total fb_volume buys -> remaining_sell_volume t' == 0) /\
  (total fb_volume buys <= remaining_sell_volume t ->
   remaining_sell_volume t' == remaining_sell_volume t - total fb_volume buys).
Proof.
  intros Hpos. revert t. induction Hpos as [|b rest Hb Hrest IH]; intros t Hr; simpl.
  - split; intros; lra.
  - pose proof (total_volume_nonneg rest Hrest) as Hn.
    destruct (Qle_bool (remaining_sell_volume t) 0) eqn:E.
    + apply Qle_bool_iff in E. split; intros; lra.
    + apply Qle_bool_false in E. unfold Py.min.
      destruct (Py.Qltb (fb_volume b) (remaining_sell_volume t)) eqn:Em.
      * apply Qltb_lt in Em.
        match goal with |- context [match_volumes rest ?t1] =>
          destruct (IH t1) as [H1 H2]; [simpl; lra|] end.
        simpl in H1, H2. split; intros H; [rewrite H1 | rewrite H2]; lra.
      * apply Qltb_ge in Em.
        match goal with |- context [match_volumes rest ?t1] =>
          destruct (IH t1) as [H1 H2]; [simpl; lra|] end.
        simpl in H1, H2. split; intros H; [rewrite H1 | rewrite H2]; lra.
Qed.

(** When the sell covers all the buys, each buy is matched whole. *)
Lemma match_volumes_all (buys : list filled_buy) (t : totals) :
  Forall (fun b => 0 < fb_volume b) buys ->
  total fb_volume buys <= remaining_sell_volume t ->
  let t' := match_volumes buys t in
  total_cost t' == total_cost t + total buy_cost buys /\
  total_buy_fees t' == total_buy_fees t + total fb_fee buys.
Proof.
  intros Hpos. revert t. induction Hpos as [|b rest Hb Hrest IH]; intros t Hsum; simpl.
  - split; lra.
  - pose proof (total_volume_nonneg rest Hrest) as Hn. simpl in Hsum.
    assert (E : Qle_bool (remaining_sell_volume t) 0 = false)
      by (apply Qle_bool_false; lra).
    rewrite E.
    assert (Ev : Py.Qltb 0 (fb_volume b) = true) by now apply Qltb_lt.
    rewrite Ev. unfold Py.min.
    destruct (Py.Qltb (fb_volume b) (remaining_sell_volume t)) eqn:Em.
    + match goal with |- context [match_volumes rest ?t1] =>
        destruct (IH t1) as [H1 H2]; [simpl; lra|] end.
      simpl in H1, H2. rewrite H1, H2. unfold buy_cost. split; [lra|].
      assert (Hone : fb_fee b * (fb_volume b / fb_volume b) == fb_fee b)
        by (field; lra).
      rewrite Hone. lra.
    + apply Qltb_ge in Em.
      assert (Heq : remaining_sell_volume t == fb_volume b) by lra.
      match goal with |- context [match_volumes rest ?t1] =>
        destruct (IH t1) as [H1 H2]; [simpl; lra|] end.
      simpl in H1, H2. rewrite H1, H2. unfold buy_cost. split.
      * rewrite Heq. lra.
      * assert (Hone : fb_fee b * (remaining_sell_volume t / fb_volume b) == fb_fee b)
          by (rewrite Heq; field; lra).
        rewrite Hone. lra.
Qed.

Lemma collected_spec (now : Q) (sell : sell_trade) (txid : string) (o : closed_order)
    (b : filled_buy) :
  filled_buy_of now sell txid o = Some b ->
  fb_txid b = txid /\
  st_pair sell = Some (fb_pair b) /\
  0 < fb_volume b /\
  co_vol_exec o = Some (Py.Num (fb_volume b)) /\
  co_status o = Some "closed"%string /\
  (exists d, co_descr o = Some d /\ cd_type d = Some "buy"%string
             /\ cd_pair d = Some (fb_pair b)) /\
  (exists vol_orig, default (Py.Num 0) (co_vol o) = Py.Num vol_orig /\
                    0 < vol_orig /\ 0.95 * vol_orig <= fb_volume b) /\
  (forall tm, closetm o = Some tm -> ~ tm == 0 -> now - tm <= 1800).
Proof.
  unfold filled_buy_of.
  destruct (negb (Qeq_bool (default 0 (closetm o)) 0)
            && Py.Qltb 1800 (now - default 0 (closetm o))) eqn:Hold; [discriminate|].
  destruct (co_descr o) as [d|]; [|discriminate].
  destruct (cd_type d) as [ty|] eqn:Hty; [|discriminate].
  destruct (cd_pair d) as [pr|] eqn:Hpr; [|discriminate].
  destruct (String.eqb ty "" || String.eqb pr ""); [discriminate|].
  destruct (String.eqb ty "buy") eqn:Hbuy; [|discriminate]. simpl.
  apply String.eqb_eq in Hbuy. subst ty.
  destruct (co_status o) as [st|]; [|discriminate].
  destruct (String.eqb st "closed") eqn:Hst; [|discriminate]. simpl.
  apply String.eqb_eq in Hst. subst st.
  unfold float_field.
  destruct (co_vol_exec o) as [[vol_exec|]|]; simpl; try discriminate.
  destruct (Py.Qltb 0 vol_exec) eqn:Hpos; [|discriminate]. simpl.
  destruct (bool_decide (Some pr = st_pair sell)) eqn:Hpair; [|discriminate]. simpl.
  apply bool_decide_eq_true in Hpair. apply Qltb_lt in Hpos.
  destruct (default (Py.Num 0) (co_vol o)) as [vol_orig|]; simpl; [|discriminate].
  destruct (Py.Qltb (if Py.Qltb 0 vol_orig then vol_exec / vol_orig else 0) 0.95)
    eqn:Hratio; [discriminate|].
  destruct (co_price o) as [[p|]|]; simpl; try discriminate.
  destruct (co_cost o) as [[c|]|]; simpl; try discriminate.
  destruct (co_fee o) as [[f|]|]; simpl; try discriminate.
  intros H. inversion H; subst; simpl.
  split; [reflexivity|]. split; [now symmetry|]. split; [exact Hpos|].
  split; [reflexivity|]. split; [reflexivity|]. split; [eauto|]. split.
  - exists vol_orig. split; [reflexivity|].
    destruct (Py.Qltb 0 vol_orig) eqn:Ho.
    + apply Qltb_lt in Ho. apply Qltb_ge in Hratio. split; [exact Ho|].
      assert (Hmul : 0.95 * vol_orig <= vol_exec / vol_orig * vol_orig) by nra.
      assert (Hdiv : vol_exec / vol_orig * vol_orig == vol_exec) by (field; lra).
      lra.
    + apply Qltb_ge in Hratio. exfalso. revert Hratio. vm_compute. auto.
  - intros tm Htm Hnz. rewrite Htm in Hold. simpl in Hold.
    apply andb_false_iff in Hold as [Hz | Hage].
    + apply negb_false_iff, Qeq_bool_iff in Hz. contradiction.
    + now apply Qltb_ge in Hage.
Qed.

Lemma collected_positive (now : Q) (sell : sell_trade)
    (closed : list (string * closed_order)) :
  Forall (fun b => 0 < fb_volume b) (collect_filled_buys now sell closed).
Proof.
  apply List.Forall_forall. intros b Hin. apply list_elem_of_In in Hin.
  unfold collect_filled_buys in Hin.
  apply list_elem_of_omap in Hin as ([txid o] & _ & Hb).
  now destruct (collected_spec now sell txid o b Hb) as (_ & _ & H & _).
Qed.

End Matcher.

(** X6.  Every buy the matcher collects comes from a closed order of the
    answer under the same id, is a buy of the sell's pair with status
    'closed', has a positive executed volume of at least 95% of the ordered
    volume, and was not closed more than 30 minutes ago. *)
Theorem collected_buys_are_sound (now : Q) (sell : Profit.sell_trade)
    (closed : list (string * Profit.closed_order)) (b : Profit.filled_buy) :
  In b (Profit.collect_filled_buys now sell closed) ->
  exists o,
    In (Profit.fb_txid b, o) closed /\
    Profit.st_pair sell = Some (Profit.fb_pair b) /\
    0 < Profit.fb_volume b /\
    Profit.co_vol_exec o = Some (Py.Num (Profit.fb_volume b)) /\
    Profit.co_status o = Some "closed"%string /\
    (exists d, Profit.co_descr o = Some d /\ Profit.cd_type d = Some "buy"%string
               /\ Profit.cd_pair d = Some (Profit.fb_pair b)) /\
    (exists vol_orig, default (Py.Num 0) (Profit.co_vol o) = Py.Num vol_orig /\
                      0 < vol_orig /\ 0.95 * vol_orig <= Profit.fb_volume b) /\
    (forall tm, Profit.closetm o = Some tm -> ~ tm == 0 -> now - tm <= 1800).
Proof.
  intros Hin. apply list_elem_of_In in Hin. unfold Profit.collect_filled_buys in Hin.
  apply list_elem_of_omap in Hin as ([txid o] & Hin & Hb).
  destruct (collected_spec now sell txid o b Hb) as (Hid & H).
  exists o. split; [|exact H]. rewrite Hid. now apply list_elem_of_In.
Qed.

Lemma collected_buys_are_sound_witness :
  exists o, In ("OB7"%string, o) Examples.closed_against_time_order.
Proof.
  destruct (collected_buys_are_sound 2500 Examples.sell Examples.closed_against_time_order
              {| Profit.fb_txid := "OB7"; Profit.fb_pair := "XUSD";
                 Profit.fb_volume := 100; Profit.fb_price := 0.01;
                 Profit.fb_cost := 100 * 0.01; Profit.fb_fee := 0 |})
    as (o & Hin & _).
  - vm_compute. left. reflexivity.
  - exists o. exact Hin.
Defined.

(** X7.  [calculate_trade_profit] returns no profit exactly when the
    exchange's answer is falsy, no buy is collected, or the sell volume is
    not positive; in each of these cases nothing is logged. *)
Theorem profit_none_cases (now : Q)
    (closed_orders : option (list (string * Profit.closed_order)))
    (sell : Profit.sell_trade) :
  let out := Profit.calculate_trade_profit now closed_orders sell in
  (out.1 = None <->
   closed_orders = None \/
   (exists closed, closed_orders = Some closed /\
                   Profit.collect_filled_buys now sell closed = []) \/
   Matching.sell_volume sell <= 0) /\
  (out.1 = None -> out.2 = []).
Proof.
  unfold Profit.calculate_trade_profit, Profit.match_sell, Matching.sell_volume.
  destruct closed_orders as [closed|]; simpl.
  2: { split; [|reflexivity]. split; [now left | reflexivity]. }
  destruct (Profit.collect_filled_buys now sell closed) as [|b rest] eqn:Hc; simpl.
  { split; [|reflexivity]. split; [intros _|reflexivity]. right. left. eauto. }
  destruct (Qle_bool (default 0 (Profit.st_volume sell)) 0) eqn:E; simpl.
  - apply Qle_bool_iff in E. split; [|reflexivity]. split; [now right; right | reflexivity].
  - apply Qle_bool_false in E. split; [|discriminate]. split; [discriminate|].
    intros [H | [(c & Hs & Hnil) | H]]; [discriminate | | lra].
    inversion Hs; subst. rewrite Hc in Hnil. discriminate.
Qed.

Lemma profit_none_cases_witness :
  (Profit.calculate_trade_profit 0 None Examples.sell).2 = [].
Proof.
  destruct (profit_none_cases 0 None Examples.sell) as [H1 H2].
  apply H2, H1. left. reflexivity.
Defined.

(** X8.  With at least one collected buy and a positive sell volume, the
    part of the sell left unmatched is the sell volume less the total
    volume of the collected buys when that is positive, and a warning with
    exactly that remainder is logged; otherwise nothing is logged.  The
    order of the ids plays no part. *)
Theorem shortfall_is_logged (now : Q) (closed : list (string * Profit.closed_order))
    (sell : Profit.sell_trade) :
  let buys := Profit.collect_filled_buys now sell closed in
  let out := Profit.calculate_trade_profit now (Some closed) sell in
  buys <> [] -> 0 < Matching.sell_volume sell ->
  (Matching.sell_volume sell <= Matching.total Profit.fb_volume buys -> out.2 = []) /\
  (Matching.total Profit.fb_volume buys < Matching.sell_volume sell ->
   exists r, out.2 = [Profit.WarnUnmatched r] /\
             r == Matching.sell_volume sell - Matching.total Profit.fb_volume buys).
Proof.
  intros buys out Hne Hvol. unfold out, Profit.calculate_trade_profit, Profit.match_sell.
  fold buys. unfold Matching.sell_volume in *.
  destruct buys as [|b rest] eqn:Hb; [contradiction|]. rewrite <- Hb.
  apply Qle_bool_false in Hvol. rewrite Hvol. apply Qle_bool_false in Hvol. simpl.
  pose proof (collected_positive now sell closed) as Hpos. fold buys in Hpos.
  destruct (match_volumes_remaining (Py.sort_by Profit.fb_txid buys)
              {| Profit.remaining_sell_volume := default 0 (Profit.st_volume sell);
                 Profit.total_cost := 0; Profit.total_buy_fees := 0 |})
    as [H1 H2]; [now apply Forall_sort_by | simpl; lra|].
  simpl in H1, H2. rewrite total_sort_by in H1, H2.
  set (t := Profit.match_volumes _ _) in *. split.
  - intros H. specialize (H1 H).
    assert (E : Py.Qltb 0 (Profit.remaining_sell_volume t) = false)
      by (apply Qltb_ge; lra).
    now rewrite E.
  - intros H. assert (H' := H2 (Qlt_le_weak _ _ H)).
    assert (E : Py.Qltb 0 (Profit.remaining_sell_volume t) = true)
      by (apply Qltb_lt; lra).
    rewrite E. eauto.
Qed.

Lemma shortfall_is_logged_witness :
  exists r,
    (Profit.calculate_trade_profit 2500 (Some [("OA3"%string, Examples.buy2)])
       Examples.sell).2 = [Profit.WarnUnmatched r].
Proof.
  destruct (shortfall_is_logged 2500 [("OA3"%string, Examples.buy2)] Examples.sell)
    as [_ H].
  - vm_compute. discriminate.
  - vm_compute. reflexivity.
  - destruct H as (r & Hr & _); [vm_compute; reflexivity|]. exists r. exact Hr.
Defined.

(** X9.  When the sell volume covers the total volume of the collected
    buys, every buy is matched whole and the profit is the sell revenue
    less the cost and fee of every collected buy and the sell fee, whatever
    the order in which the ids sort. *)
Theorem profit_when_all_buys_matched (now : Q)
    (closed : list (string * Profit.closed_order)) (sell : Profit.sell_trade) :
  let buys := Profit.collect_filled_buys now sell closed in
  buys <> [] ->
  Matching.total Profit.fb_volume buys <= Matching.sell_volume sell ->
  exists p,
    (Profit.calculate_trade_profit now (Some closed) sell).1 = Some p /\
    p == Matching.sell_volume sell * Matching.sell_price sell
         - Matching.total Matching.buy_cost buys
         - Matching.total Profit.fb_fee buys
         - Matching.sell_fee sell.
Proof.
  intros buys Hne Hsum.
  pose proof (collected_positive now sell closed) as Hpos. fold buys in Hpos.
  assert (Hvol : 0 < Matching.sell_volume sell).
  { destruct buys as [|b rest]; [contradiction|].
    inversion Hpos as [|? ? Hb Hrest]; subst.
    pose proof (total_volume_nonneg rest Hrest). simpl in Hsum. lra. }
  unfold Profit.calculate_trade_profit, Profit.match_sell. fold buys.
  unfold Matching.sell_volume, Matching.sell_price, Matching.sell_fee in *.
  destruct buys as [|b rest] eqn:Hb; [contradiction|]. rewrite <- Hb in *.
  apply Qle_bool_false in Hvol. rewrite Hvol. simpl.
  destruct (match_volumes_all (Py.sort_by Profit.fb_txid buys)
              {| Profit.remaining_sell_volume := default 0 (Profit.st_volume sell);
                 Profit.total_cost := 0; Profit.total_buy_fees := 0 |})
    as [H1 H2]; [now apply Forall_sort_by | simpl; rewrite total_sort_by; lra|].
  simpl in H1, H2. rewrite total_sort_by in H1, H2.
  eexists. split; [reflexivity|]. rewrite H1, H2. lra.
Qed.

Lemma profit_when_all_buys_matched_witness :
  exists p,
    (Profit.calculate_trade_profit 2500 (Some [("OA3"%string, Examples.buy2)])
       Examples.sell).1 = Some p.
Proof.
  destruct (profit_when_all_buys_matched 2500 [("OA3"%string, Examples.buy2)]
              Examples.sell) as (p & Hp & _).
  - vm_compute. discriminate.
  - vm_compute. discriminate.
  - exists p. exact Hp.
Defined.

(** * More on the open-order manager *)
Section ManagerMore.
Import OrderManager Ledger.

Lemma classify_marked_age (current_time : Q) (ticker : string -> option Q)
    (o : order_info) (v : Q) :
  classify current_time ticker o = Marked v ->
  exists order_time descr,
    opentm o = Some (Py.Num order_time) /\ oi_descr o = Some descr /\
    600 < current_time - order_time /\
    (current_time - order_time <= 1800 ->
     od_type descr = Some "buy"%string /\
     exists current_price,
       ticker (default "UNKNOWN"%string (od_pair descr)) = Some current_price).
Proof.
  unfold classify.
  destruct (opentm o) as [tm|]; [|discriminate].
  destruct (oi_descr o) as [d|]; [|discriminate].
  destruct (Py.float (default (Py.Num 0) (od_price d))) as [price|]; [|discriminate].
  destruct (Qle_bool price 0); [discriminate|].
  destruct tm as [order_time|]; simpl; [|discriminate].
  destruct (Py.float (default (Py.Num 0) (oi_vol o))) as [volume|]; [|discriminate].
  destruct (Qle_bool volume 0); [discriminate|].
  destruct (Py.Qltb 1800 (current_time - order_time)) eqn:Eold.
  - intros _. apply Qltb_lt in Eold. exists order_time, d.
    split; [reflexivity|]. split; [reflexivity|]. split; [lra|]. intros H. lra.
  - destruct (Py.Qltb 600 (current_time - order_time)) eqn:Erev; [|discriminate].
    apply Qltb_lt in Erev.
    destruct (ticker (default "UNKNOWN"%string (od_pair d))) as [c|] eqn:Et;
      [|discriminate].
    assert (Hbuy : forall x : bool,
               String.eqb (default "unknown"%string (od_type d)) "buy" && x = true ->
               od_type d = Some "buy"%string).
    { intros x Hx. apply andb_true_iff in Hx as [Hx _]. apply String.eqb_eq in Hx.
      destruct (od_type d) as [ty|]; simpl in Hx; [now subst | discriminate]. }
    destruct (String.eqb _ "buy" && Py.Qltb c (price * 0.95)) eqn:E1.
    + intros _. exists order_time, d.
      split; [reflexivity|]. split; [reflexivity|]. split; [exact Erev|].
      intros _. split; [eapply Hbuy; exact E1 | eauto].
    + destruct (String.eqb _ "buy" && Py.Qltb (price * 1.02) c) eqn:E2; [|discriminate].
      intros _. exists order_time, d.
      split; [reflexivity|]. split; [reflexivity|]. split; [exact Erev|].
      intros _. split; [eapply Hbuy; exact E2 | eauto].
Qed.

Lemma marked_txids_in (current_time : Q) (ticker : string -> option Q)
    (orders : list (string * order_info)) (txid : string) :
  In txid (marked_txids current_time ticker orders) <->
  exists o, In (txid, o) orders /\ is_marked current_time ticker o = true.
Proof.
  unfold marked_txids. rewrite in_map_iff. split.
  - intros ([t o] & Ht & Hin). simpl in Ht. subst t.
    apply filter_In in Hin as [Hin Hm]. eauto.
  - intros (o & Hin & Hm). exists (txid, o). split; [reflexivity|].
    apply filter_In. auto.
Qed.

Lemma marked_txids_nodup (current_time : Q) (ticker : string -> option Q)
    (orders : list (string * order_info)) :
  distinct_txids orders -> NoDup (marked_txids current_time ticker orders).
Proof.
  unfold distinct_txids, marked_txids.
  induction orders as [|[txid o] rest IH]; simpl; intros Hnd; [constructor|].
  apply NoDup_cons in Hnd as [Hnotin Hnd].
  destruct (is_marked current_time ticker o); simpl; [|now apply IH].
  apply NoDup_cons. split; [|now apply IH].
  intros Hin. apply Hnotin. apply list_elem_of_In in Hin. apply list_elem_of_In.
  apply in_map_iff in Hin as ([t o'] & Ht & Hf). simpl in Ht. subst t.
  apply filter_In in Hf as [Hf _]. apply in_map_iff. now exists (txid, o').
Qed.

End ManagerMore.

(** X10.  [manage_open_orders] sends a cancel only for an order of the
    answer that is more than 10 minutes old; an order at most 30 minutes
    old is cancelled only if it is a buy and a current price was obtained.
    No order is cancelled twice, and the value returned tells whether a
    cancel was sent. *)
Theorem cancels_only_stale_orders (exchange_name : string) (current_time : Q)
    (ticker : string -> option Q) (cancel : string -> OrderManager.cancel_outcome)
    (orders : list (string * OrderManager.order_info)) (values : gmap string Q) :
  Ledger.distinct_txids orders ->
  let m := OrderManager.manage_open_orders exchange_name current_time ticker cancel
             (Some orders) values in
  NoDup (OrderManager.cancel_calls m) /\
  (OrderManager.returned m = true <-> OrderManager.cancel_calls m <> []) /\
  forall txid, In txid (OrderManager.cancel_calls m) ->
    exists o order_time descr,
      In (txid, o) orders /\
      OrderManager.opentm o = Some (Py.Num order_time) /\
      OrderManager.oi_descr o = Some descr /\
      600 < current_time - order_time /\
      (current_time - order_time <= 1800 ->
       OrderManager.od_type descr = Some "buy"%string /\
       exists current_price,
         ticker (default "UNKNOWN"%string (OrderManager.od_pair descr))
         = Some current_price).
Proof.
  intros Hnd m.
  destruct (managed_ledger current_time ticker exchange_name cancel orders values Hnd)
    as (Hcalls & _). fold m in Hcalls.
  assert (Hret : OrderManager.returned m
                 = negb (Nat.eqb (length (Ledger.marked_txids current_time ticker orders)) 0)).
  { unfold m, OrderManager.manage_open_orders.
    pose proof (scan_marked current_time ticker orders 0 []) as Hcs.
    destruct (OrderManager.scan current_time ticker orders 0 []) as [total tc].
    simpl in Hcs. subst tc.
    destruct (OrderManager.cancel_loop cancel orders _ 0 []) as [cv calls].
    reflexivity. }
  rewrite Hcalls. split; [now apply marked_txids_nodup|]. split.
  - rewrite Hret. destruct (Ledger.marked_txids current_time ticker orders); simpl.
    + split; [discriminate | intros H; now contradiction H].
    + split; [discriminate | reflexivity].
  - intros txid Hin. apply marked_txids_in in Hin as (o & Hin & Hm).
    unfold Ledger.is_marked in Hm.
    destruct (OrderManager.classify current_time ticker o) as [| |v] eqn:E;
      try discriminate.
    destruct (classify_marked_age current_time ticker o v E)
      as (order_time & d & H1 & H2 & H3 & H4).
    exists o, order_time, d.
    split; [exact Hin|]. split; [exact H1|]. split; [exact H2|]. split; [exact H3|].
    exact H4.
Qed.

Lemma cancels_only_stale_orders_witness :
  NoDup (OrderManager.cancel_calls
           (OrderManager.manage_open_orders "kraken" 2000 Examples.no_ticker
              Examples.cancel_works (Some Examples.one_order) Examples.initial_values)).
Proof.
  apply (cancels_only_stale_orders "kraken" 2000 Examples.no_ticker Examples.cancel_works
           Examples.one_order Examples.initial_values).
  unfold Ledger.distinct_txids. apply (bool_decide_unpack _). vm_compute. exact I.
Defined.

(** X11.  [manage_open_orders] changes no ledger entry but that of its own
    exchange, whatever the answer and the cancel results; on a falsy answer
    it changes nothing at all, sends no cancel and returns False. *)
Theorem manager_touches_own_entry_only (exchange_name other : string) (current_time : Q)
    (ticker : string -> option Q) (cancel : string -> OrderManager.cancel_outcome)
    (response : option (list (string * OrderManager.order_info)))
    (values : gmap string Q) :
  let m := OrderManager.manage_open_orders exchange_name current_time ticker cancel
             response values in
  (other <> exchange_name -> OrderManager.ledger m !! other = values !! other) /\
  (response = None ->
   OrderManager.ledger m = values /\ OrderManager.cancel_calls m = [] /\
   OrderManager.returned m = false).
Proof.
  intros m. unfold m, OrderManager.manage_open_orders. split.
  - intros Hne. destruct response as [orders|]; [|reflexivity].
    destruct (OrderManager.scan current_time ticker orders 0 []) as [total tc].
    destruct (OrderManager.cancel_loop cancel orders tc 0 []) as [cv calls].
    simpl. destruct (Py.Qltb 0 cv); simpl;
      rewrite ?lookup_insert_ne by congruence; reflexivity.
  - intros ->. auto.
Qed.

Lemma manager_touches_own_entry_only_witness :
  OrderManager.ledger
    (OrderManager.manage_open_orders "kraken" 2000 Examples.no_ticker
       Examples.cancel_works (Some Examples.one_order) Examples.initial_values)
    !! "bitmart"%string
  = Examples.initial_values !! "bitmart"%string.
Proof.
  apply (manager_touches_own_entry_only "kraken" "bitmart" 2000 Examples.no_ticker
           Examples.cancel_works (Some Examples.one_order) Examples.initial_values).
  discriminate.
Defined.

(** * More on the balance cache *)
Section CacheMore.
Import Bot Traces.

Lemma fetch_bounded (responses : nat -> response) (current_time : Q) (entry : cache_entry)
    (todo attempt : nat) :
  (attempt + todo = 3)%nat ->
  let tr := (fetch responses current_time entry attempt todo).2 in
  (requests tr <= todo)%nat /\
  (waited tr <= match attempt with O => 35 | S O => 30 | S (S O) => 20 | _ => 0 end)%Z.
Proof.
  revert attempt. induction todo as [|todo IH]; intros attempt Hsum; simpl.
  - split; [lia|]. destruct attempt as [|[|[|?]]]; lia.
  - specialize (IH (S attempt) ltac:(lia)).
    destruct (fetch responses current_time entry (S attempt) todo) as [[r e] tr].
    simpl in IH. destruct IH as [IH1 IH2].
    assert (Hb : (backoff attempt = match attempt with O => 5 | S O => 10 | _ => 20 end)%Z).
    { destruct attempt as [|[|[|?]]]; try reflexivity; lia. }
    assert (Hcases : forall evs,
               evs = [Sleep (backoff attempt)] \/
               evs = (if (S attempt <? max_retries)%nat then [Sleep 2] else []) ->
               (requests (Request :: evs ++ tr) <= S todo)%nat /\
               (waited (Request :: evs ++ tr)
                <= match attempt with O => 35 | S O => 30 | S (S O) => 20 | _ => 0 end)%Z).
    { intros evs [-> | ->].
      - simpl. rewrite Hb. split; [lia|].
        destruct attempt as [|[|[|?]]]; simpl in *; lia.
      - destruct (S attempt <? max_retries)%nat; simpl; (split; [lia|]);
          destruct attempt as [|[|[|?]]]; simpl in *; lia. }
    destruct (responses attempt) as [|d| |msg].
    + exact (Hcases _ (or_introl eq_refl)).
    + case_bool_decide; [exact (Hcases _ (or_intror eq_refl))|].
      destruct (rate_limited d); [exact (Hcases _ (or_introl eq_refl))|].
      simpl. split; [lia|]. destruct attempt as [|[|[|?]]]; lia.
    + exact (Hcases _ (or_intror eq_refl)).
    + destruct (_ || _); [exact (Hcases _ (or_introl eq_refl))|].
      simpl. split; [lia|]. destruct attempt as [|[|[|?]]]; lia.
Qed.

End CacheMore.

(** X12.  A call of [get_cached_balance] issues at most three requests and
    sleeps at most 35 seconds in all, and it leaves the cache entries of
    the other exchanges as they are.  An exception of the first request
    whose text does not mention a rate limit ends the call after that one
    request, without a result and without touching the cache. *)
Theorem balance_requests_are_bounded (responses : nat -> Bot.response) (current_time : Q)
    (exchange_name : string) (force_refresh : bool)
    (balance_cache balance_cache' : gmap string Bot.cache_entry)
    (r : option (gmap string Bot.dval)) (tr : list Bot.event) :
  Bot.get_cached_balance responses current_time exchange_name force_refresh balance_cache
  = Some (r, balance_cache', tr) ->
  (Traces.requests tr <= 3)%nat /\
  (Traces.waited tr <= 35)%Z /\
  (forall other, other <> exchange_name ->
                 balance_cache' !! other = balance_cache !! other) /\
  (forall message,
      tr <> [] -> responses 0%nat = Bot.RespRaise message ->
      Py.contains "rate limit" (Py.lower message) = false ->
      Py.contains "rate_limit" (Py.lower message) = false ->
      r = None /\ tr = [Bot.Request] /\ balance_cache' = balance_cache).
Proof.
  unfold Bot.get_cached_balance.
  destruct (balance_cache !! exchange_name) as [entry|] eqn:He; [|discriminate].
  unfold Bot.get_cached_balance_entry.
  destruct (negb force_refresh && Bot.truthy_data (Bot.data entry)
            && Py.Qltb (current_time - Bot.timestamp entry) Config.BALANCE_CACHE_DURATION).
  - intros H. inversion H; subst. simpl. split; [lia|]. split; [lia|]. split.
    + intros other Hne. now rewrite lookup_insert_ne.
    + intros message Hne. contradiction.
  - pose proof (fetch_bounded responses current_time entry 3 0 eq_refl) as [H1 H2].
    change Bot.max_retries with 3%nat.
    destruct (Bot.fetch responses current_time entry 0 3) as [[r0 e0] tr0] eqn:Ef.
    simpl in H1, H2. intros H. inversion H; subst.
    split; [exact H1|]. split; [exact H2|]. split.
    + intros other Hne. now rewrite lookup_insert_ne.
    + intros message _ Hr Hn1 Hn2. simpl in Ef. rewrite Hr, Hn1, Hn2 in Ef.
      simpl in Ef. inversion Ef; subst.
      split; [reflexivity|]. split; [reflexivity|]. now apply insert_id.
Qed.

Lemma balance_requests_are_bounded_witness :
  (Traces.requests
     [Bot.Request; Bot.Sleep 5; Bot.Request; Bot.Sleep 10; Bot.Request; Bot.Sleep 20]
   <= 3)%nat.
Proof.
  apply (balance_requests_are_bounded (fun _ => Bot.RespNone) 30 "kraken" false
           Bot.initial_cache Bot.initial_cache None
           [Bot.Request; Bot.Sleep 5; Bot.Request; Bot.Sleep 10; Bot.Request; Bot.Sleep 20]).
  vm_compute. reflexivity.
Defined.

(** X13.  After a call that fetched a balance at time [t], a call at a later
    time less than the cache duration after [t], not forced, returns the
    same balance without any request and leaves the cache as it is. *)
Theorem fetched_balance_is_served (responses responses' : nat -> Bot.response)
    (t t' : Q) (exchange_name : string) (force_refresh : bool)
    (balance_cache balance_cache' : gmap string Bot.cache_entry)
    (d : gmap string Bot.dval) (tr : list Bot.event) :
  Bot.get_cached_balance responses t exchange_name force_refresh balance_cache
  = Some (Some d, balance_cache', tr) ->
  tr <> [] ->
  t' - t < Config.BALANCE_CACHE_DURATION ->
  Bot.get_cached_balance responses' t' exchange_name false balance_cache'
  = Some (Some d, balance_cache', []).
Proof.
  unfold Bot.get_cached_balance.
  destruct (balance_cache !! exchange_name) as [entry|] eqn:He; [|discriminate].
  destruct (entry_served_or_requested responses t Config.BALANCE_CACHE_DURATION
              force_refresh entry) as [[_ Hout] | [_ (tr0 & Htr & Hf)]].
  - rewrite Hout. intros H Hne. inversion H; subst. contradiction.
  - destruct (Bot.get_cached_balance_entry responses Config.BALANCE_CACHE_DURATION t
                force_refresh entry) as [[r e] tr1].
    simpl in Htr, Hf. intros H _ Hage. inversion H; subst.
    inversion Hf as [|d' Hd]; subst.
    rewrite lookup_insert_eq. unfold Bot.get_cached_balance_entry.
    cbn [Bot.data Bot.timestamp].
    assert (Ht : Bot.truthy_data (Some d) = true) by (apply truthy_data_spec; eauto).
    apply Qltb_lt in Hage. rewrite Ht, Hage. simpl.
    now rewrite insert_insert_eq.
Qed.

Lemma fetched_balance_is_served_witness :
  exists cache',
    Bot.get_cached_balance (fun _ => Bot.RespNone) 1030 "kraken" false cache'
    = Some (Some Examples.some_balance, cache', []).
Proof.
  eexists.
  apply (fetched_balance_is_served (fun _ => Bot.RespDict Examples.some_balance)
           (fun _ => Bot.RespNone) 1000 1030 "kraken" false Bot.initial_cache _
           Examples.some_balance [Bot.Request]).
  - vm_compute. reflexivity.
  - discriminate.
  - vm_compute. reflexivity.
Defined.

(** * The position tracker *)
Section PositionTracker.
Import Positions.

Lemma cleaned_filter (exchange : string) (cutoff_time : Q) (l : list position) :
  Forall complete l ->
  cleaned exchange cutoff_time l
  = Some (List.filter (fun p => negb (expired exchange cutoff_time p)) l).
Proof.
  induction 1 as [|p rest (_ & _ & [st Hst]) _ IH]; [reflexivity|].
  simpl. rewrite IH. unfold expired. rewrite Hst.
  destruct (bool_decide (pos_exchange p = Some exchange)); simpl; [|reflexivity].
  destruct (String.eqb st "filled") eqn:E.
  - apply String.eqb_eq in E. subst st. rewrite bool_decide_eq_true_2 by reflexivity.
    simpl. now destruct (Py.Qltb _ _).
  - rewrite bool_decide_eq_false_2; [reflexivity|].
    intros H. inversion H; subst. now rewrite String.eqb_refl in E.
Qed.

Lemma filter_length_eq {A : Type} (f : A -> bool) (l : list A) :
  length (List.filter f l) = length l -> List.filter f l = l.
Proof.
  induction l as [|a l IH]; simpl; [reflexivity|].
  pose proof (filter_length_le f l) as Hle.
  destruct (f a); simpl; intros H; [f_equal; apply IH; lia | lia].
Qed.

Lemma filter_idem {A : Type} (f : A -> bool) (l : list A) :
  List.filter f (List.filter f l) = List.filter f l.
Proof.
  induction l as [|a l IH]; simpl; [reflexivity|].
  destruct (f a) eqn:E; simpl; rewrite ?E, IH; reflexivity.
Qed.

Lemma complete_filter (f : position -> bool) (l : list position) :
  Forall complete l -> Forall complete (List.filter f l).
Proof.
  induction 1 as [|p rest Hp _ IH]; simpl; [constructor|].
  destruct (f p); [constructor|]; assumption.
Qed.

Lemma get_open_complete (l : list position) (pair : string) :
  Forall complete l ->
  get_open_positions_for_pair l pair
  = Some (List.filter (is_open_for pair) l).
Proof.
  induction 1 as [|p rest ([pr Hpr] & _ & [st Hst]) _ IH]; [reflexivity|].
  simpl. rewrite IH, Hpr, Hst. unfold is_open_for. rewrite Hpr, Hst.
  destruct (String.eqb pr pair) eqn:E.
  - apply String.eqb_eq in E. subst pr. rewrite bool_decide_eq_true_2 by reflexivity.
    simpl. destruct (String.eqb st "open") eqn:E'.
    + apply String.eqb_eq in E'. subst st. now rewrite bool_decide_eq_true_2.
    + rewrite bool_decide_eq_false_2; [reflexivity|].
      intros H. inversion H; subst. now rewrite String.eqb_refl in E'.
  - rewrite bool_decide_eq_false_2; [reflexivity|].
    intros H. inversion H; subst. now rewrite String.eqb_refl in E.
Qed.

Lemma cleanup_result (l : list position) (exchange : string) (now : Q) (files : store) :
  Forall complete l ->
  let kept := List.filter (fun p => negb (expired exchange (now - 3600) p)) l in
  cleanup_filled_positions l exchange now files
  = Some (kept, if Nat.eqb (length kept) (length l) then files
                else save_open_positions kept exchange files).
Proof.
  intros Hc kept. unfold cleanup_filled_positions.
  rewrite (cleaned_filter exchange (now - 3600) l Hc). fold kept.
  now destruct (Nat.eqb (length kept) (length l)).
Qed.

End PositionTracker.

(** X14.  On positions that hold the keys read, [cleanup_filled_positions]
    returns the list without exactly the positions that belong to the
    exchange, are filled and were filled more than an hour ago: positions
    of other exchanges, unfilled ones and recently filled ones all stay, in
    their order.  The file of the exchange is rewritten only when a
    position was dropped. *)
Theorem cleanup_drops_only_old_filled (open_positions : list Positions.position)
    (exchange : string) (now : Q) (files : Positions.store) :
  Forall Positions.complete open_positions ->
  exists kept files',
    Positions.cleanup_filled_positions open_positions exchange now files
    = Some (kept, files') /\
    kept = List.filter (fun p => negb (Positions.expired exchange (now - 3600) p)) open_positions /\
    (forall p, In p kept <->
               In p open_positions /\
               ~ (Positions.pos_exchange p = Some exchange /\
                  Positions.pos_status p = Some "filled"%string /\
                  default 0 (Positions.pos_filled_timestamp p) < now - 3600)) /\
    (kept = open_positions -> files' = files) /\
    (kept <> open_positions ->
     files' = Positions.save_open_positions kept exchange files).
Proof.
  intros Hc. rewrite (cleanup_result open_positions exchange now files Hc).
  set (kept := List.filter _ open_positions).
  exists kept, (if Nat.eqb (length kept) (length open_positions) then files
                else Positions.save_open_positions kept exchange files).
  split; [reflexivity|]. split; [reflexivity|].
  split; [|split; intros H].
  2: { now rewrite H, Nat.eqb_refl. }
  2: { destruct (Nat.eqb (length kept) (length open_positions)) eqn:E; [|reflexivity].
       apply Nat.eqb_eq, filter_length_eq in E. contradiction. }
  intros p. unfold kept. rewrite filter_In. unfold Positions.expired.
  rewrite negb_true_iff, !andb_false_iff, !bool_decide_eq_false, Qltb_ge.
  split; intros [Hin H]; (split; [exact Hin|]).
  - intros (H1 & H2 & H3). destruct H as [[H | H] | H]; [tauto | tauto | lra].
  - destruct (decide (Positions.pos_exchange p = Some exchange)); [|tauto].
    destruct (decide (Positions.pos_status p = Some "filled"%string)); [|tauto].
    right. destruct (Qlt_le_dec (default 0 (Positions.pos_filled_timestamp p))
                       (now - 3600)); [tauto | assumption].
Qed.

Lemma cleanup_drops_only_old_filled_witness :
  exists files',
    Positions.cleanup_filled_positions PositionExamples.tracked "kraken" 6000 ∅
    = Some ([PositionExamples.elsewhere], files').
Proof.
  destruct (cleanup_drops_only_old_filled PositionExamples.tracked "kraken" 6000 ∅)
    as (kept & files' & Hrun & Hkept & _).
  - repeat constructor; simpl; eauto.
  - exists files'. rewrite Hrun, Hkept. reflexivity.
Defined.

(** X15.  Cleaning up never touches an open position: the open positions of
    any pair are the same before and after [cleanup_filled_positions]. *)
Theorem cleanup_keeps_open_positions (open_positions : list Positions.position)
    (exchange pair : string) (now : Q) (files : Positions.store) :
  Forall Positions.complete open_positions ->
  exists kept files',
    Positions.cleanup_filled_positions open_positions exchange now files
    = Some (kept, files') /\
    Positions.get_open_positions_for_pair kept pair
    = Positions.get_open_positions_for_pair open_positions pair.
Proof.
  intros Hc. rewrite (cleanup_result open_positions exchange now files Hc).
  do 2 eexists. split; [reflexivity|].
  rewrite (get_open_complete open_positions pair Hc).
  rewrite get_open_complete by now apply complete_filter.
  f_equal. clear.
  induction open_positions as [|p l IH]; simpl; [reflexivity|].
  unfold Positions.expired at 1, Positions.is_open_for at 2.
  destruct (bool_decide (Positions.pos_status p = Some "filled"%string)) eqn:Ef.
  - apply bool_decide_eq_true in Ef.
    assert (Hno : bool_decide (Positions.pos_status p = Some "open"%string) = false)
      by (apply bool_decide_eq_false; rewrite Ef; discriminate).
    rewrite Hno, andb_false_r.
    destruct (_ && _ && _); simpl; rewrite ?IH; [reflexivity|].
    unfold Positions.is_open_for at 1. now rewrite Hno, andb_false_r.
  - rewrite andb_false_r. simpl. rewrite IH. reflexivity.
Qed.

Lemma cleanup_keeps_open_positions_witness :
  exists kept files',
    Positions.cleanup_filled_positions PositionExamples.tracked "kraken" 6000 ∅
    = Some (kept, files') /\
    Positions.get_open_positions_for_pair kept "XUSD"
    = Positions.get_open_positions_for_pair PositionExamples.tracked "XUSD".
Proof.
  apply (cleanup_keeps_open_positions PositionExamples.tracked "kraken" "XUSD" 6000 ∅).
  repeat constructor; simpl; eauto.
Defined.

Section PositionUpdates.
Import Positions.

Lemma update_loop_spec (order_id new_status exchange : string) (now : Q)
    (l l' : list position) (found : bool) :
  update_loop order_id new_status exchange now l = Some (l', found) ->
  if found then
    exists before p after,
      l = (before ++ p :: after)%list /\
      l' = (before ++ set_status new_status now p :: after)%list /\
      is_order order_id exchange p = true /\
      Forall (fun q => is_order order_id exchange q = false) before
  else l' = l /\ Forall (fun q => is_order order_id exchange q = false) l.
Proof.
  revert l' found. induction l as [|p rest IH]; intros l' found; simpl.
  - intros H. inversion H; subst. split; [reflexivity | constructor].
  - destruct (pos_order_id p) as [id|] eqn:Hid; [|discriminate].
    assert (Hmatch : is_order order_id exchange p
                     = String.eqb id order_id
                       && bool_decide (pos_exchange p = Some exchange)).
    { unfold is_order. rewrite Hid. f_equal.
      destruct (String.eqb id order_id) eqn:E.
      - apply String.eqb_eq in E. subst. now apply bool_decide_eq_true_2.
      - apply bool_decide_eq_false_2. intros H. inversion H; subst.
        now rewrite String.eqb_refl in E. }
    rewrite <- Hmatch.
    destruct (is_order order_id exchange p) eqn:Hm.
    + intros H. inversion H; subst. exists [], p, rest. repeat split; auto.
    + destruct (update_loop order_id new_status exchange now rest)
        as [[rest' f]|]; [|discriminate].
      intros H. inversion H; subst. specialize (IH rest' found eq_refl).
      destruct found.
      * destruct IH as (before & q & after & -> & -> & Hq & Hb).
        exists (p :: before), q, after. repeat split; auto.
      * destruct IH as [-> Hall]. split; [reflexivity | now constructor].
Qed.

Lemma update_loop_complete (order_id new_status exchange : string) (now : Q)
    (l : list position) :
  Forall complete l ->
  exists l' found, update_loop order_id new_status exchange now l = Some (l', found).
Proof.
  induction 1 as [|p rest (_ & [id Hid] & _) _ (l' & found & IH)]; simpl; eauto.
  rewrite Hid, IH. destruct (_ && _); eauto.
Qed.

Lemma recent_read (now : Q) (l : list position) :
  read_lines now (map Entry l) = List.filter (recent now) l.
Proof.
  induction l as [|p l IH]; simpl; [reflexivity|].
  unfold recent at 1. now rewrite IH.
Qed.

End PositionUpdates.

(** X16.  [update_position_status] changes one position at most, the first
    one with the order id and the exchange: it gets the new status (and the
    time, when the status is 'filled'), every other position and the length
    of the list stay, and the list is saved.  When no position matches it
    returns False and neither the list nor the files change. *)
Theorem update_changes_first_match (open_positions : list Positions.position)
    (order_id new_status exchange : string) (now : Q) (files : Positions.store)
    (found : bool) (updated : list Positions.position) (files' : Positions.store) :
  Positions.update_position_status open_positions order_id new_status exchange now files
  = Some (found, updated, files') ->
  length updated = length open_positions /\
  (found = false ->
   updated = open_positions /\ files' = files /\
   Forall (fun q => Positions.is_order order_id exchange q = false) open_positions) /\
  (found = true ->
   exists before p after,
     open_positions = (before ++ p :: after)%list /\
     updated = (before ++ Positions.set_status new_status now p :: after)%list /\
     Positions.is_order order_id exchange p = true /\
     Forall (fun q => Positions.is_order order_id exchange q = false) before /\
     files' = Positions.save_open_positions updated exchange files).
Proof.
  unfold Positions.update_position_status.
  destruct (Positions.update_loop order_id new_status exchange now open_positions)
    as [[l' f]|] eqn:E; [|discriminate].
  pose proof (update_loop_spec _ _ _ _ _ _ _ E) as Hspec.
  destruct f; intros H; inversion H; subst.
  - destruct Hspec as (before & p & after & -> & -> & Hp & Hb).
    split; [now rewrite !length_app|]. split; [discriminate|].
    intros _. exists before, p, after. repeat split; auto.
  - destruct Hspec as [-> Hall]. split; [reflexivity|].
    split; [auto | discriminate].
Qed.

Lemma update_changes_first_match_witness :
  length [Positions.set_status "filled" 2000 PositionExamples.bought;
          PositionExamples.elsewhere]
  = length [PositionExamples.bought; PositionExamples.elsewhere].
Proof.
  apply (update_changes_first_match
           [PositionExamples.bought; PositionExamples.elsewhere]
           "OB7" "filled" "kraken" 2000 ∅ true
           [Positions.set_status "filled" 2000 PositionExamples.bought;
            PositionExamples.elsewhere]
           (Positions.save_open_positions
              [Positions.set_status "filled" 2000 PositionExamples.bought;
               PositionExamples.elsewhere] "kraken" ∅)).
  reflexivity.
Defined.

(** X17.  On positions that hold the keys read, marking an order with a
    status other than 'open' never raises, keeps the positions complete and
    opens nothing: every position that is open for a pair afterwards was
    open for it before. *)
Theorem update_never_reopens (open_positions : list Positions.position)
    (order_id new_status exchange : string) (now : Q) (files : Positions.store) :
  Forall Positions.complete open_positions ->
  new_status <> "open"%string ->
  exists found updated files',
    Positions.update_position_status open_positions order_id new_status exchange now files
    = Some (found, updated, files') /\
    Forall Positions.complete updated /\
    forall pair p,
      In p (List.filter (Positions.is_open_for pair) updated) ->
      In p (List.filter (Positions.is_open_for pair) open_positions).
Proof.
  intros Hc Hst.
  destruct (update_loop_complete order_id new_status exchange now open_positions Hc)
    as (l' & found & E).
  pose proof (update_loop_spec _ _ _ _ _ _ _ E) as Hspec.
  unfold Positions.update_position_status. rewrite E.
  assert (Hopen : forall pair p, Positions.is_open_for pair
                                   (Positions.set_status new_status now p) = false).
  { intros pair p. unfold Positions.is_open_for. simpl.
    rewrite (bool_decide_eq_false_2 (Some new_status = Some "open"%string));
      [apply andb_false_r | congruence]. }
  destruct found.
  - destruct Hspec as (before & p & after & -> & -> & Hp & Hb).
    do 3 eexists. split; [reflexivity|]. split.
    + apply Forall_app in Hc as [Hb' Ha]. inversion Ha as [|? ? Hpc Ha']; subst.
      apply Forall_app. split; [exact Hb'|]. constructor; [|exact Ha'].
      destruct Hpc as (H1 & H2 & H3). repeat split; simpl; eauto.
    + intros pair q. rewrite !List.filter_app. simpl. rewrite Hopen.
      rewrite !in_app_iff. intros [H | H]; [now left | right].
      destruct (Positions.is_open_for pair p); [now right | exact H].
  - destruct Hspec as [-> _]. do 3 eexists. split; [reflexivity|]. split; auto.
Qed.

Lemma update_never_reopens_witness :
  exists found updated files',
    Positions.update_position_status
      [PositionExamples.bought; PositionExamples.elsewhere] "OB7" "filled" "kraken" 2000 ∅
    = Some (found, updated, files') /\
    Forall Positions.complete updated.
Proof.
  destruct (update_never_reopens [PositionExamples.bought; PositionExamples.elsewhere]
              "OB7" "filled" "kraken" 2000 ∅)
    as (found & updated & files' & Hrun & Hc & _).
  - repeat constructor; simpl; eauto.
  - discriminate.
  - eauto.
Defined.

(** X18.  Saving a list of positions for an exchange and loading that
    exchange's file at time [now] gives back, in order, exactly the
    positions younger than 24 hours, whatever their exchange; the file
    afterwards holds those positions. *)
Theorem load_after_save (open_positions : list Positions.position) (exchange : string)
    (now : Q) (files : Positions.store) :
  Positions.load_open_positions now exchange
    (Positions.save_open_positions open_positions exchange files)
  = (List.filter (Positions.recent now) open_positions,
     Positions.save_open_positions (List.filter (Positions.recent now) open_positions)
       exchange files).
Proof.
  unfold Positions.load_open_positions, Positions.save_open_positions, Positions.store.
  rewrite lookup_insert_eq, recent_read, length_map.
  destruct (_ <? _)%nat eqn:E.
  - now rewrite insert_insert_eq.
  - apply Nat.ltb_ge in E.
    pose proof (filter_length_le (Positions.recent now) open_positions) as Hle.
    rewrite (filter_length_eq (Positions.recent now) open_positions) by lia.
    reflexivity.
Qed.

(** * The exchange router *)
Section RouterProofs.
Import Router.

Lemma in_insert_desc (x r : row) (l : list row) :
  In r (insert_desc x l) <-> r = x \/ In r l.
Proof.
  induction l as [|y ys IH]; simpl; [intuition|].
  destruct (Qle_bool (r_score y) (r_score x)); simpl; [intuition|].
  rewrite IH. intuition.
Qed.

Lemma in_sort_desc (r : row) (l : list row) : In r (sort_desc l) <-> In r l.
Proof.
  induction l as [|x xs IH]; simpl; [tauto|].
  rewrite in_insert_desc, IH. intuition.
Qed.

Lemma sort_desc_head (l : list row) (best : row) (rest : list row) :
  sort_desc l = best :: rest ->
  forall r, In r (sort_desc l) -> r_score r <= r_score best.
Proof.
  revert best rest. induction l as [|x xs IH]; intros best rest; simpl; [discriminate|].
  destruct (sort_desc xs) as [|y ys] eqn:Es; simpl.
  - intros H r [-> | []]. inversion H; subst. lra.
  - specialize (IH y ys eq_refl).
    destruct (Qle_bool (r_score y) (r_score x)) eqn:E.
    + apply Qle_bool_iff in E. intros H r Hin. inversion H; subst.
      destruct Hin as [-> | Hin]; [lra|]. specialize (IH r Hin). lra.
    + apply Qle_bool_false in E. intros H r Hin. inversion H; subst.
      destruct Hin as [-> | Hin]; [lra|].
      apply in_insert_desc in Hin as [-> | Hin]; [lra|].
      apply IH. now right.
Qed.

Lemma sort_desc_nil (l : list row) : sort_desc l = [] <-> l = [].
Proof.
  split; [|intros ->; reflexivity].
  destruct l as [|x xs]; [reflexivity|]. simpl. intros H.
  assert (Hin : In x (insert_desc x (sort_desc xs))) by (apply in_insert_desc; now left).
  rewrite H in Hin. contradiction.
Qed.

Lemma evaluate_spec (exchange_name : string) (f : feed) (r : row) :
  evaluate exchange_name f = Some r ->
  r_name r = exchange_name /\
  0 < r_price r /\
  last_price f = Some (Py.Num (r_price r)) /\
  exists d, top_depth f = Some d /\
            r_score r == d /\ r_liquidity r == d * r_price r.
Proof.
  unfold evaluate, top_depth.
  destruct (last_price f) as [[price|]|]; simpl; try discriminate.
  destruct (Qle_bool price 0) eqn:Ep; [discriminate|].
  apply Qle_bool_false in Ep.
  assert (Ht : Py.Qltb 0 price = true) by now apply Qltb_lt.
  rewrite Ht.
  destruct (depth f) as [| |bids asks].
  - intros H. inversion H; subst; simpl.
    repeat split; auto. exists 0. split; [reflexivity|]. split; [field; lra | lra].
  - discriminate.
  - destruct (sum_floats (firstn 10 bids) 0) as [b|]; [|discriminate].
    destruct (sum_floats (firstn 10 asks) 0) as [a|]; [|discriminate].
    intros H. inversion H; subst; simpl.
    repeat split; auto. exists (b + a). split; [reflexivity|].
    split; [field; lra | lra].
Qed.

Lemma in_compare (exchanges : list (string * feed)) (r : row) :
  In r (compare_exchanges exchanges) <->
  exists f, In (r_name r, f) exchanges /\ evaluate (r_name r) f = Some r.
Proof.
  unfold compare_exchanges. rewrite in_sort_desc, <- list_elem_of_In, list_elem_of_omap.
  split.
  - intros ([name f] & Hin & He). apply list_elem_of_In in Hin.
    destruct (evaluate_spec name f r He) as (Hn & _). subst name. eauto.
  - intros (f & Hin & He). exists (r_name r, f). split; [|exact He].
    now apply list_elem_of_In.
Qed.

End RouterProofs.

(** X19.  Every row that [compare_exchanges] returns belongs to an exchange
    of the input whose last price is positive, and its score is the volume
    of the first ten bids plus that of the first ten asks: the price
    cancels out of the score, and the liquidity is that depth times the
    price. *)
Theorem score_is_book_depth (exchanges : list (string * Router.feed)) (r : Router.row) :
  In r (Router.compare_exchanges exchanges) ->
  exists f d,
    In (Router.r_name r, f) exchanges /\
    Router.last_price f = Some (Py.Num (Router.r_price r)) /\
    0 < Router.r_price r /\
    Router.top_depth f = Some d /\
    Router.r_score r == d /\
    Router.r_liquidity r == d * Router.r_price r.
Proof.
  intros Hin. apply in_compare in Hin as (f & Hin & He).
  destruct (evaluate_spec _ _ _ He) as (_ & Hp & Hl & d & Hd & Hs & Hq).
  exists f, d. repeat split; assumption.
Qed.

Lemma score_is_book_depth_witness :
  let r := nth 0 (Router.compare_exchanges MarketExamples.venues)
             {| Router.r_name := ""; Router.r_score := 0; Router.r_price := 0;
                Router.r_liquidity := 0 |} in
  exists f d,
    In (Router.r_name r, f) MarketExamples.venues /\
    Router.last_price f = Some (Py.Num (Router.r_price r)) /\
    0 < Router.r_price r /\
    Router.top_depth f = Some d /\
    Router.r_score r == d /\
    Router.r_liquidity r == d * Router.r_price r.
Proof.
  apply (score_is_book_depth MarketExamples.venues).
  vm_compute. left. reflexivity.
Defined.

(** X20.  [select_best_exchange] returns no exchange exactly when no exchange
    of the input yields a row (no positive last price, or a failing order
    book); otherwise it returns the name of a row whose score no other row
    exceeds. *)
Theorem best_exchange_has_top_score (exchanges : list (string * Router.feed)) :
  (Router.select_best_exchange exchanges = None <->
   forall exchange_name f, In (exchange_name, f) exchanges ->
                           Router.evaluate exchange_name f = None) /\
  (forall exchange_name,
      Router.select_best_exchange exchanges = Some exchange_name ->
      exists best,
        In best (Router.compare_exchanges exchanges) /\
        Router.r_name best = exchange_name /\
        forall r, In r (Router.compare_exchanges exchanges) ->
                  Router.r_score r <= Router.r_score best).
Proof.
  split.
  - unfold Router.select_best_exchange. destruct exchanges as [|e es].
    { split; [intros _ ? ? [] | reflexivity]. }
    set (l := e :: es).
    destruct (Router.compare_exchanges l) as [|best rest] eqn:E.
    + split; [|reflexivity]. intros _ name f Hin.
      destruct (Router.evaluate name f) as [r|] eqn:He; [|reflexivity].
      assert (Hr : In r (Router.compare_exchanges l)).
      { apply in_compare. destruct (evaluate_spec _ _ _ He) as (Hn & _).
        exists f. now rewrite Hn. }
      rewrite E in Hr. contradiction.
    + split; [discriminate|]. intros Hall.
      assert (Hb : In best (Router.compare_exchanges l)) by (rewrite E; now left).
      apply in_compare in Hb as (f & Hin & He). rewrite (Hall _ _ Hin) in He.
      discriminate.
  - intros name. unfold Router.select_best_exchange.
    destruct exchanges as [|e es]; [discriminate|]. set (l := e :: es).
    destruct (Router.compare_exchanges l) as [|best rest] eqn:E; [discriminate|].
    intros H. inversion H; subst. exists best.
    split; [now left|]. split; [reflexivity|].
    intros r Hr. unfold Router.compare_exchanges in E, Hr |- *.
    rewrite <- E in Hr. exact (sort_desc_head _ _ _ E r Hr).
Qed.

Lemma best_exchange_has_top_score_witness :
  exists best,
    In best (Router.compare_exchanges MarketExamples.venues) /\
    Router.r_name best = "bitmart"%string /\
    forall r, In r (Router.compare_exchanges MarketExamples.venues) ->
              Router.r_score r <= Router.r_score best.
Proof.
  destruct (best_exchange_has_top_score MarketExamples.venues) as [_ H].
  apply H. vm_compute. reflexivity.
Defined.

(** * Open-order checks and currency codes *)
Section PairChecks.
Import Exchanges Pairs.

Lemma normalize_pair_idem (h : handle) (p : string) :
  normalize_pair h (normalize_pair h p) = normalize_pair h p.
Proof.
  destruct h; simpl; [apply kraken_normalize_pair_idem | apply bitmart_normalize_pair_idem].
Qed.

Lemma same_pair_spec (h : handle) (pair order_pair : string) :
  same_pair h pair order_pair = true <->
  normalize_pair h order_pair = normalize_pair h pair \/ order_pair = pair.
Proof.
  unfold same_pair, get_pair_format.
  rewrite !orb_true_iff, !String.eqb_eq. split.
  - intros [[H | H] | H]; [now left | | now right].
    left. rewrite H. apply normalize_pair_idem.
  - intros [H | H]; [left; now left | now right].
Qed.

Lemma before_underscore_app (a b : string) :
  has_underscore a = false ->
  before_underscore (a ++ String "_" b) = a.
Proof.
  induction a as [|c a IH]; [reflexivity|].
  rewrite append_cons. simpl.
  destruct (Ascii.eqb c "_"); simpl; [discriminate|].
  intros H. now rewrite IH.
Qed.

Lemma normalized_code (p suffix : string) :
  has_underscore p = false -> endswith p suffix = true ->
  bitmart_get_currency_code (drop_last (String.length suffix) p ++ String "_" suffix)
  = drop_last (String.length suffix) p.
Proof.
  intros Hu He. pose proof (endswith_split p suffix He) as Hs.
  assert (Ha : has_underscore (drop_last (String.length suffix) p) = false).
  { rewrite <- Hs, has_underscore_app in Hu. now apply orb_false_iff in Hu as [Hu _]. }
  unfold bitmart_get_currency_code.
  rewrite has_underscore_app. simpl. rewrite orb_true_r.
  now apply before_underscore_app.
Qed.

End PairChecks.

(** X21.  [has_open_orders_for_pair] answers True exactly when some open
    order has a non-empty pair (NO_PAIR when the key is missing) that is
    the requested pair or has the same exchange format as it; and whenever
    [has_open_sell_orders_for_pair] answers True for a pair, so does
    [has_open_orders_for_pair]. *)
Theorem open_order_checks (h : Exchanges.handle) (pair : string)
    (orders : list (string * OrderManager.order_info)) :
  (Pairs.has_open_orders_for_pair h pair (Some orders) = true <->
   exists txid o,
     In (txid, o) orders /\
     let order_pair :=
       default "NO_PAIR"%string
         (OrderManager.od_pair (default Pairs.no_descr (OrderManager.oi_descr o))) in
     order_pair <> ""%string /\
     (Exchanges.normalize_pair h order_pair = Exchanges.normalize_pair h pair \/
      order_pair = pair)) /\
  (Pairs.has_open_sell_orders_for_pair h pair (Some orders) = true ->
   Pairs.has_open_orders_for_pair h pair (Some orders) = true).
Proof.
  split.
  - unfold Pairs.has_open_orders_for_pair. rewrite existsb_exists. split.
    + intros ([txid o] & Hin & H). apply andb_true_iff in H as [Hne Hs].
      exists txid, o. split; [exact Hin|]. split.
      * intros He. rewrite He in Hne. discriminate.
      * now apply same_pair_spec.
    + intros (txid & o & Hin & Hne & Hs). exists (txid, o). split; [exact Hin|].
      apply andb_true_iff. split; [|now apply same_pair_spec].
      apply negb_true_iff, String.eqb_neq. exact Hne.
  - unfold Pairs.has_open_sell_orders_for_pair, Pairs.has_open_orders_for_pair.
    rewrite !existsb_exists. intros ([txid o] & Hin & H). exists (txid, o).
    split; [exact Hin|].
    destruct (OrderManager.od_pair (default Pairs.no_descr (OrderManager.oi_descr o)))
      as [op|]; [|discriminate].
    simpl. apply andb_true_iff in H as [H _]. exact H.
Qed.

Lemma open_order_checks_witness :
  Pairs.has_open_orders_for_pair Exchanges.KrakenHandle "XUSD"
    (Some MarketExamples.open_sell) = true.
Proof.
  destruct (open_order_checks Exchanges.KrakenHandle "XUSD" MarketExamples.open_sell)
    as [_ H].
  apply H. vm_compute. reflexivity.
Defined.

(** X22.  For a BitMart pair without separator, longer than four characters:
    when it ends in USDT, the currency code of the pair and of its
    normalized form are both the pair without USDT; when it ends in USD,
    the code of the normalized form is the pair without USD, while the code
    of the pair as given drops four characters, one more than the quote. *)
Theorem bitmart_currency_code_after_normalize (pair : string) :
  Exchanges.has_underscore pair = false ->
  (4 < String.length pair)%nat ->
  (Exchanges.endswith pair "USDT" = true ->
   Pairs.bitmart_get_currency_code (Exchanges.bitmart_normalize_pair pair)
   = Exchanges.drop_last 4 pair /\
   Pairs.bitmart_get_currency_code pair = Exchanges.drop_last 4 pair) /\
  (Exchanges.endswith pair "USDT" = false -> Exchanges.endswith pair "USD" = true ->
   Pairs.bitmart_get_currency_code (Exchanges.bitmart_normalize_pair pair)
   = Exchanges.drop_last 3 pair /\
   Pairs.bitmart_get_currency_code pair = Exchanges.drop_last 4 pair).
Proof.
  intros Hu Hlen. apply Nat.ltb_lt in Hlen.
  unfold Exchanges.bitmart_normalize_pair. rewrite Hu, Hlen. simpl. split.
  - intros He. rewrite He. split.
    + exact (normalized_code pair "USDT" Hu He).
    + unfold Pairs.bitmart_get_currency_code. now rewrite Hu, He.
  - intros Hn He. rewrite Hn, He. split.
    + exact (normalized_code pair "USD" Hu He).
    + unfold Pairs.bitmart_get_currency_code. now rewrite Hu, Hn, Hlen.
Qed.

Lemma bitmart_currency_code_after_normalize_witness :
  Pairs.bitmart_get_currency_code (Exchanges.bitmart_normalize_pair "PEPEUSD")
  = Exchanges.drop_last 3 "PEPEUSD" /\
  Pairs.bitmart_get_currency_code "PEPEUSD" = Exchanges.drop_last 4 "PEPEUSD".
Proof.
  apply (bitmart_currency_code_after_normalize "PEPEUSD"); try reflexivity.
  vm_compute. lia.
Defined.

(** * The optimal sell price *)

(** X23.  Given a current price, [calculate_optimal_sell_price] returns a
    price that is at least the current price and at least the marked-up
    buy price, both rounded to the price precision; for a non-negative buy
    price and fee it is therefore at least the rounded buy price. *)
Theorem optimal_sell_price_bounds (current_price buy_price : Q)
    (price_decimals : Z) (estimated_fees : Q) :
  0 <= buy_price -> 0 <= estimated_fees ->
  exists sell_price,
    Pricing.calculate_optimal_sell_price (Some current_price) buy_price price_decimals
      estimated_fees = Some sell_price /\
    Py.round current_price price_decimals <= sell_price /\
    Py.round (buy_price * (1 + estimated_fees * 2 + 0.005)) price_decimals
    <= sell_price /\
    Py.round buy_price price_decimals <= sell_price.
Proof.
  intros Hb Hf. unfold Pricing.calculate_optimal_sell_price.
  destruct (Py.Qltb (buy_price * (1 + estimated_fees * 2 + 0.005)) current_price) eqn:E;
    (eexists; split; [reflexivity|]).
  - apply Qltb_lt in E. split; [lra|]. split; apply round_mono; [lra | nra].
  - apply Qltb_ge in E. split; [now apply round_mono|]. split; [lra|].
    apply round_mono. nra.
Qed.

Lemma optimal_sell_price_bounds_witness :
  exists sell_price,
    Pricing.calculate_optimal_sell_price (Some 0.02) 0.01 5 0.0026 = Some sell_price /\
    Py.round 0.02 5 <= sell_price /\
    Py.round (0.01 * (1 + 0.0026 * 2 + 0.005)) 5 <= sell_price /\
    Py.round 0.01 5 <= sell_price.
Proof.
  apply (optimal_sell_price_bounds 0.02 0.01 5 0.0026); vm_compute; discriminate.
Defined.

(** * The record of orders already seen *)
Section RecordingProofs.
Import Recording.

Lemma dict_has_set (k k' : string) (m : mark) (d : dict) :
  dict_has k (dict_set k' m d) = String.eqb k' k || dict_has k d.
Proof.
  induction d as [|[k0 v] rest IH]; simpl; [reflexivity|].
  destruct (String.eqb k0 k') eqn:E; simpl.
  - apply String.eqb_eq in E. subst k0. now destruct (String.eqb k' k).
  - rewrite IH. now destruct (String.eqb k0 k), (String.eqb k' k).
Qed.

Lemma dict_get_set_other (k k' : string) (m : mark) (d : dict) :
  k <> k' -> dict_get k (dict_set k' m d) = dict_get k d.
Proof.
  intros Hne. induction d as [|[k0 v] rest IH]; simpl.
  - destruct (String.eqb k' k) eqn:E; [|reflexivity].
    apply String.eqb_eq in E. congruence.
  - destruct (String.eqb k0 k') eqn:E; simpl.
    + apply String.eqb_eq in E. subst k0.
      destruct (String.eqb k' k) eqn:E'; [|reflexivity].
      apply String.eqb_eq in E'. congruence.
    + now rewrite IH.
Qed.

Lemma dict_get_set_new (k : string) (m : mark) (d : dict) :
  dict_get k (dict_set k m d) = Some m.
Proof.
  induction d as [|[k0 v] rest IH]; simpl.
  - now rewrite String.eqb_refl.
  - destruct (String.eqb k0 k) eqn:E; simpl; now rewrite E.
Qed.

Lemma dict_get_has (k : string) (m : mark) (d : dict) :
  dict_get k d = Some m -> dict_has k d = true.
Proof.
  induction d as [|[k0 v] rest IH]; simpl; [discriminate|].
  destruct (String.eqb k0 k); [reflexivity|]. exact IH.
Qed.

Lemma read_lines_written (d acc : dict) :
  exists d', read_lines (map (fun '(k, m) => Line k m) d) acc = Some d' /\
             forall k, dict_has k d' = dict_has k acc || dict_has k d.
Proof.
  revert acc. induction d as [|[k0 v] rest IH]; intros acc; simpl.
  - exists acc. split; [reflexivity|]. intros k. now rewrite orb_false_r.
  - destruct (IH (dict_set k0 v acc)) as (d' & Hr & Hk). exists d'.
    split; [exact Hr|]. intros k. rewrite Hk, dict_has_set.
    now destruct (String.eqb k0 k), (dict_has k acc).
Qed.

Lemma load_written (d : dict) :
  exists d', load (write d) = Some d' /\ forall k, dict_has k d' = dict_has k d.
Proof.
  destruct (read_lines_written d []) as (d' & Hr & Hk). exists d'.
  split; [exact Hr|]. intros k. now rewrite Hk.
Qed.

Lemma float_field_num (f : option Py.raw) (q : Q) :
  Profit.float_field f = Some q -> f = Some (Py.Num q).
Proof.
  destruct f as [[x|]|]; simpl; try discriminate. now intros [= ->].
Qed.

Lemma examine_recorded (now : Q) (recorded : dict) (txid : string)
    (order_info : Profit.closed_order) (t : trade_data) :
  examine now recorded txid order_info = Recorded t ->
  dict_has txid recorded = false /\ td_order_id t = txid /\ passed now order_info t.
Proof.
  unfold examine, passed.
  destruct (dict_has txid recorded); [discriminate|].
  destruct (Profit.co_status order_info) as [status|]; [|discriminate].
  destruct (String.eqb status "closed") eqn:Es; simpl; [|discriminate].
  apply String.eqb_eq in Es. subst status.
  destruct (negb (Qeq_bool (default 0 (Profit.closetm order_info)) 0)
            && Py.Qltb 1800 (now - default 0 (Profit.closetm order_info))) eqn:Ea;
    [discriminate|].
  destruct (Profit.co_descr order_info) as [descr|]; [|discriminate].
  destruct (Profit.cd_pair descr) as [pr|] eqn:Ep; [|discriminate].
  destruct (Profit.cd_type descr) as [ty|] eqn:Et; [|discriminate].
  destruct (String.eqb pr "" || String.eqb ty "") eqn:Ee; [discriminate|].
  apply orb_false_iff in Ee as [Ee1 Ee2].
  apply String.eqb_neq in Ee1, Ee2.
  destruct (Profit.float_field (Profit.co_price order_info)) as [price|] eqn:E1;
    [|discriminate].
  destruct (Profit.float_field (Profit.co_vol order_info)) as [volume|] eqn:E2;
    [|discriminate].
  destruct (Profit.float_field (Profit.co_fee order_info)) as [fee|] eqn:E3;
    [|discriminate].
  intros [= <-]. simpl.
  apply float_field_num in E1, E2, E3.
  split; [reflexivity|]. split; [reflexivity|].
  split; [reflexivity|]. split; [eauto|].
  split; [assumption|]. split; [assumption|].
  split; [assumption|]. split; [assumption|]. split; [assumption|].
  split; [reflexivity|].
  intros Hnz. apply andb_false_iff in Ea as [Ea | Ea].
  - apply negb_false_iff, Qeq_bool_iff in Ea. contradiction.
  - now apply Qltb_ge in Ea.
Qed.

Lemma bought_shift (ts : list trade_data) (a : Q) :
  fold_left (fun acc t =>
               if String.eqb (td_type t) "buy" then acc + td_price t * td_volume t
               else acc) ts a
  == a + bought ts.
Proof.
  unfold bought. revert a. induction ts as [|t ts IH]; intros a; simpl; [lra|].
  rewrite (IH (if String.eqb (td_type t) "buy" then a + _ else a)).
  rewrite (IH (if String.eqb (td_type t) "buy" then 0 + _ else 0)).
  destruct (String.eqb (td_type t) "buy"); lra.
Qed.

Lemma bought_cons (t : trade_data) (ts : list trade_data) :
  bought (t :: ts)
  == (if String.eqb (td_type t) "buy" then td_price t * td_volume t else 0) + bought ts.
Proof.
  unfold bought at 1. simpl. rewrite bought_shift.
  destruct (String.eqb (td_type t) "buy"); lra.
Qed.

(** The invariant of the loop. *)
Lemma scan_spec (exchange_name : string) (now : Q) (track_values : bool)
    (orders : list (string * Profit.closed_order)) :
  forall st st' ok,
    scan exchange_name now track_values orders st = (st', ok) ->
    exists new,
      trades st' = (trades st ++ new)%list /\
      Forall (fun t => dict_has (td_order_id t) (recorded_orders st) = false /\
                       exists order_info, In (td_order_id t, order_info) orders /\
                                          passed now order_info t) new /\
      List.NoDup (trade_ids new) /\
      filled_buy_order_value st'
      == filled_buy_order_value st + (if track_values then bought new else 0) /\
      (open_positions st = None -> open_positions st' = None) /\
      (ok = true ->
       (forall k, dict_has k (recorded_orders st') = true <->
                  dict_has k (recorded_orders st) = true \/ In k (trade_ids new)) /\
       (forall k m, dict_get k (recorded_orders st) = Some m ->
                    dict_get k (recorded_orders st') = Some m) /\
       (forall t, In t new ->
                  exists m, dict_get (td_order_id t) (recorded_orders st') = Some m /\
                            m_exchange m = exchange_name /\
                            m_status m = "closed"%string)).
Proof.
  induction orders as [|[txid order_info] rest IH]; intros st st' ok; simpl.
  - intros [= <- <-]. exists []. rewrite app_nil_r.
    split; [reflexivity|]. split; [constructor|]. split; [constructor|].
    split; [destruct track_values; unfold bought; simpl; lra|].
    split; [auto|]. intros _. split; [intros k; simpl; tauto|].
    split; [auto|]. intros t [].
  - destruct (examine now (recorded_orders st) txid order_info) as [| |t] eqn:Ex.
    + intros H. destruct (IH _ _ _ H) as (new & Ht & Hf & Hn & Hv & Hp & Hok).
      exists new. split; [exact Ht|]. split.
      { eapply List.Forall_impl; [|exact Hf]. intros t (Hd & o & Hin & Hpass).
        split; [exact Hd|]. exists o. split; [now right | exact Hpass]. }
      split; [exact Hn|]. split; [exact Hv|]. split; [exact Hp | exact Hok].
    + intros [= <- <-]. exists []. rewrite app_nil_r.
      split; [reflexivity|]. split; [constructor|]. split; [constructor|].
      split; [destruct track_values; unfold bought; simpl; lra|].
      split; [auto | discriminate].
    + destruct (examine_recorded _ _ _ _ _ Ex) as (Hnot & Hid & Hpass).
      set (filled := if String.eqb (td_type t) "buy" && track_values
                     then filled_buy_order_value st + td_price t * td_volume t
                     else filled_buy_order_value st).
      set (m := {| m_time := default now (Profit.closetm order_info);
                   m_exchange := exchange_name; m_status := "closed" |}).
      assert (Hfilled : filled == filled_buy_order_value st
                        + (if track_values
                           then (if String.eqb (td_type t) "buy"
                                 then td_price t * td_volume t else 0)
                           else 0)).
      { unfold filled. destruct (String.eqb (td_type t) "buy"), track_values; simpl; lra. }
      assert (Hstep : forall st1,
                 recorded_orders st1 = dict_set txid m (recorded_orders st) ->
                 filled_buy_order_value st1 = filled ->
                 trades st1 = (trades st ++ [t])%list ->
                 (open_positions st = None -> open_positions st1 = None) ->
                 scan exchange_name now track_values rest st1 = (st', ok) ->
                 exists new,
                   trades st' = (trades st ++ new)%list /\
                   Forall (fun t => dict_has (td_order_id t) (recorded_orders st) = false /\
                             exists o, In (td_order_id t, o) ((txid, order_info) :: rest) /\
                                       passed now o t) new /\
                   List.NoDup (trade_ids new) /\
                   filled_buy_order_value st'
                   == filled_buy_order_value st
                      + (if track_values then bought new else 0) /\
                   (open_positions st = None -> open_positions st' = None) /\
                   (ok = true ->
                    (forall k, dict_has k (recorded_orders st') = true <->
                               dict_has k (recorded_orders st) = true \/
                               In k (trade_ids new)) /\
                    (forall k m0, dict_get k (recorded_orders st) = Some m0 ->
                                  dict_get k (recorded_orders st') = Some m0) /\
                    (forall t0, In t0 new ->
                                exists m0, dict_get (td_order_id t0) (recorded_orders st')
                                           = Some m0 /\
                                           m_exchange m0 = exchange_name /\
                                           m_status m0 = "closed"%string))).
      { intros st1 Hr1 Hf1 Ht1 Hp1 H.
        destruct (IH _ _ _ H) as (new & Ht & Hf & Hn & Hv & Hp & Hok).
        rewrite Hr1 in Hf, Hok. rewrite Hf1 in Hv. rewrite Ht1 in Ht.
        assert (Hfresh : forall t0, In t0 new ->
                           dict_has (td_order_id t0) (recorded_orders st) = false /\
                           td_order_id t0 <> txid).
        { intros t0 Hin. rewrite List.Forall_forall in Hf.
          destruct (Hf t0 Hin) as [Hd _]. rewrite dict_has_set in Hd.
          apply orb_false_iff in Hd as [Hd1 Hd2]. split; [exact Hd2|].
          apply String.eqb_neq in Hd1. congruence. }
        exists (t :: new). split; [now rewrite Ht, <- app_assoc|].
        split.
        { constructor.
          - rewrite Hid. split; [exact Hnot|]. exists order_info.
            split; [now left | exact Hpass].
          - rewrite List.Forall_forall in Hf |- *. intros t0 Hin.
            destruct (Hf t0 Hin) as (_ & o & Hino & Hpo).
            split; [apply (Hfresh t0 Hin)|]. exists o. split; [now right | exact Hpo]. }
        split.
        { simpl. constructor; [|exact Hn]. rewrite Hid. intros Hin.
          apply in_map_iff in Hin as (t0 & Hid0 & Hin0).
          destruct (Hfresh t0 Hin0) as [_ Hne]. congruence. }
        split.
        { rewrite Hv, Hfilled. destruct track_values; [|lra].
          rewrite bought_cons. lra. }
        split; [auto|].
        intros Hk. destruct (Hok Hk) as (Hhas & Hget & Hmark).
        split; [|split].
        - intros k. rewrite Hhas, dict_has_set, orb_true_iff, String.eqb_eq.
          simpl. rewrite Hid. tauto.
        - intros k m0 Hg. apply Hget. rewrite dict_get_set_other; [exact Hg|].
          intros ->. apply dict_get_has in Hg. congruence.
        - intros t0 [<- | Hin]; [|now apply Hmark].
          exists m. split; [|split; reflexivity]. apply Hget. rewrite Hid.
          apply dict_get_set_new. }
      destruct (open_positions st) as [positions|] eqn:Eo.
      * destruct (Positions.update_position_status positions txid "filled"
                    exchange_name now (position_files st)) as [[[found ps'] files']|].
        -- intros H. refine (Hstep _ _ _ _ _ H); [reflexivity|reflexivity|reflexivity|discriminate].
        -- intros [= <- <-]. simpl. exists [t].
           split; [reflexivity|]. split.
           { constructor; [|constructor]. rewrite Hid. split; [exact Hnot|].
             exists order_info. split; [now left | exact Hpass]. }
           split; [simpl; constructor; [intros []|constructor]|].
           split.
           { fold filled. rewrite Hfilled. destruct track_values; [|lra].
             rewrite bought_cons. unfold bought. simpl. lra. }
           split; [discriminate | discriminate].
      * intros H. refine (Hstep _ _ _ _ _ H); [reflexivity|reflexivity|reflexivity|reflexivity].
Qed.

(** What a pass that reads the file [f] as [recorded] does, in terms of
    the loop. *)
Lemma pass_scan (exchange_name : string) (now : Q)
    (orders : list (string * Profit.closed_order))
    (positions : option (list Positions.position)) (files : Positions.store) (f : file)
    (values : option (gmap string Q)) (recorded : dict) :
  load f = Some recorded ->
  exists st ok,
    scan exchange_name now (bool_decide (values <> None)) orders
      {| recorded_orders := recorded; filled_buy_order_value := 0; trades := [];
         open_positions := positions; position_files := files |} = (st, ok) /\
    let p := check_and_record_completed_trades exchange_name now (Closed orders)
               positions files f values in
    p_trades p = trades st /\
    p_ending p = (if ok then Finished else Failed) /\
    (ok = true -> p_file p = write (recorded_orders st)) /\
    (ok = false -> p_file p = f /\ p_values p = values).
Proof.
  intros Hl. unfold check_and_record_completed_trades. rewrite Hl.
  destruct (scan _ _ _ _ _) as [st ok]. exists st, ok. split; [reflexivity|].
  destruct ok; simpl.
  - split; [reflexivity|]. split; [reflexivity|]. split; [reflexivity|discriminate].
  - split; [reflexivity|]. split; [reflexivity|]. split; [discriminate|].
    intros _. split; reflexivity.
Qed.

Lemma pass_trades_fresh (exchange_name : string) (now : Q) (closed_orders : answer)
    (positions : option (list Positions.position)) (files : Positions.store) (f : file)
    (values : option (gmap string Q)) (recorded : dict) (t : trade_data) :
  load f = Some recorded ->
  In t (p_trades (check_and_record_completed_trades exchange_name now closed_orders
                    positions files f values)) ->
  dict_has (td_order_id t) recorded = false.
Proof.
  intros Hl. destruct closed_orders as [| |orders].
  - intros [].
  - unfold check_and_record_completed_trades. rewrite Hl. intros [].
  - destruct (pass_scan exchange_name now orders positions files f values recorded Hl)
      as (st & ok & Hs & Ht & _ & _ & _).
    rewrite Ht. destruct (scan_spec _ _ _ _ _ _ _ Hs) as (new & Hn & Hf & _).
    simpl in Hn. rewrite Hn. intros Hin. rewrite List.Forall_forall in Hf.
    now destruct (Hf t Hin).
Qed.

Lemma pass_unreadable (exchange_name : string) (now : Q) (closed_orders : answer)
    (positions : option (list Positions.position)) (files : Positions.store) (f : file)
    (values : option (gmap string Q)) :
  load f = None ->
  let p := check_and_record_completed_trades exchange_name now closed_orders
             positions files f values in
  p_trades p = [] /\ p_file p = f /\ p_ending p <> Finished.
Proof.
  intros Hl. unfold check_and_record_completed_trades. rewrite Hl.
  destruct closed_orders; simpl; repeat split; discriminate.
Qed.

Lemma marked_noted (order_id exchange_name : string) (now : Q) (f : file) :
  load f <> None -> marked order_id (record_open_order order_id exchange_name now f).
Proof.
  intros Hl. unfold record_open_order. destruct (load f) as [d|]; [|congruence].
  unfold marked.
  destruct (load_written (dict_set order_id
              {| m_time := now; m_exchange := exchange_name; m_status := "open" |} d))
    as (d' & Hd & Hk).
  rewrite Hd, Hk, dict_has_set, String.eqb_refl. reflexivity.
Qed.

Lemma marked_note (k order_id exchange_name : string) (now : Q) (f : file) :
  marked k f -> marked k (record_open_order order_id exchange_name now f).
Proof.
  unfold record_open_order, marked at 1. destruct (load f) as [d|] eqn:Hl.
  - intros Hk. unfold marked.
    destruct (load_written (dict_set order_id
                {| m_time := now; m_exchange := exchange_name; m_status := "open" |} d))
      as (d' & Hd & Hk').
    rewrite Hd, Hk', dict_has_set, Hk. apply orb_true_r.
  - intros _. unfold marked. now rewrite Hl.
Qed.

Lemma marked_pass (k exchange_name : string) (now : Q) (closed_orders : answer)
    (positions : option (list Positions.position)) (files : Positions.store) (f : file)
    (values : option (gmap string Q)) :
  marked k f ->
  marked k (p_file (check_and_record_completed_trades exchange_name now closed_orders
                      positions files f values)).
Proof.
  intros Hm. destruct (load f) as [recorded|] eqn:Hl.
  2: { destruct (pass_unreadable exchange_name now closed_orders positions files f
                   values Hl) as (_ & Hf & _). now rewrite Hf. }
  destruct closed_orders as [| |orders].
  - exact Hm.
  - unfold check_and_record_completed_trades. rewrite Hl. exact Hm.
  - destruct (pass_scan exchange_name now orders positions files f values recorded Hl)
      as (st & ok & Hs & _ & _ & Hfin & Hfail).
    destruct ok.
    + rewrite (Hfin eq_refl).
      destruct (scan_spec _ _ _ _ _ _ _ Hs) as (new & _ & _ & _ & _ & _ & Hok).
      destruct (Hok eq_refl) as (Hhas & _).
      destruct (load_written (recorded_orders st)) as (d' & Hd & Hk).
      unfold marked in Hm |- *. rewrite Hl in Hm. rewrite Hd, Hk.
      apply Hhas. now left.
    + destruct (Hfail eq_refl) as [Hf _]. now rewrite Hf.
Qed.

Lemma marked_later (k : string) (f f' : file) :
  later f f' -> marked k f -> marked k f'.
Proof.
  induction 1; intros Hm; [exact Hm | apply marked_note | apply marked_pass]; auto.
Qed.

Lemma marked_not_recorded (k exchange_name : string) (now : Q) (closed_orders : answer)
    (positions : option (list Positions.position)) (files : Positions.store) (f : file)
    (values : option (gmap string Q)) :
  marked k f ->
  ~ In k (trade_ids (p_trades (check_and_record_completed_trades exchange_name now
                                 closed_orders positions files f values))).
Proof.
  intros Hm Hin. destruct (load f) as [recorded|] eqn:Hl.
  - apply in_map_iff in Hin as (t & <- & Hin).
    pose proof (pass_trades_fresh _ _ _ _ _ _ _ _ _ Hl Hin) as Hfresh.
    unfold marked in Hm. rewrite Hl in Hm. congruence.
  - destruct (pass_unreadable exchange_name now closed_orders positions files f
                values Hl) as (Ht & _). rewrite Ht in Hin. contradiction.
Qed.

Lemma py_max_compat (a b : Q) : a == b -> Py.max 0 a == Py.max 0 b.
Proof.
  intros H. unfold Py.max.
  destruct (Py.Qltb 0 a) eqn:Ea, (Py.Qltb 0 b) eqn:Eb; try lra.
  - apply Qltb_lt in Ea. apply Qltb_ge in Eb. lra.
  - apply Qltb_ge in Ea. apply Qltb_lt in Eb. lra.
Qed.

Lemma py_max_zero (a : Q) : 0 <= Py.max 0 a.
Proof.
  unfold Py.max. destruct (Py.Qltb 0 a) eqn:E; [|lra]. apply Qltb_lt in E. lra.
Qed.

End RecordingProofs.

(** X24.  An order id noted by [record_open_order] in a readable file is
    never handed to [record_trade]: whatever notes and passes follow, no
    pass of [check_and_record_completed_trades] records a trade with that
    id, although the order may be among the closed orders of the answer. *)
Theorem noted_order_is_never_recorded (order_id noted_on : string) (noted_at : Q)
    (f f' : Recording.file) (exchange_name : string) (now : Q)
    (closed_orders : Recording.answer)
    (positions : option (list Positions.position)) (files : Positions.store)
    (values : option (gmap string Q)) :
  Recording.later (Recording.record_open_order order_id noted_on noted_at f) f' ->
  ~ In order_id
      (Recording.trade_ids
         (Recording.p_trades
            (Recording.check_and_record_completed_trades exchange_name now closed_orders
               positions files f' values))).
Proof.
  intros Hlater. apply marked_not_recorded. apply (marked_later _ _ _ Hlater).
  destruct (Recording.load f) as [d|] eqn:Hl.
  - apply marked_noted. congruence.
  - unfold Recording.record_open_order, Recording.marked. now rewrite Hl, Hl.
Qed.

Lemma noted_order_is_never_recorded_witness :
  ~ In "OB7"%string
      (Recording.trade_ids
         (Recording.p_trades
            (Recording.check_and_record_completed_trades "kraken" 1500
               (Recording.Closed RecordingExamples.two_fills) None ∅
               (Recording.record_open_order "OB7" "kraken" 900 None)
               (Some RecordingExamples.ledger)))).
Proof.
  apply (noted_order_is_never_recorded "OB7" "kraken" 900 None).
  apply Recording.later_refl.
Defined.

(** X25.  Every trade a pass hands to [record_trade] stems from an order of
    the answer with the trade's id: its status is 'closed', its pair and
    type are not empty, price, volume and fee are its numbers, and its
    closing time, when set, is at most 30 minutes back. *)
Theorem recorded_trades_are_sound (exchange_name : string) (now : Q)
    (closed_orders : Recording.answer)
    (positions : option (list Positions.position)) (files : Positions.store)
    (f : Recording.file) (values : option (gmap string Q)) (t : Recording.trade_data) :
  In t (Recording.p_trades
          (Recording.check_and_record_completed_trades exchange_name now closed_orders
             positions files f values)) ->
  exists orders order_info,
    closed_orders = Recording.Closed orders /\
    In (Recording.td_order_id t, order_info) orders /\
    Recording.passed now order_info t.
Proof.
  destruct (Recording.load f) as [recorded|] eqn:Hl.
  2: { destruct (pass_unreadable exchange_name now closed_orders positions files f
                   values Hl) as (Ht & _). rewrite Ht. intros []. }
  destruct closed_orders as [| |orders].
  - intros [].
  - unfold Recording.check_and_record_completed_trades. rewrite Hl. intros [].
  - destruct (pass_scan exchange_name now orders positions files f values recorded Hl)
      as (st & ok & Hs & Ht & _).
    rewrite Ht. destruct (scan_spec _ _ _ _ _ _ _ Hs) as (new & Hn & Hf & _).
    simpl in Hn. rewrite Hn. intros Hin. rewrite List.Forall_forall in Hf.
    destruct (Hf t Hin) as (_ & o & Hino & Hp). exists orders, o. auto.
Qed.

Lemma recorded_trades_are_sound_witness :
  let t := {| Recording.td_type := "buy"; Recording.td_pair := "XUSD";
              Recording.td_price := 0.01; Recording.td_volume := 100;
              Recording.td_fees := 0.0026; Recording.td_order_id := "OB7";
              Recording.td_timestamp := 1000 |} in
  exists orders order_info,
    Recording.Closed RecordingExamples.two_fills = Recording.Closed orders /\
    In (Recording.td_order_id t, order_info) orders /\
    Recording.passed 1500 order_info t.
Proof.
  apply (recorded_trades_are_sound "kraken" 1500 _ None ∅ None
           (Some RecordingExamples.ledger)).
  vm_compute. left. reflexivity.
Defined.

(** X26.  A pass that reaches its end has recorded no id twice and none that
    the file held; the file it writes holds exactly the ids it held before
    and the ids of the trades recorded, the old ids with their old marks
    and each recorded id with the name of the exchange and the status
    'closed'. *)
Theorem finished_pass_marks_its_trades (exchange_name : string) (now : Q)
    (closed_orders : Recording.answer)
    (positions : option (list Positions.position)) (files : Positions.store)
    (f : Recording.file) (values : option (gmap string Q)) :
  let p := Recording.check_and_record_completed_trades exchange_name now closed_orders
             positions files f values in
  Recording.p_ending p = Recording.Finished ->
  exists recorded recorded',
    Recording.load f = Some recorded /\
    Recording.p_file p = Recording.write recorded' /\
    List.NoDup (Recording.trade_ids (Recording.p_trades p)) /\
    (forall k, Recording.dict_has k recorded' = true <->
               Recording.dict_has k recorded = true \/
               In k (Recording.trade_ids (Recording.p_trades p))) /\
    (forall k m, Recording.dict_get k recorded = Some m ->
                 Recording.dict_get k recorded' = Some m) /\
    (forall t, In t (Recording.p_trades p) ->
               Recording.dict_has (Recording.td_order_id t) recorded = false /\
               exists m, Recording.dict_get (Recording.td_order_id t) recorded' = Some m /\
                         Recording.m_exchange m = exchange_name /\
                         Recording.m_status m = "closed"%string).
Proof.
  intros p Hend. destruct (Recording.load f) as [recorded|] eqn:Hl.
  2: { destruct (pass_unreadable exchange_name now closed_orders positions files f
                   values Hl) as (_ & _ & Hne). contradiction. }
  destruct closed_orders as [| |orders]; try discriminate.
  { unfold p, Recording.check_and_record_completed_trades in Hend.
    rewrite Hl in Hend. discriminate. }
  destruct (pass_scan exchange_name now orders positions files f values recorded Hl)
    as (st & ok & Hs & Ht & He & Hfin & _).
  fold p in Ht, He, Hfin. rewrite He in Hend. destruct ok; [|discriminate].
  destruct (scan_spec _ _ _ _ _ _ _ Hs) as (new & Hn & Hf & Hnd & _ & _ & Hok).
  simpl in Hn, Hf, Hok. destruct (Hok eq_refl) as (Hhas & Hget & Hmark).
  exists recorded, (Recording.recorded_orders st). rewrite Ht, Hn.
  split; [reflexivity|]. split; [now apply Hfin|]. split; [exact Hnd|].
  split; [exact Hhas|]. split; [exact Hget|].
  intros t Hin. rewrite List.Forall_forall in Hf. destruct (Hf t Hin) as [Hd _].
  split; [exact Hd | now apply Hmark].
Qed.

Lemma finished_pass_marks_its_trades_witness :
  let p := Recording.check_and_record_completed_trades "kraken" 1500
             (Recording.Closed RecordingExamples.two_fills) None ∅ None
             (Some RecordingExamples.ledger) in
  exists recorded recorded',
    Recording.load None = Some recorded /\
    Recording.p_file p = Recording.write recorded' /\
    List.NoDup (Recording.trade_ids (Recording.p_trades p)) /\
    (forall k, Recording.dict_has k recorded' = true <->
               Recording.dict_has k recorded = true \/
               In k (Recording.trade_ids (Recording.p_trades p))) /\
    (forall k m, Recording.dict_get k recorded = Some m ->
                 Recording.dict_get k recorded' = Some m) /\
    (forall t, In t (Recording.p_trades p) ->
               Recording.dict_has (Recording.td_order_id t) recorded = false /\
               exists m, Recording.dict_get (Recording.td_order_id t) recorded' = Some m /\
                         Recording.m_exchange m = "kraken"%string /\
                         Recording.m_status m = "closed"%string).
Proof.
  apply (finished_pass_marks_its_trades "kraken" 1500
           (Recording.Closed RecordingExamples.two_fills) None ∅ None
           (Some RecordingExamples.ledger)).
  vm_compute. reflexivity.
Defined.

(** X27.  After a pass that reached its end, no later pass records a trade
    with an id that pass recorded, whatever notes and passes come between
    and whatever the later answers hold. *)
Theorem no_trade_recorded_twice (exchange_name : string) (now : Q)
    (closed_orders : Recording.answer)
    (positions : option (list Positions.position)) (files : Positions.store)
    (f : Recording.file) (values : option (gmap string Q))
    (f' : Recording.file) (exchange_name' : string) (now' : Q)
    (closed_orders' : Recording.answer)
    (positions' : option (list Positions.position)) (files' : Positions.store)
    (values' : option (gmap string Q)) (order_id : string) :
  let p := Recording.check_and_record_completed_trades exchange_name now closed_orders
             positions files f values in
  Recording.p_ending p = Recording.Finished ->
  Recording.later (Recording.p_file p) f' ->
  In order_id (Recording.trade_ids (Recording.p_trades p)) ->
  ~ In order_id
      (Recording.trade_ids
         (Recording.p_trades
            (Recording.check_and_record_completed_trades exchange_name' now'
               closed_orders' positions' files' f' values'))).
Proof.
  intros p Hend Hlater Hin. apply marked_not_recorded.
  apply (marked_later _ _ _ Hlater).
  destruct (Recording.load f) as [recorded|] eqn:Hl.
  2: { destruct (pass_unreadable exchange_name now closed_orders positions files f
                   values Hl) as (_ & _ & Hne). contradiction. }
  destruct closed_orders as [| |orders]; try discriminate.
  { unfold p, Recording.check_and_record_completed_trades in Hend.
    rewrite Hl in Hend. discriminate. }
  destruct (pass_scan exchange_name now orders positions files f values recorded Hl)
    as (st & ok & Hs & Ht & He & Hfin & _).
  fold p in Ht, He, Hfin. rewrite He in Hend. destruct ok; [|discriminate].
  destruct (scan_spec _ _ _ _ _ _ _ Hs) as (new & Hn & _ & _ & _ & _ & Hok).
  simpl in Hn. destruct (Hok eq_refl) as (Hhas & _).
  rewrite (Hfin eq_refl). unfold Recording.marked.
  destruct (load_written (Recording.recorded_orders st)) as (d' & Hd & Hk).
  rewrite Hd, Hk. apply Hhas. right. rewrite Ht, Hn in Hin. exact Hin.
Qed.

Lemma no_trade_recorded_twice_witness :
  let p := Recording.check_and_record_completed_trades "kraken" 1500
             (Recording.Closed RecordingExamples.two_fills) None ∅ None
             (Some RecordingExamples.ledger) in
  ~ In "OB7"%string
      (Recording.trade_ids
         (Recording.p_trades
            (Recording.check_and_record_completed_trades "kraken" 1600
               (Recording.Closed RecordingExamples.two_fills) None ∅
               (Recording.p_file p) (Some RecordingExamples.ledger)))).
Proof.
  apply (no_trade_recorded_twice "kraken" 1500
           (Recording.Closed RecordingExamples.two_fills) None ∅ None
           (Some RecordingExamples.ledger)).
  - vm_compute. reflexivity.
  - apply Recording.later_refl.
  - vm_compute. left. reflexivity.
Defined.

(** X28.  A pass that fails (an unreadable file, an answer without
    ['closed'], a missing or malformed field, a tracked position without
    order id) leaves the file and the ledger as they were, so that every
    trade it has handed to [record_trade] before failing is still unmarked
    in the file. *)
Theorem failed_pass_leaves_trades_unmarked (exchange_name : string) (now : Q)
    (closed_orders : Recording.answer)
    (positions : option (list Positions.position)) (files : Positions.store)
    (f : Recording.file) (values : option (gmap string Q)) :
  let p := Recording.check_and_record_completed_trades exchange_name now closed_orders
             positions files f values in
  Recording.p_ending p = Recording.Failed ->
  Recording.p_file p = f /\
  Recording.p_values p = values /\
  forall t, In t (Recording.p_trades p) ->
            exists recorded,
              Recording.load (Recording.p_file p) = Some recorded /\
              Recording.dict_has (Recording.td_order_id t) recorded = false.
Proof.
  intros p Hend. destruct (Recording.load f) as [recorded|] eqn:Hl.
  2: { destruct (pass_unreadable exchange_name now closed_orders positions files f
                   values Hl) as (Ht & Hf & _). fold p in Ht, Hf.
       split; [exact Hf|]. split.
       - unfold p, Recording.check_and_record_completed_trades. rewrite Hl.
         now destruct closed_orders.
       - rewrite Ht. intros t []. }
  assert (Hfile : Recording.p_file p = f /\ Recording.p_values p = values).
  { destruct closed_orders as [| |orders]; try discriminate.
    - unfold p, Recording.check_and_record_completed_trades. rewrite Hl. now split.
    - destruct (pass_scan exchange_name now orders positions files f values recorded Hl)
        as (st & ok & _ & _ & He & _ & Hfail).
      fold p in He, Hfail. rewrite He in Hend. destruct ok; [discriminate|].
      now apply Hfail. }
  destruct Hfile as [Hf Hv]. split; [exact Hf|]. split; [exact Hv|].
  intros t Hin. exists recorded. rewrite Hf. split; [exact Hl|].
  exact (pass_trades_fresh _ _ _ _ _ _ _ _ _ Hl Hin).
Qed.

Lemma failed_pass_leaves_trades_unmarked_witness :
  let p := Recording.check_and_record_completed_trades "kraken" 1500
             (Recording.Closed RecordingExamples.fill_then_broken) None ∅ None
             (Some RecordingExamples.ledger) in
  Recording.trade_ids (Recording.p_trades p) = ["OB7"%string] /\
  Recording.p_file p = None /\
  Recording.p_values p = Some RecordingExamples.ledger.
Proof.
  split; [vm_compute; reflexivity|].
  destruct (failed_pass_leaves_trades_unmarked "kraken" 1500
              (Recording.Closed RecordingExamples.fill_then_broken) None ∅ None
              (Some RecordingExamples.ledger)) as (Hf & Hv & _).
  - vm_compute. reflexivity.
  - split; [exact Hf | exact Hv].
Defined.

(** X29.  A pass changes no ledger entry but that of its own exchange, and
    that one only when it reaches its end with a positive value of recorded
    buys: the entry then becomes the old entry (0 when missing) less the
    price times volume of every buy recorded, but not less than 0. *)
Theorem ledger_after_pass (exchange_name : string) (now : Q)
    (closed_orders : Recording.answer)
    (positions : option (list Positions.position)) (files : Positions.store)
    (f : Recording.file) (values : gmap string Q) :
  let p := Recording.check_and_record_completed_trades exchange_name now closed_orders
             positions files f (Some values) in
  exists values',
    Recording.p_values p = Some values' /\
    (forall other, other <> exchange_name -> values' !! other = values !! other) /\
    (Recording.p_ending p <> Recording.Finished \/
     Recording.bought (Recording.p_trades p) <= 0 -> values' = values) /\
    (Recording.p_ending p = Recording.Finished ->
     0 < Recording.bought (Recording.p_trades p) ->
     exists x, values' !! exchange_name = Some x /\ 0 <= x /\
               x == Py.max 0 (default 0 (values !! exchange_name)
                              - Recording.bought (Recording.p_trades p))).
Proof.
  intros p.
  assert (Hsame : forall e, Recording.p_values p = Some values ->
                            Recording.p_ending p = e -> e <> Recording.Finished ->
                            exists values',
    Recording.p_values p = Some values' /\
    (forall other, other <> exchange_name -> values' !! other = values !! other) /\
    (Recording.p_ending p <> Recording.Finished \/
     Recording.bought (Recording.p_trades p) <= 0 -> values' = values) /\
    (Recording.p_ending p = Recording.Finished ->
     0 < Recording.bought (Recording.p_trades p) ->
     exists x, values' !! exchange_name = Some x /\ 0 <= x /\
               x == Py.max 0 (default 0 (values !! exchange_name)
                              - Recording.bought (Recording.p_trades p)))).
  { intros e Hv He Hne. exists values. split; [exact Hv|]. split; [reflexivity|].
    split; [reflexivity|]. intros Hfin. congruence. }
  destruct (Recording.load f) as [recorded|] eqn:Hl.
  2: { destruct (pass_unreadable exchange_name now closed_orders positions files f
                   (Some values) Hl) as (_ & _ & Hne). fold p in Hne.
       apply (Hsame (Recording.p_ending p)); [|reflexivity|exact Hne].
       unfold p, Recording.check_and_record_completed_trades. rewrite Hl.
       now destruct closed_orders. }
  destruct closed_orders as [| |orders].
  - apply (Hsame Recording.NothingToCheck); [reflexivity|reflexivity|discriminate].
  - apply (Hsame Recording.Failed); [| |discriminate];
      unfold p, Recording.check_and_record_completed_trades; now rewrite Hl.
  - destruct (pass_scan exchange_name now orders positions files f (Some values)
                recorded Hl) as (st & ok & Hs & Ht & He & _ & Hfail).
    fold p in Ht, He, Hfail. destruct ok.
    2: { destruct (Hfail eq_refl) as [_ Hv].
         apply (Hsame Recording.Failed); [exact Hv|exact He|discriminate]. }
    destruct (scan_spec _ _ _ _ _ _ _ Hs) as (new & Hn & _ & _ & Hsum & _).
    simpl in Hn, Hsum. rewrite Ht, Hn.
    assert (Hb : Recording.filled_buy_order_value st == Recording.bought new).
    { rewrite Hsum. lra. }
    unfold p, Recording.check_and_record_completed_trades. rewrite Hl, Hs. simpl.
    destruct (Py.Qltb 0 (Recording.filled_buy_order_value st)) eqn:E.
    + apply Qltb_lt in E. eexists. split; [reflexivity|].
      split; [intros other Hne; now rewrite lookup_insert_ne|].
      split.
      { intros [Hne | Hle]; [congruence | lra]. }
      intros _ _. eexists. split; [apply lookup_insert_eq|].
      split; [apply py_max_zero|]. apply py_max_compat. lra.
    + apply Qltb_ge in E. exists values. split; [reflexivity|].
      split; [reflexivity|]. split; [reflexivity|]. intros _ Hpos. lra.
Qed.

Lemma ledger_after_pass_witness :
  let p := Recording.check_and_record_completed_trades "kraken" 1500
             (Recording.Closed RecordingExamples.two_fills) None ∅ None
             (Some RecordingExamples.ledger) in
  exists values',
    Recording.p_values p = Some values' /\
    exists x, values' !! "kraken"%string = Some x /\ 0 <= x /\
              x == Py.max 0 (default 0 (RecordingExamples.ledger !! "kraken"%string)
                             - Recording.bought (Recording.p_trades p)).
Proof.
  destruct (ledger_after_pass "kraken" 1500 (Recording.Closed RecordingExamples.two_fills)
              None ∅ None RecordingExamples.ledger) as (values' & Hv & _ & _ & H).
  exists values'. split; [exact Hv|]. apply H.
  - vm_compute. reflexivity.
  - vm_compute. reflexivity.
Defined.

(** * The session metrics *)


